(** * Abrox chat simulator: message pool, population, presence, typing, playback

    A shallow embedding of the generators and schedulers of the repository
    (message-pool.js, synthetic-people.js, presence-manager.js,
    typing-engine.js, simulation-engine.js) and the properties of its
    specification, each proved or refuted on the embedding.

    Conventions.
    - A JavaScript number that the code keeps integral (indices, seeds,
      millisecond timestamps, counts) is a [Z], the value of the double;
      32-bit operators are written with their wrap-around, and a sum or a
      difference of seeds or timestamps is rounded to the double it becomes
      ([F64.flz]).  A probability option is a [Q]: every double is a
      rational, and the comparison of two doubles is exact.
    - A string is the list of its UTF-16 code units, as [charCodeAt] and
      [slice] see it.
    - [Date.now()] and [Math.random()] are inputs of the functions that read
      them.
    - A function that can throw returns in [result]. *)

From Stdlib Require Import ZArith QArith Qround List Lia Bool String Ascii.
From Stdlib Require Import Sorting.Sorted Sorting.Permutation.
From stdpp Require Import base option list gmap.
Import ListNotations.
Local Open Scope Z_scope.

(** ** JavaScript numerics *)

Module JS.

Definition two32 : Z := 4294967296.
Definition two31 : Z := 2147483648.

(** [v >>> 0] *)
Definition ToUint32 (v : Z) : Z := v mod two32.

(** [v | 0] *)
Definition ToInt32 (v : Z) : Z :=
    let u := v mod two32 in if u <? two31 then u else u - two32.

(** [a << n] *)
Definition shl (a n : Z) : Z := ToInt32 (Z.shiftl (ToInt32 a) n).

(** [a >>> n] *)
Definition shru (a n : Z) : Z := Z.shiftr (ToUint32 a) n.

(** [a ^ b] *)
Definition xor (a b : Z) : Z := ToInt32 (Z.lxor (ToInt32 a) (ToInt32 b)).

(** [Math.max(a, Math.min(b, v))], the [clamp(v,a,b)] helper of every file *)
Definition clamp (v a b : Z) : Z := Z.max a (Z.min b v).

(** [a || b] on numbers: 0 (like NaN and undefined) is falsy. *)
Definition or_num (a : option Z) (b : Z) : Z :=
    match a with
    | Some v => if v =? 0 then b else v
    | None => b
    end.

(** [Math.round] of the rational [p/q], [q > 0]: nearest integer, a tie
      goes up. *)
Definition round_div (p q : Z) : Z := (2 * p + q) / (2 * q).

End JS.

(** ** The seeded generator

    [xorshift32(seed)] closes over one variable [x]; a generator is that
    variable.  [rnd()] returns [x / 4294967296] for the new [x], so a draw is
    represented by its numerator, which is also the new state. *)

Module Rng.

Definition DEFAULT_SEED : Z := 0x811c9dc5.

(** [let x = (seed >>> 0) || 0x811c9dc5] *)
Definition xorshift32 (seed : Z) : Z :=
    let x := JS.ToUint32 seed in if x =? 0 then DEFAULT_SEED else x.

(** One call of the returned closure: the new value of [x]. *)
Definition next (x : Z) : Z :=
    let x := JS.ToInt32 x in                      (* x |= 0 *)
    let x := JS.ToUint32 (JS.xor x (JS.shl x 13)) in   (* x ^= x << 13; x >>>= 0 *)
    let x := JS.ToUint32 (JS.xor x (JS.shru x 17)) in  (* x ^= x >>> 17; x >>>= 0 *)
    let x := JS.ToUint32 (JS.xor x (JS.shl x 5)) in    (* x ^= x << 5; x >>>= 0 *)
    JS.ToUint32 x.

(** The numerator of the [n]-th draw (from 0) of [xorshift32(seed)]. *)
Definition draws (x : Z) (n : nat) : Z := Nat.iter (S n) next x.

Definition stream (seed : Z) (n : nat) : Z := draws (xorshift32 seed) n.

(** [Math.floor(rnd() * len)] for the draw [d]; the product is exact in a
      double for [len < 2^21]. *)
Definition index (d len : Z) : Z := (d * len) / JS.two32.

(** [rnd() < p] for the draw [d] and the double [p]. *)
Definition below (d : Z) (p : Q) : bool :=
    d * Zpos (Qden p) <? Qnum p * JS.two32.

End Rng.

Example xorshift32_one : Rng.next (Rng.xorshift32 1) = 270369.
Proof. reflexivity. Qed.

(** ** Exceptions

    The only exception the modelled code can raise is the ReferenceError of
    an identifier that is bound nowhere. *)

Inductive exn : Type := ReferenceError (ident : string).

Inductive result (A : Type) : Type :=
| Ok (a : A)
| Throw (e : exn).
Arguments Ok {A} a.
Arguments Throw {A} e.

Definition rbind {A B} (r : result A) (k : A -> result B) : result B :=
  match r with
  | Ok a => k a
  | Throw e => Throw e
  end.

Notation "'let!' x ':=' r 'in' k" := (rbind r (fun x => k))
  (at level 10, x pattern, r at level 200, k at level 200, only parsing).

(** [for] over a list of indices, threading an accumulator; the first
    exception ends the loop. *)
Section ForEach.
Context {I S : Type} (body : I -> S -> result S).

Fixpoint for_each (l : list I) (s : S) : result S :=
    match l with
    | [] => Ok s
    | i :: l => match body i s with
                | Ok s' => for_each l s'
                | Throw e => Throw e
                end
    end.
End ForEach.

(** [while(cond){ body }] with a bound on the number of iterations. *)
Section While.
Context {S : Type} (cond : S -> bool) (body : S -> result S).

Fixpoint while (fuel : nat) (s : S) : result S :=
    match fuel with
    | O => Ok s
    | Datatypes.S fuel =>
        if cond s then
          match body s with
          | Ok s' => while fuel s'
          | Throw e => Throw e
          end
        else Ok s
    end.
End While.

(** The indices [0 .. n-1] of a [for(let i=0;i<n;i++)] loop. *)
Definition upto (n : Z) : list Z := map Z.of_nat (seq 0 (Z.to_nat n)).

(** ** Strings and doubles *)

Module Str.

(** UTF-16 code units *)
Definition t : Type := list Z.

(** An ASCII literal. *)
Definition lit (s : string) : t :=
    map (fun a => Z.of_N (N_of_ascii a)) (list_ascii_of_string s).

(** [s.slice(0, n)] *)
Definition slice0 (n : nat) (s : t) : t := firstn n s.

Section Digits.
Fixpoint digits (fuel : nat) (n : Z) (acc : t) : t :=
      match fuel with
      | O => acc
      | S fuel =>
          let acc := (48 + n mod 10) :: acc in
          if n <? 10 then acc else digits fuel (n / 10) acc
      end.
End Digits.

(** The decimal rendering of a non-negative integer, as [+] with a string
      produces it. *)
Definition dec (n : Z) : t := digits (S (Z.to_nat (Z.log2 n))) n [].

(** [||] on strings: the empty string is falsy. *)
Definition or_str (a : option t) (b : t) : t :=
    match a with
    | Some (c :: s) => c :: s
    | _ => b
    end.

End Str.

Module F64.

(** Nearest integer to [p/q], ties to even; [0 <= p], [0 < q]. *)
Definition rne (p q : Z) : Z :=
    let d := p / q in
    let r := p mod q in
    if 2 * r <? q then d
    else if q <? 2 * r then d + 1
    else if Z.even d then d else d + 1.

(** The binary64 number nearest to the rational [x] (round to nearest,
      ties to even), for [x] in the normal range: 53 significant bits. *)
Definition fl (x : Q) : Q :=
    let p := Z.abs (Qnum x) in
    let q := Zpos (Qden x) in
    if p =? 0 then 0%Q
    else
      let k := Z.log2 p - Z.log2 q in
      let ge := if 0 <=? k then q * 2 ^ k <=? p else q <=? p * 2 ^ (- k) in
      let e := (if ge then k else k - 1) - 52 in
      let m := if 0 <=? e then rne p (q * 2 ^ e) else rne (p * 2 ^ (- e)) q in
      let v := if 0 <=? e then inject_Z (m * 2 ^ e)
               else Qmake m (Z.to_pos (2 ^ (- e))) in
      if Qnum x <? 0 then Qopp v else v.

(** The same for an integer: the double an integral sum or difference
    becomes.  Up to [2^53] every integer is a double. *)
Definition flz (z : Z) : Z :=
  let p := Z.abs z in
  if p <=? 2 ^ 53 then z
  else
    let e := Z.log2 p - 52 in
    Z.sgn z * (rne p (2 ^ e) * 2 ^ e).

Definition div (a b : Q) : Q := fl (a / b).
Definition mul (a b : Q) : Q := fl (a * b).
Definition add (a b : Q) : Q := fl (a + b).
Definition sub (a b : Q) : Q := fl (a - b).

(** [Math.round]: nearest integer, a tie goes up. *)
Definition round (x : Q) : Z := Qfloor (x + (1 # 2)).

End F64.

Example fl_third : Qred (F64.fl (1 # 3)) = (6004799503160661 # 18014398509481984)%Q.
Proof. vm_compute. reflexivity. Qed.

Example dec_2026 : Str.dec 2026 = Str.lit "2026".
Proof. vm_compute. reflexivity. Qed.

(** ** message-pool.js *)

Module MessagePool.

Definition contentHash (str : Str.t) : Z :=
    JS.ToUint32
      (fold_left (fun h c => JS.xor (JS.shl h 5 + h) c) str 5381).

(** The [hashCode] of this file (the one declared at its end). *)
Definition hashCode (s : Str.t) : Z :=
    JS.ToUint32
      (fold_left (fun h c => JS.ToInt32 ((JS.shl h 5 - h) + c)) s 0).

(** *** makeLRU

      The [Map] is the list of its keys in insertion order, the oldest
      first. *)
Record lru : Type := { cap : Z; set : list Z }.

Definition makeLRU (c : Z) : lru :=
    {| cap := Z.max 32 (JS.or_num (Some c) 4096); set := [] |}.

Definition has (l : lru) (k : Z) : bool := existsb (Z.eqb k) (set l).

Definition push (l : lru) (k : Z) : lru :=
    let s := if has l k then List.filter (fun x => negb (Z.eqb k x)) (set l)
             else set l in
    let s := s ++ [k] in
    {| cap := cap l;
       set := if cap l <? Z.of_nat (length s) then tl s else s |}.

Definition EM_DASH : Z := 0x2014.

Definition DEFAULT_PHRASES : list Str.t :=
    [ Str.lit "Anyone watching the market?";
      Str.lit "I'll wait for the retracement.";
      Str.lit "Bought more on the dip " ++ [0xD83D; 0xDE80];
      Str.lit "Stop loss set.";
      Str.lit "TP hit, taking profit.";
      Str.lit "Can someone share the signal?";
      Str.lit "Nice call on that last trade.";
      Str.lit "That candle was wild " ++ [0xD83D; 0xDE05];
      Str.lit "Holding long, strong fundamentals.";
      Str.lit "What level are you watching?";
      Str.lit "See you in the green.";
      Str.lit "Avoid FOMO, set a plan.";
      Str.lit "News just popped " ++ [EM_DASH] ++ Str.lit " check it out.";
      Str.lit "Looking for entry around here.";
      Str.lit "Testing strategy " ++ [EM_DASH] ++ Str.lit " ignore my trades." ].

Definition EMOJI : list Str.t :=
    [ [0x2728]; [0xD83D; 0xDD25]; [0xD83D; 0xDC8E]; [0xD83E; 0xDD8A];
      [0xD83D; 0xDC33]; [0xD83D; 0xDE80]; [0xD83D; 0xDE05]; [0xD83D; 0xDD12];
      [0xD83C; 0xDFAF]; [0xD83D; 0xDCB0]; [0xD83D; 0xDCC8]; [0x2B50];
      [0xD83D; 0xDE0A]; [0xD83D; 0xDE0E] ].

Definition SAMPLE_ATTACHMENTS : list Str.t :=
    [ Str.lit "chart-1.png"; Str.lit "screenshot-01.png";
      Str.lit "trade-report.pdf"; Str.lit "voice-msg-12.mp3";
      Str.lit "screenshot-02.jpg" ].

(** An entry of [window.sampleMembers] or [SyntheticPeople.people], as far
      as a message reads it. *)
Record member : Type :=
    { m_name : option Str.t;
      m_displayName : option Str.t;
      m_role : option Str.t;
      m_avatar : option Str.t }.

(** ['msg_' + (i + 1) + '_' + hashCode(...)]: the two numbers of the id. *)
Definition msgid : Type := (Z * Z)%type.

Record message : Type :=
    { id : msgid;
      name : Str.t;
      displayName : Str.t;
      role : Str.t;
      avatar : Str.t;
      text : Str.t;
      time : Z;
      replyTo : option msgid;
      attachment : option Str.t }.

Record meta_t : Type :=
    { size : Z;
      seedBase : Z;
      spanDays : Z;
      replyFraction : Q;
      attachmentFraction : Q }.

(** The mutable fields of the [MessagePool] object. *)
Record pool : Type :=
    { messages : list message;
      meta : meta_t;
      templateFragments : list Str.t }.

Definition initial : pool :=
    {| messages := [];
       meta := {| size := 1000; seedBase := 4000; spanDays := 365;
                  replyFraction := 3 # 100; attachmentFraction := 4 # 100 |};
       templateFragments := DEFAULT_PHRASES |}.

(** The options object; [None] is an absent ([undefined]) field. *)
Record opts : Type :=
    { o_size : option Z;
      o_seedBase : option Z;
      o_startTimestamp : option Z;
      o_endTimestamp : option Z;
      o_spanDays : option Z;
      o_jitterMs : option Z;
      o_replyFraction : option Q;
      o_attachmentFraction : option Q;
      o_templates : option (list Str.t);
      o_dedupeLRU : option Z;
      o_pageSize : option Z }.

Definition no_opts : opts :=
    {| o_size := None; o_seedBase := None; o_startTimestamp := None;
       o_endTimestamp := None; o_spanDays := None; o_jitterMs := None;
       o_replyFraction := None; o_attachmentFraction := None;
       o_templates := None; o_dedupeLRU := None; o_pageSize := None |}.

(** [a || b] on probabilities. *)
Definition or_frac (a : option Q) (b : Q) : Q :=
    match a with
    | Some v => if Qnum v =? 0 then b else v
    | None => b
    end.

(** [arr[Math.floor(rnd()*arr.length)] || DEFAULT_PHRASES[Math.floor(rnd()*DEFAULT_PHRASES.length)]]
      from the generator [x]: the fragment and the generator after it. *)
Definition pick_fragment (arr : list Str.t) (x : Z) : Str.t * Z :=
    let d := Rng.next x in
    match arr !! Z.to_nat (Rng.index d (Z.of_nat (length arr))) with
    | Some (c :: s) => (c :: s, d)
    | _ =>
        let d' := Rng.next d in
        (default [] (DEFAULT_PHRASES !! Z.to_nat (Rng.index d' 15)), d')
    end.

(** [(Math.round((rnd()*980 + 20) * 100) / 100).toFixed(2)] for the draw
      [d]: every product is exact, and the result has two decimals. *)
Definition price (d : Z) : Str.t :=
    let n := JS.round_div ((d * 980 + 20 * JS.two32) * 100) JS.two32 in
    let c := n mod 100 in
    Str.dec (n / 100) ++ Str.lit "." ++ [48 + c / 10; 48 + c mod 10].

Definition DAY_MS : Z := 86400000.
Definition YEAR_MS : Z := 365 * 24 * 60 * 60 * 1000.

Section Generator.

(** message-pool.js calls [pickFrom(EMOJI, rnd)] but declares no
        [pickFrom]: the identifier is looked up in the global scope when the
        call is reached.  None of the scripts of the repository binds it
        there (synthetic-people.js keeps its own inside its function scope),
        so as shipped the lookup fails, which is [None]; [Some f] is a page
        on which a global [pickFrom] exists, [f arr x] being its result on
        the generator [x] and the generator it leaves. *)
Variable pickFrom : option (list Str.t -> Z -> Str.t * Z).

Definition call_pickFrom (arr : list Str.t) (x : Z) : result (Str.t * Z) :=
      match pickFrom with
      | Some f => Ok (f arr x)
      | None => Throw (ReferenceError "pickFrom")
      end.

(** [window.sampleMembers] if it is a non-empty array, else
        [SyntheticPeople.people]. *)
Variable members : list member.

Definition member_label (i : Z) : Str.t := Str.dec (Z.rem i 500 + 1).

(** The text of message [i]: fragments, price or emoji token, ending.
        Returns the generator after the last draw. *)
Definition message_text (templates : list Str.t) (x : Z)
      : result (Str.t * Z) :=
      let d := Rng.next x in
      let fragCount := if Rng.below d (12 # 100) then 2%nat else 1%nat in
      let '(frag, x) := pick_fragment templates d in
      let text := frag in
      let '(text, x) :=
        match fragCount with
        | 2%nat => let '(frag, x) := pick_fragment templates x in
                   (text ++ Str.lit " " ++ frag, x)
        | _ => (text, x)
        end in
      let d := Rng.next x in
      let! (text, x) :=
        (if Rng.below d (18 # 100) then
           let d := Rng.next d in
           Ok (text ++ Str.lit " " ++ [EM_DASH] ++ Str.lit " $" ++ price d, d)
         else
           let d := Rng.next d in
           if Rng.below d (12 # 100) then
             let! (e, x) := call_pickFrom EMOJI d in
             Ok (text ++ Str.lit " " ++ e, x)
           else Ok (text, d)) in
      let d := Rng.next x in
      if Rng.below d (12 # 100) then
        let d := Rng.next d in
        Ok (text ++ (if Rng.below d (1 # 2) then Str.lit "!" else Str.lit "..."), d)
      else Ok (text, d).

(** [startTs] and [endTs] *)
Definition window_of (this : pool) (now : Z) (o : opts) : Z * Z :=
      match o_startTimestamp o, o_endTimestamp o with
      | None, None =>
          let spanDays :=
            JS.or_num (o_spanDays o) (JS.or_num (Some (spanDays (meta this))) 365) in
          (F64.flz (now - F64.flz (spanDays * DAY_MS)), now)
      | s, e => (JS.or_num s (F64.flz (now - YEAR_MS)), JS.or_num e now)
      end.

(** [baseTime] *)
Definition base_time (this : pool) (now i : Z) (o : opts) : Z :=
      let '(startTs, endTs) := window_of this now o in
      let poolSize := JS.or_num (o_size o) (JS.or_num (Some (size (meta this))) 1) in
      let frac :=
        if 1 <? poolSize
        then F64.div (inject_Z i) (inject_Z (Z.max 1 (F64.flz (poolSize - 1))))
        else 0%Q in
      F64.flz (startTs
               + F64.round (F64.mul frac (inject_Z (F64.flz (endTs - startTs))))).

(** [Math.round((rnd() - 0.5) * 2 * jitterMs)] for the draw [d] *)
Definition local_jitter (d : Z) (o : opts) : Z :=
      let jitterMs := JS.or_num (o_jitterMs o) (1000 * 60 * 30) in
      F64.round (F64.mul ((d - JS.two31) # 2147483648) (inject_Z jitterMs)).

(** [_generateMessageForIndex(i, opts)], reading the clock value [now]. *)
Definition _generateMessageForIndex (this : pool) (now : Z) (i : Z) (o : opts)
      : result message :=
      let seedBase :=
        JS.or_num (o_seedBase o) (JS.or_num (Some (seedBase (meta this))) 4000) in
      let x := Rng.xorshift32 (F64.flz (seedBase + F64.flz (i * 15721))) in
      let '(sender, x) :=
        match members with
        | [] => (None, x)
        | _ => let d := Rng.next x in
               (members !! Z.to_nat (Rng.index d (Z.of_nat (length members))), d)
        end in
      let sender :=
        match sender with
        | Some s => s
        | None => {| m_name := None;
                     m_displayName := Some (Str.lit "Member " ++ member_label i);
                     m_role := Some (Str.lit "VERIFIED");
                     m_avatar := Some [] |}
        end in
      let templates :=
        match o_templates o with
        | Some t => t
        | None => templateFragments this
        end in
      let! (text, x) := message_text templates x in
      let d := Rng.next x in
      let '(attachment, x) :=
        if Rng.below d (or_frac (o_attachmentFraction o)
                          (or_frac (Some (attachmentFraction (meta this))) (4 # 100)))
        then let d := Rng.next d in
             (SAMPLE_ATTACHMENTS !! Z.to_nat (Rng.index d 5), d)
        else (None, d) in
      let d := Rng.next x in
      let '(replyTo, x) :=
        if Rng.below d (or_frac (o_replyFraction o)
                          (or_frac (Some (replyFraction (meta this))) (3 # 100)))
           && negb (Nat.eqb (length (messages this)) 0)
        then let d := Rng.next d in
             let idx := Rng.index d (Z.min (Z.of_nat (length (messages this))) 100) in
             (id <$> (messages this !! Z.to_nat idx), d)
        else (None, d) in
      let d := Rng.next x in
      let time := Z.max 0 (F64.flz (base_time this now i o + local_jitter d o)) in
      Ok {| id := (i + 1, hashCode (Str.slice0 80 text));
            name := Str.or_str (m_name sender)
                      (Str.or_str (m_displayName sender)
                         (Str.lit "Member_" ++ member_label i));
            displayName := Str.or_str (m_displayName sender)
                             (Str.or_str (m_name sender)
                                (Str.lit "Member " ++ member_label i));
            role := Str.or_str (m_role sender) (Str.lit "VERIFIED");
            avatar := Str.or_str (m_avatar sender) [];
            text := text;
            time := time;
            replyTo := replyTo;
            attachment := attachment |}.

(** [preGenerateTemplates(n)] *)
Definition preGenerateTemplates (this : pool) (n : Z) : pool :=
      let n := Z.max 50 (JS.or_num (Some n) 100) in
      let base := templateFragments this in
      let rnd := Rng.xorshift32 (JS.or_num (Some (seedBase (meta this))) 4000) in
      let step '(frags, x) :=
        let '(a, x) := pick_fragment base x in
        let '(b, x) := pick_fragment base x in
        let d := Rng.next x in
        let joiner := if Rng.below d (1 # 2)
                      then Str.lit " " ++ [EM_DASH] ++ Str.lit " "
                      else Str.lit " " in
        (frags ++ [Str.slice0 280 (a ++ joiner ++ b)], d) in
      let frags :=
        fst (Nat.iter (Z.to_nat (n - Z.of_nat (length base))) step (base, rnd)) in
      {| messages := messages this; meta := meta this;
         templateFragments := frags |}.

(** [arr.sort((a,b) => a.time - b.time)]: the sort is stable, so on
        integral times its result is the one of a stable insertion sort. *)
Fixpoint insert_by_time (m : message) (l : list message) : list message :=
      match l with
      | [] => [m]
      | h :: t => if time m <=? time h then m :: l else h :: insert_by_time m t
      end.

Definition sort_by_time (l : list message) : list message :=
      fold_right insert_by_time [] l.

Definition set_time (m : message) (t : Z) : message :=
      {| id := id m; name := name m; displayName := displayName m;
         role := role m; avatar := avatar m; text := text m; time := t;
         replyTo := replyTo m; attachment := attachment m |}.

(** [for(i=1;...) if(arr[i].time <= arr[i-1].time) arr[i].time = arr[i-1].time + 1000],
        [prev] being the time already stored at [i-1]. *)
Fixpoint bump_from (prev : Z) (l : list message) : list message :=
      match l with
      | [] => []
      | m :: l =>
          let m := if time m <=? prev then set_time m (F64.flz (prev + 1000))
                   else m in
          m :: bump_from (time m) l
      end.

Definition bump (l : list message) : list message :=
      match l with
      | [] => []
      | m :: l => m :: bump_from (time m) l
      end.

(** The state of the dedupe loop of one index. *)
Record attempt : Type :=
      { a_msg : message; a_hash : Z; a_attempts : Z }.

Definition text_hash (m : message) : Z :=
      contentHash (Str.slice0 240 (text m)).

Definition or_else {A} (a b : option A) : option A :=
      match a with
      | Some _ => a
      | None => b
      end.

Section Dedupe.
Variables (this : pool) (now : Z) (o : opts) (size seedBase : Z).
Variables (i : Z) (cache : lru).

(** The options of the first generation of index [i]. *)
Definition gen_opts : opts :=
        {| o_size := Some size; o_seedBase := Some seedBase;
           o_startTimestamp := o_startTimestamp o;
           o_endTimestamp := o_endTimestamp o;
           o_spanDays := o_spanDays o; o_jitterMs := o_jitterMs o;
           o_replyFraction := o_replyFraction o;
           o_attachmentFraction := o_attachmentFraction o;
           o_templates := Some (templateFragments this);
           o_dedupeLRU := None; o_pageSize := None |}.

(** The options of a regeneration. *)
Definition alt_opts (attempts : Z) : opts :=
        {| o_size := Some size;
           o_seedBase := Some (F64.flz (F64.flz (seedBase + attempts) + 1));
           o_startTimestamp := o_startTimestamp o;
           o_endTimestamp := o_endTimestamp o;
           o_spanDays := None; o_jitterMs := o_jitterMs o;
           o_replyFraction := None; o_attachmentFraction := None;
           o_templates := Some (templateFragments this);
           o_dedupeLRU := None; o_pageSize := None |}.

Definition dedupe_cond (a : attempt) : bool :=
        has cache (a_hash a) && (a_attempts a <? 8).

Definition dedupe_body (a : attempt) : result attempt :=
        let attempts := a_attempts a in
        let m := a_msg a in
        let! alt :=
          _generateMessageForIndex this now (i + attempts + 1) (alt_opts attempts) in
        let! token :=
          (if Z.even attempts then
             let! (e, _) :=
               call_pickFrom EMOJI
                 (Rng.xorshift32 (F64.flz (F64.flz (seedBase + attempts) + i))) in
             Ok (Str.lit " " ++ e)
           else Ok []) in
        let m :=
          {| id := id m; name := name m; displayName := displayName m;
             role := role m; avatar := avatar m;
             text := text alt ++ token; time := time m;
             replyTo := or_else (replyTo m) (replyTo alt);
             attachment := or_else (attachment m) (attachment alt) |} in
        Ok {| a_msg := m; a_hash := text_hash m; a_attempts := attempts + 1 |}.

(** One iteration of the generation loop: the message stored at
          [arr[i]], the hash pushed and the attempts spent. *)
Definition generate_one : result attempt :=
        let! m := _generateMessageForIndex this now i gen_opts in
        while dedupe_cond dedupe_body 8
          {| a_msg := m; a_hash := text_hash m; a_attempts := 0 |}.
End Dedupe.

(** The generation loop: the cache and the entries generated so far, the
        latest first. *)
Definition generate_step (this : pool) (clock : Z -> Z) (o : opts)
      (size seedBase : Z) (i : Z) (st : lru * list attempt)
      : result (lru * list attempt) :=
      let '(cache, done) := st in
      let! a := generate_one this (clock i) o size seedBase i cache in
      Ok (push cache (a_hash a), a :: done).

Definition pool_size (this : pool) (o : opts) : Z :=
      JS.clamp (JS.or_num (o_size o) (JS.or_num (Some (size (meta this))) 1000))
        10 200000.

Definition pool_seed (this : pool) (o : opts) : Z :=
      JS.or_num (o_seedBase o) (JS.or_num (Some (seedBase (meta this))) 4000).

(** The pool object once [generatePool] has stored the size and the seed
        and settled the template fragments. *)
Definition prepare (this : pool) (o : opts) : pool :=
      let this :=
        {| messages := messages this;
           meta := {| size := pool_size this o; seedBase := pool_seed this o;
                      spanDays := spanDays (meta this);
                      replyFraction := replyFraction (meta this);
                      attachmentFraction := attachmentFraction (meta this) |};
           templateFragments := templateFragments this |} in
      match o_templates o with
      | Some t => {| messages := messages this; meta := meta this;
                     templateFragments := t |}
      | None =>
          let n := Z.of_nat (length (templateFragments this)) in
          if n <? 200 then preGenerateTemplates this (Z.max 200 n) else this
      end.

(** The entries in generation order, before the sort. *)
Definition generated (this : pool) (clock : Z -> Z) (o : opts)
      : result (list attempt) :=
      let p := prepare this o in
      let cache := makeLRU (JS.or_num (o_dedupeLRU o) 4096) in
      let! (_, done) :=
        for_each (generate_step p clock o (size (meta p)) (seedBase (meta p)))
          (upto (size (meta p))) (cache, []) in
      Ok (rev done).

(** [generatePool(opts)]: what it returns or throws, and the pool object
        it leaves.  [clock i] is the value of [Date.now()] while index [i] is
        generated. *)
Definition generatePool (this : pool) (clock : Z -> Z) (o : opts)
      : result (list message) * pool :=
      let p := prepare this o in
      match generated this clock o with
      | Ok entries =>
          let arr := bump (sort_by_time (map a_msg entries)) in
          (Ok arr, {| messages := arr; meta := meta p;
                      templateFragments := templateFragments p |})
      | Throw e => (Throw e, p)
      end.

(** [getRange(start, count)] *)
Definition getRange (this : pool) (start count : Z) : list message :=
      let start := Z.max 0 start in
      let count := Z.max 0 count in
      let len := Z.of_nat (length (messages this)) in
      let stop := Z.min len (start + count) in
      firstn (Z.to_nat (stop - start)) (skipn (Z.to_nat start) (messages this)).

(** The object [createGeneratorView] returns: over the stored array when
        there is one, else over the generator, with the options it closed
        over. *)
Inductive view : Type :=
    | StoredView (pageSize : Z) (totalSize : Z)
    | GeneratorView (pageSize : Z) (o : opts).

Definition createGeneratorView (this : pool) (o : opts) : view :=
      let pageSize := Z.max 10 (JS.or_num (o_pageSize o) 200) in
      match messages this with
      | [] => GeneratorView pageSize o
      | _ => StoredView pageSize (Z.of_nat (length (messages this)))
      end.

(** The options the generator view passes for every index. *)
Definition view_opts (this : pool) (o : opts) : opts :=
      {| o_size := Some (JS.or_num (o_size o) (size (meta this)));
         o_seedBase := Some (JS.or_num (o_seedBase o) (seedBase (meta this)));
         o_startTimestamp := o_startTimestamp o;
         o_endTimestamp := o_endTimestamp o;
         o_spanDays := o_spanDays o; o_jitterMs := o_jitterMs o;
         o_replyFraction := None; o_attachmentFraction := None;
         o_templates := Some (templateFragments this);
         o_dedupeLRU := None; o_pageSize := None |}.

(** The body of the page loop: [arr.push(self._generateMessageForIndex(idx, ...))]
    for [idx = start + j]; [clock idx] is the value of [Date.now()] while
    index [idx] is generated. *)
Definition page_body (this : pool) (clock : Z -> Z) (start : Z) (o : opts)
  (j : Z) (arr : list message) : result (list message) :=
  let idx := start + j in
  let! m := _generateMessageForIndex this (clock idx) idx (view_opts this o) in
  Ok (arr ++ [m]).

(** [view.nextPage(start)] *)
Definition nextPage (this : pool) (clock : Z -> Z) (v : view) (start : Z)
  : result (list message) :=
  let start := Z.max 0 start in
  match v with
  | StoredView pageSize _ => Ok (getRange this start pageSize)
  | GeneratorView pageSize o =>
      let! arr := for_each (page_body this clock start o) (upto pageSize) [] in
      Ok (sort_by_time arr)
  end.

(** [getMessageByIndex(i)]; [None] is [null]. *)
Definition getMessageByIndex (this : pool) (i : Z) : option message :=
  if (i <? 0) || (Z.of_nat (length (messages this)) <=? i) then None
  else messages this !! Z.to_nat i.

(** [view.get(i)], reading the clock value [now]. *)
Definition view_get (this : pool) (now : Z) (v : view) (i : Z)
  : result (option message) :=
  match v with
  | StoredView _ _ => Ok (getMessageByIndex this i)
  | GeneratorView _ o =>
      let! m := _generateMessageForIndex this now i (view_opts this o) in
      Ok (Some m)
  end.

End Generator.

End MessagePool.

(** ** Arrays indexed by a number *)

Module Arr.

(** [arr[i]]: [undefined] outside the array. *)
Definition get {A} (arr : list A) (i : Z) : option A :=
  if i <? 0 then None else arr !! Z.to_nat i.

(** [arr[i] = v] for an index inside the array. *)
Definition set {A} (arr : list A) (i : Z) (v : A) : list A :=
  if i <? 0 then arr else <[Z.to_nat i := v]> arr.

End Arr.

(** ** synthetic-people.js *)

Module SyntheticPeople.

(** A JavaScript number where the code does not keep it integral: the size
    option. *)
Inductive num : Type :=
| NaN
| Inf (negative : bool)
| Fin (q : Q).

(** Truthiness of a number: [0] and [NaN] are falsy. *)
Definition truthy (v : num) : bool :=
  match v with
  | NaN => false
  | Inf _ => true
  | Fin q => negb (Qnum q =? 0)
  end.

(** [a || b] *)
Definition num_or (a : option num) (b : num) : num :=
  match a with
  | Some v => if truthy v then v else b
  | None => b
  end.

(** [Math.min(b, v)] and [Math.max(a, v)] for a finite bound. *)
Definition num_min (b : Q) (v : num) : num :=
  match v with
  | NaN => NaN
  | Inf true => Inf true
  | Inf false => Fin b
  | Fin q => Fin (if Qle_bool b q then b else q)
  end.

Definition num_max (a : Q) (v : num) : num :=
  match v with
  | NaN => NaN
  | Inf true => Fin a
  | Inf false => Inf false
  | Fin q => Fin (if Qle_bool q a then a else q)
  end.

(** [clamp(v,a,b)]: [Math.max(a, Math.min(b, v))] *)
Definition clamp (v : num) (a b : Q) : num := num_max a (num_min b v).

(** How often the body of [for(let i=0;i<n;i++)] runs.  A loop to
    [Infinity] does not end; no call reaches one, [clamp] having bounded
    the size. *)
Definition iterations (n : num) : Z :=
  match n with
  | Fin q => Z.max 0 (Qceiling q)
  | _ => 0
  end.

(** The value of a finite number (0 for the others, which the callers
    exclude). *)
Definition value (n : num) : Q :=
  match n with
  | Fin q => q
  | _ => 0%Q
  end.

(** The draw [d] as the double [rnd()] returns. *)
Definition unit (d : Z) : Q := Qmake d 4294967296.

(** [pickFrom(arr, rnd)]: [null] on an empty array, and then no draw. *)
Definition pickFrom (arr : list Str.t) (x : Z) : option Str.t * Z :=
  match arr with
  | [] => (None, x)
  | _ =>
      let d := Rng.next x in
      (arr !! Z.to_nat (Rng.index d (Z.of_nat (length arr))), d)
  end.

(** A string or [null] in a concatenation or a template. *)
Definition to_string (s : option Str.t) : Str.t :=
  match s with
  | Some s => s
  | None => Str.lit "null"
  end.

Definition FIRSTS : list Str.t :=
  [ Str.lit "Ava";
    Str.lit "Noah";
    Str.lit "Liam";
    Str.lit "Olivia";
    Str.lit "Maya";
    Str.lit "Rex";
    Str.lit "Zed";
    Str.lit "Nina";
    Str.lit "Omar";
    Str.lit "Kofi";
    Str.lit "Sage";
    Str.lit "Luna";
    Str.lit "Kai";
    Str.lit "Zara";
    Str.lit "Sam";
    Str.lit "Amara";
    Str.lit "Diego";
    Str.lit "Hana";
    Str.lit "Yuki";
    Str.lit "L" ++ [0xC3; 0xA9] ++ Str.lit "a" ].

Definition LASTS : list Str.t :=
  [ Str.lit "Okoro";
    Str.lit "Smith";
    Str.lit "Nguyen";
    Str.lit "Khan";
    Str.lit "Silva";
    Str.lit "Ivanov";
    Str.lit "Garcia";
    Str.lit "Adams";
    Str.lit "Kouame";
    Str.lit "Kim";
    Str.lit "Osei";
    Str.lit "Popov";
    Str.lit "Fern" ++ [0xC3; 0xA1] ++ Str.lit "ndez";
    Str.lit "Brown";
    Str.lit "O'Neil" ].

Definition EMOJI : list Str.t :=
  [ [0xE2; 0x153; 0xA8];
    [0xF0; 0x178; 0x201D; 0xA5];
    [0xF0; 0x178; 0x2019; 0x17D];
    [0xF0; 0x178; 0xA6; 0x160];
    [0xF0; 0x178; 0xB3];
    [0xF0; 0x178; 0x161; 0x20AC];
    [0xF0; 0x178; 0x2DC; 0x2026];
    [0xF0; 0x178; 0x201D; 0x2019];
    [0xF0; 0x178; 0x17D; 0xAF];
    [0xF0; 0x178; 0x2019; 0xB0];
    [0xF0; 0x178; 0x201C; 0x2C6];
    [0xE2; 0xAD];
    [0xF0; 0x178; 0x2DC; 0x160];
    [0xF0; 0x178; 0x2DC; 0x17D];
    [0xF0; 0x178; 0xA4] ].

Definition COUNTRY_FLAGS : list Str.t :=
  [ [0xF0; 0x178; 0x2021; 0xB3; 0xF0; 0x178; 0x2021; 0xAC];
    [0xF0; 0x178; 0x2021; 0xAC; 0xF0; 0x178; 0x2021; 0xAD];
    [0xF0; 0x178; 0x2021; 0xBF; 0xF0; 0x178; 0x2021; 0xA6];
    [0xF0; 0x178; 0x2021; 0xBA; 0xF0; 0x178; 0x2021; 0xB8];
    [0xF0; 0x178; 0x2021; 0xAC; 0xF0; 0x178; 0x2021; 0xA7];
    [0xF0; 0x178; 0x2021; 0xA7; 0xF0; 0x178; 0x2021; 0xB7];
    [0xF0; 0x178; 0x2021; 0xAE; 0xF0; 0x178; 0x2021; 0xB3];
    [0xF0; 0x178; 0x2021; 0xAA; 0xF0; 0x178; 0x2021; 0xB8];
    [0xF0; 0x178; 0x2021; 0xB5; 0xF0; 0x178; 0x2021; 0xAD] ].

Definition countryHints : list Str.t :=
  [ Str.lit "NG";
    Str.lit "GH";
    Str.lit "ZA";
    Str.lit "US";
    Str.lit "GB";
    Str.lit "BR";
    Str.lit "IN";
    Str.lit "ES";
    Str.lit "PH" ].


(** [toLowerCase] and [toUpperCase], unit by unit, on the letters of ASCII
    and of Latin-1 that map to one letter of the same block: the names of
    [FIRSTS] and [LASTS] hold no other cased unit. *)
Definition lower_unit (c : Z) : Z :=
  if ((65 <=? c) && (c <=? 90)) || ((192 <=? c) && (c <=? 222) && negb (c =? 215))
  then c + 32 else c.

Definition upper_unit (c : Z) : Z :=
  if ((97 <=? c) && (c <=? 122)) || ((224 <=? c) && (c <=? 254) && negb (c =? 247))
  then c - 32 else c.

Definition toLowerCase (s : Str.t) : Str.t := map lower_unit s.
Definition toUpperCase (s : Str.t) : Str.t := map upper_unit s.

(** [s.charAt(0)] *)
Definition charAt0 (s : Str.t) : Str.t := firstn 1 s.

(** [s.replace(c, by)] for a one-unit pattern: the first occurrence only. *)
Fixpoint replace_first (c : Z) (by_ : Str.t) (s : Str.t) : Str.t :=
  match s with
  | [] => []
  | h :: t => if h =? c then by_ ++ t else h :: replace_first c by_ t
  end.

(** [pickFrom(arr, rnd) || (prefix + Math.floor(rnd()*999))] *)
Definition pick_or (arr : list Str.t) (prefix : Str.t) (x : Z) : Str.t * Z :=
  match pickFrom arr x with
  | (Some (c :: s), x) => (c :: s, x)
  | (_, x) =>
      let d := Rng.next x in
      (prefix ++ Str.dec (Rng.index d 999), d)
  end.

(** [makeDisplayName(rnd)] from the generator [x]: the name and the
    generator after it.  [coin] is the outcome of the one
    [Math.random() < 0.5] the function may evaluate. *)
Definition makeDisplayName (coin : bool) (x : Z) : Str.t * Z :=
  let '(first, x) := pick_or FIRSTS (Str.lit "User") x in
  let '(last, x) := pick_or LASTS (Str.lit "Member") x in
  let name := first ++ Str.lit " " ++ last in
  let p := Rng.next x in
  let '(name, x) :=
    if Rng.below p (6 # 100) then (toLowerCase name, p)
    else if Rng.below p (12 # 100) then (toUpperCase name, p)
    else if Rng.below p (25 # 100) then
      let d := Rng.next p in
      if Rng.below d (15 # 100) then
        if coin then (first ++ Str.lit " " ++ charAt0 last ++ Str.lit ".", d)
        else
          let d := Rng.next d in
          (first ++ Str.lit " #" ++ Str.dec (Rng.index d 99 + 1), d)
      else (first, d)
    else (name, p) in
  let d := Rng.next x in
  let '(name, x) :=
    if Rng.below d (12 # 100) then
      let '(e, x) := pickFrom EMOJI d in
      let e := to_string e in
      let d := Rng.next x in
      if Rng.below d (1 # 2) then (e ++ Str.lit " " ++ name, d)
      else (name ++ Str.lit " " ++ e, d)
    else (name, d) in
  let d := Rng.next x in
  let '(name, x) :=
    if Rng.below d (7 # 100) then
      let d := Rng.next d in
      if Rng.below d (1 # 2) then (replace_first 32 (Str.lit "  ") name, d)
      else (replace_first 97 (Str.lit "@") name, d)
    else (name, d) in
  let d := Rng.next x in
  if Rng.below d (5 # 100) then
    let '(c, x) := pickFrom COUNTRY_FLAGS d in
    (name ++ Str.lit " " ++ to_string c, x)
  else (name, d).

(** The white space of [\s] *)
Definition is_space (c : Z) : bool :=
  ((9 <=? c) && (c <=? 13)) || (c =? 32) || (c =? 0xA0) || (c =? 0x1680)
  || ((0x2000 <=? c) && (c <=? 0x200A)) || (c =? 0x2028) || (c =? 0x2029)
  || (c =? 0x202F) || (c =? 0x205F) || (c =? 0x3000) || (c =? 0xFEFF).

(** [s.replace(/\s+/g, '_')] *)
Fixpoint underscore_spaces (in_run : bool) (s : Str.t) : Str.t :=
  match s with
  | [] => []
  | c :: s =>
      if is_space c
      then (if in_run then [] else [95]) ++ underscore_spaces true s
      else c :: underscore_spaces false s
  end.

(** The units of [[\w\-\u0080-￿]] *)
Definition is_name_unit (c : Z) : bool :=
  ((48 <=? c) && (c <=? 57)) || ((65 <=? c) && (c <=? 90))
  || ((97 <=? c) && (c <=? 122)) || (c =? 95) || (c =? 45) || (0x80 <=? c).

(** The [name] of a person:
    [displayName.replace(/\s+/g,'_').replace(/[^\w\-\u0080-￿]/g,'').slice(0,32)] *)
Definition name_of (displayName : Str.t) : Str.t :=
  Str.slice0 32 (List.filter is_name_unit (underscore_spaces false displayName)).

(** A person, without the [id] and the [avatar]: [uid] and [makeAvatar]
    draw from neither generator and nothing here reads their results. *)
Record person : Type :=
  { name : Str.t;
    displayName : Str.t;
    role : Str.t;
    verified : bool;
    lastActive : Z;
    country : option Str.t }.

Record meta_t : Type :=
  { size : num;
    seedBase : Z;
    uniqueAvatars : bool;
    preferPhotos : bool }.

(** The mutable fields of the [SyntheticPeople] object. *)
Record state : Type :=
  { people : list person;
    meta : meta_t }.

Definition initial : state :=
  {| people := [];
     meta := {| size := Fin 1000; seedBase := 2026; uniqueAvatars := true;
                preferPhotos := false |} |}.

(** The options object; [None] is an absent field. *)
Record opts : Type :=
  { o_size : option num;
    o_seedBase : option Z;
    o_uniqueAvatars : option bool;
    o_preferPhotos : option bool }.

Definition ADMIN : Str.t := Str.lit "ADMIN".
Definition MOD : Str.t := Str.lit "MOD".
Definition VERIFIED : Str.t := Str.lit "VERIFIED".
Definition YOU : Str.t := Str.lit "YOU".

Definition str_eqb (a b : Str.t) : bool := bool_decide (a = b).

(** [for(let i=0;i<count;i++){ set.add(Math.floor(rnd()*size)); }]: the set
    and the generator after the loop. *)
Definition draw_indices (count : Z) (size : Q) (x : Z) : gset Z * Z :=
  Nat.iter (Z.to_nat count)
    (fun '(s, x) =>
       let d := Rng.next x in
       (s ∪ {[ Qfloor (F64.mul (unit d) size) ]}, d))
    (∅, x).

(** [Math.max(1, Math.round(size * fraction))] *)
Definition elevated_count (size : Q) (fraction : Q) : Z :=
  Z.max 1 (F64.round (F64.mul size (F64.fl fraction))).

(** The person of index [i]; [now] is what [Date.now()] returns for it. *)
Definition make_person (seedBase : Z) (adminIndices modIndices : gset Z)
  (now : Z) (coin : bool) (i : Z) : person :=
  let subRnd := Rng.xorshift32 (seedBase + i * 137) in
  let '(displayName, x) := makeDisplayName coin subRnd in
  let '(role, x) :=
    if bool_decide (i ∈ adminIndices) then (ADMIN, x)
    else if bool_decide (i ∈ modIndices) then (MOD, x)
    else
      let d := Rng.next x in
      (if Rng.below d (1 # 100) then MOD else VERIFIED, d) in
  let verified :=
    str_eqb role VERIFIED || str_eqb role YOU || str_eqb role ADMIN
    || str_eqb role MOD in
  let d := Rng.next x in
  let lastActive := now - JS.round_div (d * 172800000) JS.two32 in
  let '(country, _) := pickFrom countryHints d in
  {| name := name_of displayName;
     displayName := displayName;
     role := role;
     verified := verified;
     lastActive := lastActive;
     country := country |}.

(** The size and the seed [generatePool] settles on. *)
Definition pool_size (this : state) (o : opts) : num :=
  clamp (num_or (o_size o) (num_or (Some (size (meta this))) (Fin 1000)))
    10 20000.

Definition pool_seed (this : state) (o : opts) : Z :=
  JS.or_num (o_seedBase o) (JS.or_num (Some (seedBase (meta this))) 2026).

(** [generatePool(opts)]: the array it returns and the object it leaves.
    [clock i] and [coin i] are what [Date.now()] and [Math.random() < 0.5]
    give while person [i] is made. *)
Definition generatePool (this : state) (clock : Z -> Z) (coin : Z -> bool)
  (o : opts) : list person * state :=
  let size := pool_size this o in
  let seedBase := pool_seed this o in
  let uniqueAvatars :=
    match o_uniqueAvatars o with
    | Some b => b
    | None => uniqueAvatars (meta this)
    end in
  let preferPhotos :=
    match o_preferPhotos o with
    | Some b => b
    | None => false
    end in
  let rnd := Rng.xorshift32 seedBase in
  let adminCount := elevated_count (value size) (4 # 1000) in
  let modCount := elevated_count (value size) (3 # 100) in
  let '(adminIndices, rnd) := draw_indices adminCount (value size) rnd in
  let '(modIndices, rnd) := draw_indices modCount (value size) rnd in
  let arr :=
    map (fun i => make_person seedBase adminIndices modIndices (clock i) (coin i) i)
      (upto (iterations size)) in
  (arr, {| people := arr;
           meta := {| size := size; seedBase := seedBase;
                      uniqueAvatars := uniqueAvatars;
                      preferPhotos := preferPhotos |} |}).

(** An entry of the array [exportForSimulation] returns. *)
Definition exportForSimulation (this : state) : list person :=
  firstn 800 (people this).

Definition set_lastActive (p : person) (t : Z) : person :=
  {| name := name p; displayName := displayName p; role := role p;
     verified := verified p; lastActive := t; country := country p |}.

Section Step.

(** The values [Math.random()] returns, in the order of the calls. *)
Variable random : nat -> Q.

(** The loop of [simulatePresenceStep]: the array, the number of values
    [Math.random] has returned, and whether a TypeError has ended the
    loop. *)
Record stepping : Type :=
  { s_people : list person;
    s_pos : nat;
    s_thrown : bool }.

(** [this.people[idx].lastActive = Date.now() - Math.round(Math.random()*1000*60*5)]
    with [idx = Math.floor(Math.random()*this.people.length)].  The right
    side is evaluated before the assignment finds [this.people[idx]]
    undefined. *)
Definition step_body (now : Z) (s : stepping) : stepping :=
  if s_thrown s then s
  else
    let len := Z.of_nat (length (s_people s)) in
    let idx := Qfloor (F64.mul (random (s_pos s)) (inject_Z len)) in
    let age :=
      F64.round (F64.mul (F64.mul (F64.mul (random (S (s_pos s))) 1000) 60) 5) in
    match Arr.get (s_people s) idx with
    | Some p =>
        {| s_people := Arr.set (s_people s) idx (set_lastActive p (F64.flz (now - age)));
           s_pos := S (S (s_pos s)); s_thrown := false |}
    | None =>
        {| s_people := s_people s; s_pos := S (S (s_pos s)); s_thrown := true |}
    end.

(** [Math.max(0, Math.min(1, Number(opts.percent || 0.01)))] *)
Definition step_percent (percent : option Q) : Q :=
  let p := match percent with
           | Some v => if Qnum v =? 0 then F64.fl (1 # 100) else v
           | None => F64.fl (1 # 100)
           end in
  let p := if Qle_bool 1 p then 1%Q else p in
  if Qle_bool p 0 then 0%Q else p.

(** [simulatePresenceStep(opts)], [pos] values of [Math.random] having been
    returned before the call: the object it leaves and the values returned
    after it.  A TypeError ends the call; the callers catch it. *)
Definition simulatePresenceStep (this : state) (now : Z) (percent : option Q)
  (pos : nat) : state * nat :=
  match people this with
  | [] => (this, pos)
  | _ =>
      let pct := step_percent percent in
      let len := Z.of_nat (length (people this)) in
      let count := Z.max 1 (F64.round (F64.mul (inject_Z len) pct)) in
      let s := Nat.iter (Z.to_nat count) (step_body now)
                 {| s_people := people this; s_pos := pos; s_thrown := false |} in
      ({| people := s_people s; meta := meta this |}, s_pos s)
  end.

End Step.

End SyntheticPeople.

(** ** presence-manager.js *)

Module PresenceManager.

Definition person : Type := SyntheticPeople.person.
Definition lastActive : person -> Z := SyntheticPeople.lastActive.
Definition set_lastActive : person -> Z -> person := SyntheticPeople.set_lastActive.

(** [state.opts] *)
Record options : Type :=
  { baselineOnline : Z;
    minOnline : Z;
    maxOnline : Z;
    tickMs : Z;
    nudgePercent : Q;
    simulateStepPercent : Q;
    jitterMs : Z }.

Definition DEFAULTS : options :=
  {| baselineOnline := 76; minOnline := 60; maxOnline := 250;
     tickMs := 15000; nudgePercent := F64.fl (2 # 100);
     simulateStepPercent := F64.fl (1 # 100); jitterMs := 90 * 1000 |}.

(** The argument of [configure]; [None] is an absent key.  [seedBase] is
    absent, [null] or a number. *)
Record config : Type :=
  { c_baselineOnline : option Z;
    c_minOnline : option Z;
    c_maxOnline : option Z;
    c_tickMs : option Z;
    c_nudgePercent : option Q;
    c_simulateStepPercent : option Q;
    c_jitterMs : option Z;
    c_seedBase : option (option Z) }.

Definition no_config : config :=
  {| c_baselineOnline := None; c_minOnline := None; c_maxOnline := None;
     c_tickMs := None; c_nudgePercent := None; c_simulateStepPercent := None;
     c_jitterMs := None; c_seedBase := None |}.

(** The page as the manager sees it: its own [state], the two member
    arrays, the two counters of the document ([None]: no such element), the
    interval timers set, and how many values [Math.random] has returned. *)
Record world : Type :=
  { opts : options;
    running : bool;
    timerId : option Z;
    rnd : option Z;
    sampleMembers : list person;
    people : SyntheticPeople.state;
    onlineCount : option Z;
    memberCount : option Z;
    intervals : list Z;
    next_timer : Z;
    random_pos : nat }.

Definition with_opts (w : world) (o : options) : world :=
  {| opts := o; running := running w; timerId := timerId w; rnd := rnd w;
     sampleMembers := sampleMembers w; people := people w;
     onlineCount := onlineCount w; memberCount := memberCount w;
     intervals := intervals w; next_timer := next_timer w;
     random_pos := random_pos w |}.

Definition with_rnd (w : world) (r : option Z) (pos : nat) : world :=
  {| opts := opts w; running := running w; timerId := timerId w; rnd := r;
     sampleMembers := sampleMembers w; people := people w;
     onlineCount := onlineCount w; memberCount := memberCount w;
     intervals := intervals w; next_timer := next_timer w;
     random_pos := pos |}.

Definition with_counts (w : world) (online members : option Z) : world :=
  {| opts := opts w; running := running w; timerId := timerId w; rnd := rnd w;
     sampleMembers := sampleMembers w; people := people w;
     onlineCount := online; memberCount := members;
     intervals := intervals w; next_timer := next_timer w;
     random_pos := random_pos w |}.

Definition with_timer (w : world) (run : bool) (t : option Z) (ivs : list Z)
  (next : Z) : world :=
  {| opts := opts w; running := run; timerId := t; rnd := rnd w;
     sampleMembers := sampleMembers w; people := people w;
     onlineCount := onlineCount w; memberCount := memberCount w;
     intervals := ivs; next_timer := next;
     random_pos := random_pos w |}.

Definition with_people (w : world) (p : SyntheticPeople.state) (pos : nat)
  : world :=
  {| opts := opts w; running := running w; timerId := timerId w; rnd := rnd w;
     sampleMembers := sampleMembers w; people := p;
     onlineCount := onlineCount w; memberCount := memberCount w;
     intervals := intervals w; next_timer := next_timer w;
     random_pos := pos |}.

(** Which array [getMemberList] returned. *)
Inductive source : Type := Sample | People | Neither.

Definition getMemberList (w : world) : source * list person :=
  match sampleMembers w with
  | _ :: _ => (Sample, sampleMembers w)
  | [] =>
      match SyntheticPeople.people (people w) with
      | _ :: _ => (People, SyntheticPeople.people (people w))
      | [] => (Neither, [])
      end
  end.

(** The array [getMemberList] returned is the array of the page: what the
    manager writes into it, the page holds. *)
Definition put_members (w : world) (s : source) (l : list person) : world :=
  match s with
  | Sample =>
      {| opts := opts w; running := running w; timerId := timerId w;
         rnd := rnd w; sampleMembers := l; people := people w;
         onlineCount := onlineCount w; memberCount := memberCount w;
         intervals := intervals w; next_timer := next_timer w;
         random_pos := random_pos w |}
  | People =>
      with_people w
        {| SyntheticPeople.people := l;
           SyntheticPeople.meta := SyntheticPeople.meta (people w) |}
        (random_pos w)
  | Neither => w
  end.

Section Random.

(** The values [Math.random()] returns, in the order of the calls. *)
Variable random : nat -> Q.

(** [state.rnd()]: the seeded generator, or [Math.random]. *)
Definition draw (w : world) : Q * world :=
  match rnd w with
  | Some x => let d := Rng.next x in
              (SyntheticPeople.unit d, with_rnd w (Some d) (random_pos w))
  | None => (random (random_pos w), with_rnd w None (S (random_pos w)))
  end.

(** [now - (p.lastActive || 0) < state.opts.jitterMs] *)
Definition is_online (w : world) (now : Z) (p : person) : bool :=
  F64.flz (now - lastActive p) <? jitterMs (opts w).

(** [computeRealOnline(lst)] *)
Definition computeRealOnline (w : world) (now : Z) (lst : list person) : Z :=
  fold_left (fun c p => if is_online w now p then c + 1 else c) lst 0.

(** The variables of the loop of [nudgeToBaseline]. *)
Record nudging : Type :=
  { n_list : list person;
    n_chosen : gset Z;
    n_attempts : Z;
    n_world : world }.

Definition nudge_cond (toNudge : Z) (s : nudging) : bool :=
  (Z.of_nat (size (n_chosen s)) <? toNudge)
  && (n_attempts s <? F64.flz (toNudge * 8)).

Definition nudge_body (now : Z) (s : nudging) : nudging :=
  let available := Z.of_nat (length (n_list s)) in
  let '(q, w) := draw (n_world s) in
  let idx := Qfloor (F64.mul q (inject_Z available)) in
  match Arr.get (n_list s) idx with
  | None =>
      {| n_list := n_list s; n_chosen := n_chosen s;
         n_attempts := n_attempts s + 1; n_world := w |}
  | Some p =>
      if is_online w now p then
        {| n_list := n_list s; n_chosen := n_chosen s;
           n_attempts := n_attempts s + 1; n_world := w |}
      else
        let '(q, w) := draw w in
        let fresh :=
          Qfloor (F64.mul
                    (F64.mul (F64.add (F64.mul q (F64.fl (8 # 10)))
                                (F64.fl (1 # 10)))
                       60)
                    1000) in
        {| n_list := Arr.set (n_list s) idx
                       (set_lastActive p (F64.flz (now - fresh)));
           n_chosen := n_chosen s ∪ {[ idx ]};
           n_attempts := n_attempts s + 1; n_world := w |}
  end.

Fixpoint nudge_loop (toNudge now : Z) (fuel : nat) (s : nudging) : nudging :=
  match fuel with
  | O => s
  | S fuel =>
      if nudge_cond toNudge s
      then nudge_loop toNudge now fuel (nudge_body now s)
      else s
  end.

(** [nudgeToBaseline(lst, need)]: the number it returns, the array and the
    page after it.  Every turn of the loop counts one attempt, so
    [toNudge * 8] turns are all it can make. *)
Definition nudgeToBaseline (w : world) (now : Z) (lst : list person)
  (need : Z) : Z * list person * world :=
  match lst with
  | [] => (0, lst, w)
  | _ =>
      if need <=? 0 then (0, lst, w)
      else
        let available := Z.of_nat (length lst) in
        let toNudge :=
          Z.min need
            (Z.max 1 (F64.round (F64.mul (nudgePercent (opts w))
                                   (inject_Z available)))) in
        let s := nudge_loop toNudge now (Z.to_nat (F64.flz (toNudge * 8)))
                   {| n_list := lst; n_chosen := ∅; n_attempts := 0;
                      n_world := w |} in
        (Z.of_nat (size (n_chosen s)), n_list s, n_world s)
  end.

(** [rnd() < 0.5] for the value [q] *)
Definition below_half (q : Q) : bool := negb (Qle_bool (1 # 2) q).

(** One turn of the loop of [decaySomeToIdle], at the person [p]. *)
Definition decay_body (now excess : Z) (st : list person * Z * world)
  (p : person) : list person * Z * world :=
  let '(done, decayed, w) := st in
  if decayed <? excess then
    if is_online w now p then
      let '(q, w) := draw w in
      if below_half q then
        let '(q, w) := draw w in
        let idle := F64.round (F64.mul (F64.mul (F64.mul q 25) 60) 1000) in
        (done ++ [set_lastActive p
                    (F64.flz (F64.flz (now - 5 * 60 * 1000) - idle))],
         decayed + 1, w)
      else (done ++ [p], decayed, w)
    else (done ++ [p], decayed, w)
  else (done ++ [p], decayed, w).

(** [decaySomeToIdle(lst, excess)] *)
Definition decaySomeToIdle (w : world) (now : Z) (lst : list person)
  (excess : Z) : Z * list person * world :=
  match lst with
  | [] => (0, lst, w)
  | _ =>
      if excess <=? 0 then (0, lst, w)
      else
        let '(done, decayed, w) :=
          fold_left (decay_body now excess) lst ([], 0, w) in
        (decayed, done, w)
  end.

(** [computeVisibleOnline()] *)
Definition computeVisibleOnline (w : world) (now : Z) : Z * world :=
  let '(src, lst) := getMemberList w in
  let visible := computeRealOnline w now lst in
  let '(visible, w) :=
    if visible <? baselineOnline (opts w) then
      let need := F64.flz (baselineOnline (opts w) - visible) in
      let '(nudged, lst, w) := nudgeToBaseline w now lst need in
      (F64.flz (visible + nudged), put_members w src lst)
    else (visible, w) in
  (Z.max (minOnline (opts w)) (Z.min (maxOnline (opts w)) visible), w).

(** [updateUICounts()] *)
Definition updateUICounts (w : world) (now : Z) : world :=
  let '(_, lst) := getMemberList w in
  let members :=
    match memberCount w with
    | Some t => Some (if Z.of_nat (length lst) =? 0 then t
                      else Z.of_nat (length lst))
    | None => None
    end in
  let w := with_counts w (onlineCount w) members in
  match onlineCount w with
  | None => w
  | Some _ =>
      let '(visible, w) := computeVisibleOnline w now in
      let '(q, w) := draw w in
      let jitter := F64.round (F64.mul (F64.sub q (1 # 2)) 12) in
      let visible :=
        Z.max (minOnline (opts w))
          (Z.min (maxOnline (opts w)) (F64.flz (visible + jitter))) in
      with_counts w (Some visible) (memberCount w)
  end.

(** [tick()] *)
Definition tick (w : world) (now : Z) : world :=
  let '(p, pos) :=
    SyntheticPeople.simulatePresenceStep random (people w) now
      (Some (simulateStepPercent (opts w))) (random_pos w) in
  let w := with_people w p pos in
  let '(src, lst) := getMemberList w in
  let real := computeRealOnline w now lst in
  let w :=
    if real <? baselineOnline (opts w) then
      let '(_, lst, w) :=
        nudgeToBaseline w now lst (F64.flz (baselineOnline (opts w) - real)) in
      put_members w src lst
    else if maxOnline (opts w) <? real then
      let '(_, lst, w) :=
        decaySomeToIdle w now lst (F64.flz (real - maxOnline (opts w))) in
      put_members w src lst
    else w in
  updateUICounts w now.

(** [Object.assign(state.opts, opts)] *)
Definition assign (o : options) (c : config) : options :=
  {| baselineOnline := default (baselineOnline o) (c_baselineOnline c);
     minOnline := default (minOnline o) (c_minOnline c);
     maxOnline := default (maxOnline o) (c_maxOnline c);
     tickMs := default (tickMs o) (c_tickMs c);
     nudgePercent := default (nudgePercent o) (c_nudgePercent c);
     simulateStepPercent :=
       default (simulateStepPercent o) (c_simulateStepPercent c);
     jitterMs := default (jitterMs o) (c_jitterMs c) |}.

(** [PresenceManager.configure(opts)] *)
Definition configure (w : world) (c : config) : world :=
  let w := with_opts w (assign (opts w) c) in
  match c_seedBase c with
  | None => w
  | Some None => with_rnd w None (random_pos w)
  | Some (Some sb) => with_rnd w (Some (Rng.xorshift32 sb)) (random_pos w)
  end.

(** [PresenceManager.start()] *)
Definition start (w : world) (now : Z) : world :=
  if running w then w
  else
    let w := with_timer w true (timerId w) (intervals w) (next_timer w) in
    let w := updateUICounts w now in
    let w := tick w now in
    with_timer w true (Some (next_timer w)) (next_timer w :: intervals w)
      (next_timer w + 1).

(** [PresenceManager.stop()] *)
Definition stop (w : world) : world :=
  match timerId w with
  | Some t =>
      with_timer w false None
        (List.filter (fun i => negb (i =? t)) (intervals w)) (next_timer w)
  | None => with_timer w false None (intervals w) (next_timer w)
  end.

(** [PresenceManager.tickNow()] *)
Definition tickNow (w : world) (now : Z) : world := tick w now.

(** [PresenceManager.setBaseline(n)] *)
Definition setBaseline (w : world) (now : Z) (n : Z) : world :=
  let o := opts w in
  let w :=
    with_opts w
      {| baselineOnline := Z.max 0 n; minOnline := minOnline o;
         maxOnline := maxOnline o; tickMs := tickMs o;
         nudgePercent := nudgePercent o;
         simulateStepPercent := simulateStepPercent o;
         jitterMs := jitterMs o |} in
  updateUICounts w now.

(** [PresenceManager.getVisibleOnline()] *)
Definition getVisibleOnline (w : world) (now : Z) : Z * world :=
  match onlineCount w with
  | Some v => (v, w)
  | None => computeVisibleOnline w now
  end.

End Random.

(** The page when the script has loaded, with no members yet and the two
    counters showing [online] and [members]. *)
Definition initial (online members : option Z) : world :=
  {| opts := DEFAULTS; running := false; timerId := None; rnd := None;
     sampleMembers := []; people := SyntheticPeople.initial;
     onlineCount := online; memberCount := members;
     intervals := []; next_timer := 1; random_pos := 0 |}.

End PresenceManager.

(** ** typing-engine.js *)

Module TypingEngine.

Definition member : Type := MessagePool.member.

(** [cfg] *)
Record config : Type :=
  { seedBase : option Z;
    minDurationMs : Z;
    maxNames : Z;
    autoDurationPerNameMs : Z;
    autoDurationMinMs : Z;
    autoDurationMaxMs : Z }.

Definition DEFAULTS : config :=
  {| seedBase := None; minDurationMs := 300; maxNames := 6;
     autoDurationPerNameMs := 900; autoDurationMinMs := 700;
     autoDurationMaxMs := 6000 |}.

(** The argument of [configure]; [None] is an absent key, [seedBase] is
    absent, [null] or a number. *)
Record options : Type :=
  { o_seedBase : option (option Z);
    o_minDurationMs : option Z;
    o_maxNames : option Z;
    o_autoDurationPerNameMs : option Z;
    o_autoDurationMinMs : option Z;
    o_autoDurationMaxMs : option Z }.

(** A pending [setTimeout] of the engine: its id and the time it is due.
    The engine has one callback, the one that clears the typing row. *)
Record timeout : Type :=
  { t_id : Z;
    t_due : Z }.

(** The engine and what it touches of the page: [cfg], [rnd] ([None] is
    [Math.random]), [active], [clearTimer], the names the typing row shows
    ([[]] when it is hidden), the timeouts pending, the id the next
    [setTimeout] returns, the number of values [Math.random] has returned,
    and the two member arrays. *)
Record page : Type :=
  { cfg : config;
    rnd : option Z;
    active : bool;
    clearTimer : option Z;
    shown : list Str.t;
    timers : list timeout;
    next_id : Z;
    random_pos : nat;
    sampleMembers : list member;
    people : list member }.

Definition initial (sample people : list member) : page :=
  {| cfg := DEFAULTS; rnd := None; active := false; clearTimer := None;
     shown := []; timers := []; next_id := 1; random_pos := 0;
     sampleMembers := sample; people := people |}.

Definition with_cfg (p : page) (c : config) (r : option Z) : page :=
  {| cfg := c; rnd := r; active := active p; clearTimer := clearTimer p;
     shown := shown p; timers := timers p; next_id := next_id p;
     random_pos := random_pos p; sampleMembers := sampleMembers p;
     people := people p |}.

Definition with_rnd (p : page) (r : option Z) (pos : nat) : page :=
  {| cfg := cfg p; rnd := r; active := active p; clearTimer := clearTimer p;
     shown := shown p; timers := timers p; next_id := next_id p;
     random_pos := pos; sampleMembers := sampleMembers p;
     people := people p |}.

Definition with_session (p : page) (a : bool) (t : option Z)
  (names : list Str.t) (ts : list timeout) (next : Z) : page :=
  {| cfg := cfg p; rnd := rnd p; active := a; clearTimer := t;
     shown := names; timers := ts; next_id := next;
     random_pos := random_pos p; sampleMembers := sampleMembers p;
     people := people p |}.

Definition with_members (p : page) (sample people : list member) : page :=
  {| cfg := cfg p; rnd := rnd p; active := active p;
     clearTimer := clearTimer p; shown := shown p; timers := timers p;
     next_id := next_id p; random_pos := random_pos p;
     sampleMembers := sample; people := people |}.

(** [clearTimeout(id)] *)
Definition clearTimeout (ts : list timeout) (id : Z) : list timeout :=
  List.filter (fun t => negb (t_id t =? id)) ts.

(** The delay of [setTimeout(f, ms)]: the milliseconds as a 32-bit
    integer, and none when that is negative. *)
Definition delay (ms : Z) : Z := Z.max 0 (JS.ToInt32 ms).

(** [arr.slice(0, n)] *)
Definition slice (n : Z) (arr : list Str.t) : list Str.t :=
  if n <? 0 then firstn (Z.to_nat (Z.of_nat (length arr) + n)) arr
  else firstn (Z.to_nat n) arr.

(** [ensureArray(names).filter(Boolean)] for an array of strings: the
    empty strings go.  One string is the array of it, [null] the empty
    array. *)
Definition provided_of (names : list Str.t) : list Str.t :=
  List.filter (fun s => negb (Nat.eqb (length s) 0)) names.

Section Random.

(** The values [Math.random()] returns, in the order of the calls. *)
Variable random : nat -> Q.

(** [rnd()] *)
Definition draw (p : page) : Q * page :=
  match rnd p with
  | Some x => let d := Rng.next x in
              (SyntheticPeople.unit d, with_rnd p (Some d) (random_pos p))
  | None => (random (random_pos p), with_rnd p None (S (random_pos p)))
  end.

(** [Math.floor(rnd() * n)] *)
Definition draw_index (p : page) (n : Z) : Z * page :=
  let '(q, p) := draw p in
  (Qfloor (F64.mul q (inject_Z n)), p).

(** [Math.min(cfg.maxNames, Math.max(1, Math.floor(rnd()*Math.min(4, len)) + 1))] *)
Definition draw_maxPick (p : page) (len : Z) : Z * page :=
  let '(k, p) := draw_index p (Z.min 4 len) in
  (Z.min (maxNames (cfg p)) (Z.max 1 (k + 1)), p).

(** The loop over [window.sampleMembers]: a choice with a display name
    gives its display name. *)
Definition pick_sample (st : list Str.t * page) : list Str.t * page :=
  let '(pick, p) := st in
  let '(i, p) := draw_index p (Z.of_nat (length (sampleMembers p))) in
  match Arr.get (sampleMembers p) i with
  | Some choice =>
      match MessagePool.m_displayName choice with
      | Some (c :: s) => (pick ++ [c :: s], p)
      | _ => (pick, p)
      end
  | None => (pick, p)
  end.

(** The loop over [SyntheticPeople.people]: a person gives
    [p.displayName || p.name]. *)
Definition pick_person (st : list Str.t * page) : list Str.t * page :=
  let '(pick, p) := st in
  let '(i, p) := draw_index p (Z.of_nat (length (people p))) in
  match Arr.get (people p) i with
  | Some person =>
      (pick ++ [Str.or_str (MessagePool.m_displayName person)
                  (default [] (MessagePool.m_name person))], p)
  | None => (pick, p)
  end.

(** The names [triggerTyping] samples when it is given none. *)
Definition sample_names (p : page) : list Str.t * page :=
  let '(provided, p) :=
    match sampleMembers p with
    | _ :: _ =>
        let '(maxPick, p) :=
          draw_maxPick p (Z.of_nat (length (sampleMembers p))) in
        Nat.iter (Z.to_nat maxPick) pick_sample ([], p)
    | [] => ([], p)
    end in
  match provided, people p with
  | [], _ :: _ =>
      let '(maxPick, p) := draw_maxPick p (Z.of_nat (length (people p))) in
      Nat.iter (Z.to_nat maxPick) pick_person ([], p)
  | _, _ => (provided, p)
  end.

(** [clearTypingUI()] *)
Definition clearTypingUI (p : page) : page :=
  with_session p false (clearTimer p) [] (timers p) (next_id p).

(** [TypingEngine.triggerTyping(names, durationMs)] at the time [now];
    [durationMs] is [None] unless it is a number other than [NaN]. *)
Definition triggerTyping (p : page) (now : Z) (names : list Str.t)
  (durationMs : option Z) : page :=
  let provided := provided_of names in
  let '(provided, p) :=
    match provided with
    | [] => sample_names p
    | _ => (provided, p)
    end in
  let provided :=
    match provided with
    | [] => [Str.lit "Someone"]
    | _ => provided
    end in
  let provided := slice (maxNames (cfg p)) provided in
  let dur :=
    match durationMs with
    | Some d => Z.max (minDurationMs (cfg p)) d
    | None =>
        JS.clamp
          (F64.flz (Z.of_nat (length provided) * autoDurationPerNameMs (cfg p)))
          (autoDurationMinMs (cfg p)) (autoDurationMaxMs (cfg p))
    end in
  let ts :=
    match clearTimer p with
    | Some id => clearTimeout (timers p) id
    | None => timers p
    end in
  with_session p true (Some (next_id p)) provided
    (ts ++ [{| t_id := next_id p; t_due := F64.flz (now + delay dur) |}])
    (next_id p + 1).

(** [TypingEngine.clear()] *)
Definition clear (p : page) : page :=
  let ts :=
    match clearTimer p with
    | Some id => clearTimeout (timers p) id
    | None => timers p
    end in
  clearTypingUI (with_session p (active p) None (shown p) ts (next_id p)).

(** [TypingEngine.isActive()] *)
Definition isActive (p : page) : bool := active p.

(** The timeout [id] fires: it leaves the table and its callback,
    [clearTypingUI(); clearTimer = null], runs.  A timeout that is not
    pending does not fire. *)
Definition fire (p : page) (id : Z) : page :=
  if existsb (fun t => t_id t =? id) (timers p) then
    let p := with_session p (active p) (clearTimer p) (shown p)
               (clearTimeout (timers p) id) (next_id p) in
    let p := clearTypingUI p in
    with_session p (active p) None (shown p) (timers p) (next_id p)
  else p.

(** [TypingEngine.configure(opts)]: each key given is stored clamped, and
    then [Object.assign({}, cfg, opts)] stores it again as it was given. *)
Definition configure (p : page) (o : options) : page :=
  let c := cfg p in
  let '(seed, r) :=
    match o_seedBase o with
    | None => (seedBase c, rnd p)
    | Some None => (None, None)
    | Some (Some sb) => (Some sb, Some (Rng.xorshift32 sb))
    end in
  let minDur :=
    match o_minDurationMs o with
    | Some v => Z.max 20 v
    | None => minDurationMs c
    end in
  let maxN :=
    match o_maxNames o with
    | Some v => JS.clamp v 1 20
    | None => maxNames c
    end in
  let perName :=
    match o_autoDurationPerNameMs o with
    | Some v => Z.max 50 v
    | None => autoDurationPerNameMs c
    end in
  let autoMin :=
    match o_autoDurationMinMs o with
    | Some v => Z.max 20 v
    | None => autoDurationMinMs c
    end in
  let autoMax :=
    match o_autoDurationMaxMs o with
    | Some v => Z.max autoMin v
    | None => autoDurationMaxMs c
    end in
  with_cfg p
    {| seedBase := match o_seedBase o with Some v => v | None => seed end;
       minDurationMs := default minDur (o_minDurationMs o);
       maxNames := default maxN (o_maxNames o);
       autoDurationPerNameMs := default perName (o_autoDurationPerNameMs o);
       autoDurationMinMs := default autoMin (o_autoDurationMinMs o);
       autoDurationMaxMs := default autoMax (o_autoDurationMaxMs o) |}
    r.

(** The names [simulateOnce] collects, one turn of each of its loops. *)
Definition member_label (st : list Str.t * page) : list Str.t * page :=
  let '(names, p) := st in
  let '(k, p) := draw_index p 999 in
  (names ++ [Str.lit "Member " ++ Str.dec (1 + k)], p).

(** [TypingEngine.simulateOnce(count)] at the time [now] *)
Definition simulateOnce (p : page) (now : Z) (count : Z) : page :=
  let '(n, p) :=
    if count <=? 0 then
      let '(k, p) := draw_index p 3 in (1 + k, p)
    else (count, p) in
  let '(names, p) :=
    match sampleMembers p, people p with
    | _ :: _, _ => Nat.iter (Z.to_nat n) pick_sample ([], p)
    | [], _ :: _ => Nat.iter (Z.to_nat n) pick_person ([], p)
    | [], [] => Nat.iter (Z.to_nat n) member_label ([], p)
    end in
  triggerTyping p now names None.

End Random.

End TypingEngine.

(** ** simulation-engine.js (the file stimulation-engine.js) *)

Module SimulationEngine.

Definition message : Type := MessagePool.message.

(** [cfg] *)
Record config : Type :=
  { seedBase : option Z;
    useStreamAPI : bool;
    simulateTypingBeforeSend : bool;
    ratePerMin : Z;
    pageSize : Z;
    jitterFraction : Q;
    typingMinMs : Z;
    typingMaxMs : Z;
    typingPerCharMs : Z;
    useGeneratorViewIfAvailable : bool;
    simulateTypingFraction : Q }.

Definition DEFAULTS : config :=
  {| seedBase := None; useStreamAPI := true; simulateTypingBeforeSend := true;
     ratePerMin := 45; pageSize := 200; jitterFraction := 1 # 4;
     typingMinMs := 300; typingMaxMs := 1800; typingPerCharMs := 45;
     useGeneratorViewIfAvailable := true; simulateTypingFraction := 3 # 4 |}.

(** The argument of [configure]; [None] is an absent key, [seedBase] is
    absent, [null] or a number. *)
Record options : Type :=
  { o_seedBase : option (option Z);
    o_useStreamAPI : option bool;
    o_simulateTypingBeforeSend : option bool;
    o_ratePerMin : option Z;
    o_pageSize : option Z;
    o_jitterFraction : option Q;
    o_typingMinMs : option Z;
    o_typingMaxMs : option Z;
    o_typingPerCharMs : option Z;
    o_simulateTypingFraction : option Q }.

Definition no_options : options :=
  {| o_seedBase := None; o_useStreamAPI := None;
     o_simulateTypingBeforeSend := None; o_ratePerMin := None;
     o_pageSize := None; o_jitterFraction := None; o_typingMinMs := None;
     o_typingMaxMs := None; o_typingPerCharMs := None;
     o_simulateTypingFraction := None |}.

(** [a < b] on numbers *)
Definition Qlt_bool (a b : Q) : bool := negb (Qle_bool b a).

(** [clamp(v, a, b)] on fractions *)
Definition clampQ (v a b : Q) : Q :=
  let m := if Qlt_bool v b then v else b in
  if Qlt_bool a m then m else a.

(** The view [startManualStream] streams from: the one
    [MessagePool.createGeneratorView] returns, or the object over
    [getRange] with the page size and the total size it was made with. *)
Inductive view : Type :=
  | PoolView (v : MessagePool.view)
  | RangeView (pageSize : Z) (totalSize : option Z).

(** The variables one call of [startManualStream] declares, which its
    [emitNext] closes over. *)
Record manual : Type :=
  { m_view : view;
    m_baseIntervalMs : Z;
    m_currentPageStart : Z;
    m_currentPage : list message;
    m_idxWithinPage : Z }.

(** The variables one call of [MessagePool.streamToUI] declares, which its
    [emitOne] and the [stop] of the object it returns close over;
    [s_opts_jitterMs] is [opts.jitterMs]. *)
Record streamer : Type :=
  { s_baseIntervalMs : Z;
    s_jitterMs : Z;
    s_opts_jitterMs : Z;
    s_idx : Z;
    s_stopped : bool;
    s_timerId : option Z }.

(** What a timeout of the engine runs: the [emitNext] of the [c]-th call
    of [startManualStream], the [emitOne] of the [s]-th call of
    [streamToUI], or the delayed [renderMessage(m, true)]. *)
Inductive callback : Type :=
  | EmitNext (c : nat)
  | EmitOne (s : nat)
  | Render (m : message).

(** A pending [setTimeout]: its id, the time it is due, what it runs. *)
Record timeout : Type :=
  { t_id : Z;
    t_due : Z;
    t_run : callback }.

(** The engine and what it touches of the page: the variables of the
    script ([cfg], [running], [timer], [pageIdx], [currentStreamer],
    [deterministicRnd], where [None] is [null] and [Some None] is
    [Math.random]), the closures of [startManualStream] and of
    [streamToUI] in the order of the calls, the timeouts pending and the
    id the next [setTimeout] returns, the messages [renderMessage] was
    given, the exceptions no handler caught, the number of values
    [Math.random] has returned, the message pool and the typing engine. *)
Record page : Type :=
  { cfg : config;
    running : bool;
    timer : option Z;
    pageIdx : Z;
    currentStreamer : option nat;
    deterministicRnd : option (option Z);
    manuals : list manual;
    streamers : list streamer;
    timers : list timeout;
    next_id : Z;
    rendered : list message;
    thrown : list exn;
    random_pos : nat;
    pool : MessagePool.pool;
    typing : TypingEngine.page }.

Definition initial (typing : TypingEngine.page) : page :=
  {| cfg := DEFAULTS; running := false; timer := None; pageIdx := 0;
     currentStreamer := None; deterministicRnd := None; manuals := [];
     streamers := []; timers := []; next_id := 1; rendered := [];
     thrown := []; random_pos := 0; pool := MessagePool.initial;
     typing := typing |}.

Definition with_cfg (p : page) (c : config) (r : option (option Z)) : page :=
  {| cfg := c; running := running p; timer := timer p; pageIdx := pageIdx p;
     currentStreamer := currentStreamer p; deterministicRnd := r;
     manuals := manuals p; streamers := streamers p; timers := timers p;
     next_id := next_id p; rendered := rendered p; thrown := thrown p;
     random_pos := random_pos p; pool := pool p; typing := typing p |}.

Definition with_running (p : page) (b : bool) : page :=
  {| cfg := cfg p; running := b; timer := timer p; pageIdx := pageIdx p;
     currentStreamer := currentStreamer p;
     deterministicRnd := deterministicRnd p; manuals := manuals p;
     streamers := streamers p; timers := timers p; next_id := next_id p;
     rendered := rendered p; thrown := thrown p; random_pos := random_pos p;
     pool := pool p; typing := typing p |}.

Definition with_timer (p : page) (t : option Z) : page :=
  {| cfg := cfg p; running := running p; timer := t; pageIdx := pageIdx p;
     currentStreamer := currentStreamer p;
     deterministicRnd := deterministicRnd p; manuals := manuals p;
     streamers := streamers p; timers := timers p; next_id := next_id p;
     rendered := rendered p; thrown := thrown p; random_pos := random_pos p;
     pool := pool p; typing := typing p |}.

Definition with_pageIdx (p : page) (i : Z) : page :=
  {| cfg := cfg p; running := running p; timer := timer p; pageIdx := i;
     currentStreamer := currentStreamer p;
     deterministicRnd := deterministicRnd p; manuals := manuals p;
     streamers := streamers p; timers := timers p; next_id := next_id p;
     rendered := rendered p; thrown := thrown p; random_pos := random_pos p;
     pool := pool p; typing := typing p |}.

Definition with_rnd (p : page) (r : option (option Z)) (pos : nat) : page :=
  {| cfg := cfg p; running := running p; timer := timer p;
     pageIdx := pageIdx p; currentStreamer := currentStreamer p;
     deterministicRnd := r; manuals := manuals p; streamers := streamers p;
     timers := timers p; next_id := next_id p; rendered := rendered p;
     thrown := thrown p; random_pos := pos; pool := pool p;
     typing := typing p |}.

Definition with_manuals (p : page) (l : list manual) : page :=
  {| cfg := cfg p; running := running p; timer := timer p;
     pageIdx := pageIdx p; currentStreamer := currentStreamer p;
     deterministicRnd := deterministicRnd p; manuals := l;
     streamers := streamers p; timers := timers p; next_id := next_id p;
     rendered := rendered p; thrown := thrown p; random_pos := random_pos p;
     pool := pool p; typing := typing p |}.

Definition with_streamers (p : page) (c : option nat) (l : list streamer) : page :=
  {| cfg := cfg p; running := running p; timer := timer p;
     pageIdx := pageIdx p; currentStreamer := c;
     deterministicRnd := deterministicRnd p; manuals := manuals p;
     streamers := l; timers := timers p; next_id := next_id p;
     rendered := rendered p; thrown := thrown p; random_pos := random_pos p;
     pool := pool p; typing := typing p |}.

Definition with_timers (p : page) (ts : list timeout) (next : Z) : page :=
  {| cfg := cfg p; running := running p; timer := timer p;
     pageIdx := pageIdx p; currentStreamer := currentStreamer p;
     deterministicRnd := deterministicRnd p; manuals := manuals p;
     streamers := streamers p; timers := ts; next_id := next;
     rendered := rendered p; thrown := thrown p; random_pos := random_pos p;
     pool := pool p; typing := typing p |}.

Definition with_rendered (p : page) (l : list message) : page :=
  {| cfg := cfg p; running := running p; timer := timer p;
     pageIdx := pageIdx p; currentStreamer := currentStreamer p;
     deterministicRnd := deterministicRnd p; manuals := manuals p;
     streamers := streamers p; timers := timers p; next_id := next_id p;
     rendered := l; thrown := thrown p; random_pos := random_pos p;
     pool := pool p; typing := typing p |}.

Definition with_thrown (p : page) (l : list exn) : page :=
  {| cfg := cfg p; running := running p; timer := timer p;
     pageIdx := pageIdx p; currentStreamer := currentStreamer p;
     deterministicRnd := deterministicRnd p; manuals := manuals p;
     streamers := streamers p; timers := timers p; next_id := next_id p;
     rendered := rendered p; thrown := l; random_pos := random_pos p;
     pool := pool p; typing := typing p |}.

Definition with_pool (p : page) (m : MessagePool.pool) : page :=
  {| cfg := cfg p; running := running p; timer := timer p;
     pageIdx := pageIdx p; currentStreamer := currentStreamer p;
     deterministicRnd := deterministicRnd p; manuals := manuals p;
     streamers := streamers p; timers := timers p; next_id := next_id p;
     rendered := rendered p; thrown := thrown p; random_pos := random_pos p;
     pool := m; typing := typing p |}.

Definition with_typing (p : page) (t : TypingEngine.page) : page :=
  {| cfg := cfg p; running := running p; timer := timer p;
     pageIdx := pageIdx p; currentStreamer := currentStreamer p;
     deterministicRnd := deterministicRnd p; manuals := manuals p;
     streamers := streamers p; timers := timers p; next_id := next_id p;
     rendered := rendered p; thrown := thrown p; random_pos := random_pos p;
     pool := pool p; typing := t |}.

(** [createRnd(seed)] *)
Definition createRnd (seed : option Z) : option (option Z) :=
  match seed with
  | None => Some None
  | Some s => Some (Some (Rng.xorshift32 s))
  end.

(** [setTimeout(f, ms)] at the time [now]: the page and the id returned. *)
Definition setTimeout (p : page) (now : Z) (f : callback) (ms : Z)
  : page * Z :=
  (with_timers p
     (timers p ++ [{| t_id := next_id p;
                      t_due := F64.flz (now + TypingEngine.delay ms);
                      t_run := f |}])
     (next_id p + 1),
   next_id p).

(** [clearTimeout(id)] *)
Definition clearTimeout (p : page) (id : Z) : page :=
  with_timers p (List.filter (fun t => negb (t_id t =? id)) (timers p))
    (next_id p).

(** [window.renderMessage(m, true)] *)
Definition renderMessage (p : page) (m : message) : page :=
  with_rendered p (rendered p ++ [m]).

(** [computeTypingDurationForMessage(m)] *)
Definition computeTypingDurationForMessage (p : page) (m : message) : Z :=
  match MessagePool.text m with
  | [] => typingMinMs (cfg p)
  | t => JS.clamp (F64.flz (Z.of_nat (length t) * typingPerCharMs (cfg p)))
           (typingMinMs (cfg p)) (typingMaxMs (cfg p))
  end.

(** [m.displayName || m.name || 'Someone'] *)
Definition sender_name (m : message) : Str.t :=
  Str.or_str (Some (MessagePool.displayName m))
    (Str.or_str (Some (MessagePool.name m)) (Str.lit "Someone")).

(** [SimulationEngine.stop()] *)
Definition stop (p : page) : page :=
  let p := with_running p false in
  let p :=
    match timer p with
    | Some id => with_timer (clearTimeout p id) None
    | None => p
    end in
  match currentStreamer p with
  | Some s =>
      let p :=
        match streamers p !! s with
        | Some st =>
            (* [currentStreamer.stop()] *)
            let p :=
              with_streamers p (currentStreamer p)
                (<[s := {| s_baseIntervalMs := s_baseIntervalMs st;
                           s_jitterMs := s_jitterMs st;
                           s_opts_jitterMs := s_opts_jitterMs st;
                           s_idx := s_idx st; s_stopped := true;
                           s_timerId := s_timerId st |}]> (streamers p)) in
            match s_timerId st with
            | Some id => clearTimeout p id
            | None => p
            end
        | None => p
        end in
      with_streamers p None (streamers p)
  | None => p
  end.

(** [SimulationEngine.configure(opts)] *)
Definition configure (p : page) (o : options) : page :=
  let c := cfg p in
  let minMs :=
    match o_typingMinMs o with
    | Some v => Z.max 10 v
    | None => typingMinMs c
    end in
  let c :=
    {| seedBase := default (seedBase c) (o_seedBase o);
       useStreamAPI := default (useStreamAPI c) (o_useStreamAPI o);
       simulateTypingBeforeSend :=
         default (simulateTypingBeforeSend c) (o_simulateTypingBeforeSend o);
       ratePerMin :=
         match o_ratePerMin o with
         | Some v => Z.max 1 v
         | None => ratePerMin c
         end;
       pageSize :=
         match o_pageSize o with
         | Some v => Z.max 1 v
         | None => pageSize c
         end;
       jitterFraction :=
         match o_jitterFraction o with
         | Some v => clampQ v 0 1
         | None => jitterFraction c
         end;
       typingMinMs := minMs;
       typingMaxMs :=
         match o_typingMaxMs o with
         | Some v => Z.max minMs v
         | None => typingMaxMs c
         end;
       typingPerCharMs :=
         match o_typingPerCharMs o with
         | Some v => Z.max 1 v
         | None => typingPerCharMs c
         end;
       useGeneratorViewIfAvailable := useGeneratorViewIfAvailable c;
       simulateTypingFraction :=
         match o_simulateTypingFraction o with
         | Some v => clampQ v 0 1
         | None => simulateTypingFraction c
         end |} in
  with_cfg p c (createRnd (seedBase c)).

Definition with_rate (c : config) (r : Z) : config :=
  {| seedBase := seedBase c; useStreamAPI := useStreamAPI c;
     simulateTypingBeforeSend := simulateTypingBeforeSend c;
     ratePerMin := r; pageSize := pageSize c;
     jitterFraction := jitterFraction c; typingMinMs := typingMinMs c;
     typingMaxMs := typingMaxMs c; typingPerCharMs := typingPerCharMs c;
     useGeneratorViewIfAvailable := useGeneratorViewIfAvailable c;
     simulateTypingFraction := simulateTypingFraction c |}.

Definition with_modes (c : config) (stream typing : bool) : config :=
  {| seedBase := seedBase c; useStreamAPI := stream;
     simulateTypingBeforeSend := typing;
     ratePerMin := ratePerMin c; pageSize := pageSize c;
     jitterFraction := jitterFraction c; typingMinMs := typingMinMs c;
     typingMaxMs := typingMaxMs c; typingPerCharMs := typingPerCharMs c;
     useGeneratorViewIfAvailable := useGeneratorViewIfAvailable c;
     simulateTypingFraction := simulateTypingFraction c |}.

(** [SimulationEngine.setRate(r)] *)
Definition setRate (p : page) (r : Z) : page :=
  with_cfg p (with_rate (cfg p) (Z.max 1 r)) (deterministicRnd p).

(** [SimulationEngine.setUseStreamAPI(b)] *)
Definition setUseStreamAPI (p : page) (b : bool) : page :=
  with_cfg p (with_modes (cfg p) b (simulateTypingBeforeSend (cfg p)))
    (deterministicRnd p).

(** [SimulationEngine.setSimulateTypingBeforeSend(b)] *)
Definition setSimulateTypingBeforeSend (p : page) (b : bool) : page :=
  with_cfg p (with_modes (cfg p) (useStreamAPI (cfg p)) b)
    (deterministicRnd p).

(** [SimulationEngine.setStartIndex(n)] *)
Definition setStartIndex (p : page) (n : Z) : page :=
  with_pageIdx p (Z.max 0 n).

(** [SimulationEngine.isRunning()] *)
Definition isRunning (p : page) : bool := running p.

(** The total size of a view; [None] is [null]. *)
Definition view_totalSize (v : view) : option Z :=
  match v with
  | PoolView (MessagePool.StoredView _ t) => Some t
  | PoolView (MessagePool.GeneratorView _ _) => None
  | RangeView _ t => t
  end.

Definition view_pageSize (v : view) : Z :=
  match v with
  | PoolView (MessagePool.StoredView ps _) => ps
  | PoolView (MessagePool.GeneratorView ps _) => ps
  | RangeView ps _ => ps
  end.

(** The view [startManualStream] makes. *)
Definition manual_view (p : page) : view :=
  let this := pool p in
  if useGeneratorViewIfAvailable (cfg p) then
    PoolView
      (MessagePool.createGeneratorView this
         {| MessagePool.o_size := None;
            MessagePool.o_seedBase := seedBase (cfg p);
            MessagePool.o_startTimestamp := None;
            MessagePool.o_endTimestamp := None;
            MessagePool.o_spanDays :=
              (let d := MessagePool.spanDays (MessagePool.meta this) in
               if d =? 0 then None else Some d);
            MessagePool.o_jitterMs := None;
            MessagePool.o_replyFraction := None;
            MessagePool.o_attachmentFraction := None;
            MessagePool.o_templates := None;
            MessagePool.o_dedupeLRU := None;
            MessagePool.o_pageSize := Some (pageSize (cfg p)) |})
  else
    RangeView (pageSize (cfg p))
      (match MessagePool.messages this with
       | [] => let n := MessagePool.size (MessagePool.meta this) in
               if n =? 0 then None else Some n
       | l => Some (Z.of_nat (length l))
       end).

Section Page.

(** The binding of the identifier [pickFrom] in the global scope and the
    member array, as the message pool reads them. *)
Variable pickFrom : option (list Str.t -> Z -> Str.t * Z).
Variable members : list MessagePool.member.

(** The values [Math.random()] returns, in the order of the calls. *)
Variable random : nat -> Q.

(** [Math.random()] *)
Definition draw_random (p : page) : Q * page :=
  (random (random_pos p),
   with_rnd p (deterministicRnd p) (S (random_pos p))).

(** [deterministicRnd ? deterministicRnd() : Math.random()]; [emitNext]
    calls [deterministicRnd()], which [startManualStream] has assigned. *)
Definition draw (p : page) : Q * page :=
  match deterministicRnd p with
  | Some (Some x) =>
      let d := Rng.next x in
      (SyntheticPeople.unit d, with_rnd p (Some (Some d)) (random_pos p))
  | _ => draw_random p
  end.

(** [triggerTypingForNames(names, durationMs)] at the time [now], on a
    page that has the typing engine. *)
Definition triggerTypingForNames (p : page) (now : Z) (names : list Str.t)
  (durationMs : Z) : page :=
  let durationMs := Z.max 50 (JS.or_num (Some durationMs) 500) in
  with_typing p
    (TypingEngine.triggerTyping random (typing p) now names (Some durationMs)).

(** [cfg.simulateTypingBeforeSend && (rnd() < cfg.simulateTypingFraction)] *)
Definition doTyping (p : page) : bool * page :=
  if simulateTypingBeforeSend (cfg p) then
    let '(q, p) := draw p in
    (Qlt_bool q (simulateTypingFraction (cfg p)), p)
  else (false, p).

(** [view.nextPage(start)] at the time [now] *)
Definition view_nextPage (p : page) (now : Z) (v : view) (start : Z)
  : result (list message) :=
  match v with
  | PoolView v =>
      MessagePool.nextPage pickFrom members (pool p) (fun _ => now) v start
  | RangeView _ _ =>
      Ok (MessagePool.getRange (pool p) start (pageSize (cfg p)))
  end.

(** [startManualStream()] at the time [now] *)
Definition startManualStream (p : page) (now : Z) : page :=
  if negb (running p) then p
  else
    let v := manual_view p in
    let baseIntervalMs :=
      F64.round (F64.div 60000 (inject_Z (Z.max 1 (ratePerMin (cfg p))))) in
    let p := with_rnd p (createRnd (seedBase (cfg p))) (random_pos p) in
    let currentPageStart :=
      F64.flz (Qfloor (F64.div (inject_Z (pageIdx p))
                         (inject_Z (view_pageSize v)))
               * view_pageSize v) in
    match view_nextPage p now v currentPageStart with
    | Throw e => with_thrown p (thrown p ++ [e])
    | Ok currentPage =>
        let idxWithinPage := Z.max 0 (F64.flz (pageIdx p - currentPageStart)) in
        let c := length (manuals p) in
        let p :=
          with_manuals p
            (manuals p ++ [{| m_view := v;
                              m_baseIntervalMs := baseIntervalMs;
                              m_currentPageStart := currentPageStart;
                              m_currentPage := currentPage;
                              m_idxWithinPage := idxWithinPage |}]) in
        let '(p, id) := setTimeout p now (EmitNext c) 0 in
        with_timer p (Some id)
    end.

(** The start of [emitNext]: the page at hand, or the next one when this
    one is used up. *)
Inductive fetched : Type :=
  | Fetched (m : manual)
  | Empty (m : manual)
  | Failed (m : manual) (e : exn).

Definition fetch (p : page) (now : Z) (m : manual) : fetched :=
  if Z.of_nat (length (m_currentPage m)) <=? m_idxWithinPage m then
    let start := F64.flz (m_currentPageStart m + view_pageSize (m_view m)) in
    let start :=
      match view_totalSize (m_view m) with
      | Some t => if t <=? start then 0 else start
      | None => start
      end in
    let at_ page idx :=
      {| m_view := m_view m; m_baseIntervalMs := m_baseIntervalMs m;
         m_currentPageStart := start; m_currentPage := page;
         m_idxWithinPage := idx |} in
    match view_nextPage p now (m_view m) start with
    | Throw e => Failed (at_ (m_currentPage m) (m_idxWithinPage m)) e
    | Ok [] => Empty (at_ [] 0)
    | Ok page => Fetched (at_ page 0)
    end
  else Fetched m.

(** [emitNext()] of the [c]-th call of [startManualStream], at the time
    [now].  The index within the page is inside the page when the
    message is read. *)
Definition emitNext (p : page) (now : Z) (c : nat) : page :=
  if negb (running p) then p
  else
    match manuals p !! c with
    | None => p
    | Some m =>
        match fetch p now m with
        | Failed m e =>
            with_thrown (with_manuals p (<[c := m]> (manuals p)))
              (thrown p ++ [e])
        | Empty m => stop (with_manuals p (<[c := m]> (manuals p)))
        | Fetched m =>
            match Arr.get (m_currentPage m) (m_idxWithinPage m) with
            | None => p
            | Some msg =>
                let p :=
                  with_pageIdx p
                    (F64.flz (m_currentPageStart m + m_idxWithinPage m)) in
                let p :=
                  with_manuals p
                    (<[c := {| m_view := m_view m;
                               m_baseIntervalMs := m_baseIntervalMs m;
                               m_currentPageStart := m_currentPageStart m;
                               m_currentPage := m_currentPage m;
                               m_idxWithinPage :=
                                 F64.flz (m_idxWithinPage m + 1) |}]>
                       (manuals p)) in
                let '(simulated, p) := doTyping p in
                let p :=
                  if simulated then
                    let typingDur := computeTypingDurationForMessage p msg in
                    let p :=
                      triggerTypingForNames p now [sender_name msg]
                        typingDur in
                    let '(q, p) := draw p in
                    fst (setTimeout p now (Render msg)
                           (F64.flz
                              (typingDur
                               + F64.round
                                   (F64.mul (F64.sub q (1 # 2)) 180))))
                  else renderMessage p msg in
                let '(q, p) := draw p in
                let jitter :=
                  F64.round
                    (F64.mul
                       (F64.mul (F64.sub q (1 # 2))
                          (inject_Z (m_baseIntervalMs m)))
                       (jitterFraction (cfg p))) in
                let '(p, id) :=
                  setTimeout p now (EmitNext c)
                    (Z.max 20 (F64.flz (m_baseIntervalMs m + jitter))) in
                with_timer p (Some id)
            end
        end
    end.

(** [MessagePool.streamToUI(opts)] at the time [now], for the options
    [startStreamAPI] passes: the page and the object returned. *)
Definition streamToUI (p : page) (now : Z) (startIndex ratePerMin jitterMs : Z)
  : page * nat :=
  let ratePerMin := Z.max 1 (JS.or_num (Some ratePerMin) 45) in
  let baseIntervalMs := F64.round (F64.div 60000 (inject_Z ratePerMin)) in
  let jitter :=
    JS.or_num (Some jitterMs)
      (F64.round (F64.mul (inject_Z baseIntervalMs) (1 # 4))) in
  let s := length (streamers p) in
  let '(p, id) := setTimeout p now (EmitOne s) (Z.max 0 0) in
  (with_streamers p (currentStreamer p)
     (streamers p ++ [{| s_baseIntervalMs := baseIntervalMs;
                         s_jitterMs := jitter;
                         s_opts_jitterMs := jitterMs;
                         s_idx := startIndex; s_stopped := false;
                         s_timerId := Some id |}]),
   s).

(** [startStreamAPI()] at the time [now], on a page that has
    [MessagePool.streamToUI]. *)
Definition startStreamAPI (p : page) (now : Z) : page :=
  let jitterMs :=
    F64.round
      (F64.mul (F64.div 60000 (inject_Z (Z.max 1 (ratePerMin (cfg p)))))
         (jitterFraction (cfg p))) in
  let '(p, s) := streamToUI p now (pageIdx p) (ratePerMin (cfg p)) jitterMs in
  with_streamers p (Some s) (streamers p).

(** The [onEmit(m, idx)] that [startStreamAPI] passes. *)
Definition onEmit (p : page) (now : Z) (m : message) (idx : Z) : page :=
  let p := with_pageIdx p (F64.flz (idx + 1)) in
  let '(q, p) := draw_random p in
  if Qlt_bool q (F64.fl (2 # 100)) then
    match Str.or_str (Some (MessagePool.displayName m)) (MessagePool.name m) with
    | [] => p
    | name =>
        let '(q, p) := draw_random p in
        triggerTypingForNames p now [name]
          (F64.round (F64.add 200 (F64.mul q 900)))
    end
  else p.

(** [emitOne()] of the [s]-th call of [streamToUI], at the time [now] *)
Definition emitOne (p : page) (now : Z) (s : nat) : page :=
  match streamers p !! s with
  | None => p
  | Some st =>
      if s_stopped st then p
      else
        let this := pool p in
        let len := Z.of_nat (length (MessagePool.messages this)) in
        let m :=
          if negb (len =? 0) && (s_idx st <? len) then
            Ok (MessagePool.getMessageByIndex this (s_idx st))
          else
            let! m :=
              MessagePool._generateMessageForIndex pickFrom members this now
                (s_idx st)
                {| MessagePool.o_size :=
                     Some (MessagePool.size (MessagePool.meta this));
                   MessagePool.o_seedBase :=
                     Some (MessagePool.seedBase (MessagePool.meta this));
                   MessagePool.o_startTimestamp := None;
                   MessagePool.o_endTimestamp := None;
                   MessagePool.o_spanDays := None;
                   MessagePool.o_jitterMs := Some (s_opts_jitterMs st);
                   MessagePool.o_replyFraction := None;
                   MessagePool.o_attachmentFraction := None;
                   MessagePool.o_templates :=
                     Some (MessagePool.templateFragments this);
                   MessagePool.o_dedupeLRU := None;
                   MessagePool.o_pageSize := None |} in
            Ok (Some m) in
        match m with
        | Throw e => with_thrown p (thrown p ++ [e])
        | Ok m =>
            let p :=
              match m with
              | Some m => onEmit (renderMessage p m) now m (s_idx st)
              | None => p
              end in
            let '(q, p) := draw_random p in
            let j :=
              F64.round
                (F64.mul (F64.mul (F64.sub q (1 # 2)) 2)
                   (inject_Z (s_jitterMs st))) in
            let '(p, id) :=
              setTimeout p now (EmitOne s)
                (Z.max 20 (F64.flz (s_baseIntervalMs st + j))) in
            with_streamers p (currentStreamer p)
              (<[s := {| s_baseIntervalMs := s_baseIntervalMs st;
                         s_jitterMs := s_jitterMs st;
                         s_opts_jitterMs := s_opts_jitterMs st;
                         s_idx := F64.flz (s_idx st + 1);
                         s_stopped := false;
                         s_timerId := Some id |}]> (streamers p))
        end
  end.

(** [SimulationEngine.start()] at the time [now] *)
Definition start (p : page) (now : Z) : page :=
  if running p then p
  else
    let p := with_running p true in
    let p := stop p in
    if useStreamAPI (cfg p) && negb (simulateTypingBeforeSend (cfg p))
    then startStreamAPI p now
    else startManualStream p now.

(** [SimulationEngine.triggerOnce()] at the time [now] *)
Definition triggerOnce (p : page) (now : Z) : page :=
  let view :=
    MessagePool.createGeneratorView (pool p)
      {| MessagePool.o_size := None;
         MessagePool.o_seedBase := seedBase (cfg p);
         MessagePool.o_startTimestamp := None;
         MessagePool.o_endTimestamp := None;
         MessagePool.o_spanDays := None;
         MessagePool.o_jitterMs := None;
         MessagePool.o_replyFraction := None;
         MessagePool.o_attachmentFraction := None;
         MessagePool.o_templates := None;
         MessagePool.o_dedupeLRU := None;
         MessagePool.o_pageSize := Some (pageSize (cfg p)) |} in
  match MessagePool.view_get pickFrom members (pool p) now view (pageIdx p) with
  | Throw e => with_thrown p (thrown p ++ [e])
  | Ok None => p
  | Ok (Some m) =>
      let p := with_pageIdx p (F64.flz (pageIdx p + 1)) in
      let '(simulated, p) := doTyping p in
      if simulated then
        let typingDur := computeTypingDurationForMessage p m in
        let p := triggerTypingForNames p now [sender_name m] typingDur in
        fst (setTimeout p now (Render m) (F64.flz (typingDur + 80)))
      else renderMessage p m
  end.

(** The timeout [id] fires at the time [now]: it leaves the table and
    its callback runs.  A timeout that is not pending does not fire. *)
Definition fire (p : page) (now : Z) (id : Z) : page :=
  match List.find (fun t => t_id t =? id) (timers p) with
  | None => p
  | Some t =>
      let p := clearTimeout p id in
      match t_run t with
      | EmitNext c => emitNext p now c
      | EmitOne s => emitOne p now s
      | Render m => renderMessage p m
      end
  end.

End Page.

End SimulationEngine.

(** * Properties *)

(** ** The seeded generator *)

Module RngFacts.

Lemma xorshift32_alias (seed : Z) :
  JS.ToUint32 seed = 0 -> Rng.xorshift32 seed = Rng.xorshift32 Rng.DEFAULT_SEED.
Proof.
  intros H. unfold Rng.xorshift32. rewrite H. reflexivity.
Qed.

(** C10.  A seed whose [>>> 0] is 0 gives the generator of the seed
    0x811c9dc5: the two produce the same draw at every position. *)
Theorem xorshift32_zero_is_default (seed : Z) :
  JS.ToUint32 seed = 0 ->
  forall n : nat, Rng.stream seed n = Rng.stream Rng.DEFAULT_SEED n.
Proof.
  intros H n. unfold Rng.stream. rewrite (xorshift32_alias seed H).
  reflexivity.
Qed.

Lemma xorshift32_zero_is_default_witness :
  JS.ToUint32 0 = 0 /\
  forall n : nat, Rng.stream 0 n = Rng.stream Rng.DEFAULT_SEED n.
Proof.
  split; [reflexivity|].
  apply (xorshift32_zero_is_default 0). reflexivity.
Defined.

End RngFacts.

(** ** Loops *)

Lemma for_each_invariant {I S : Type} (body : I -> S -> result S)
  (Inv : S -> Prop) :
  (forall i s s', Inv s -> body i s = Ok s' -> Inv s') ->
  forall l s s', Inv s -> for_each body l s = Ok s' -> Inv s'.
Proof.
  intros Hstep. induction l as [|i l IH]; intros s s' Hs H; cbn [for_each] in H.
  - inversion H; subst; assumption.
  - destruct (body i s) as [s1|e] eqn:Hb; [|discriminate].
    eapply IH; [|eassumption]. eapply Hstep; eassumption.
Qed.

Lemma for_each_count {I S : Type} (body : I -> S -> result S)
  (count : S -> nat) :
  (forall i s s', body i s = Ok s' -> count s' = Datatypes.S (count s)) ->
  forall l s s', for_each body l s = Ok s' ->
    count s' = (count s + length l)%nat.
Proof.
  intros Hstep. induction l as [|i l IH]; intros s s' H; cbn [for_each] in H.
  - inversion H; subst. cbn [length]. lia.
  - destruct (body i s) as [s1|e] eqn:Hb; [|discriminate].
    rewrite (IH _ _ H), (Hstep _ _ _ Hb). cbn [length]. lia.
Qed.

Lemma length_upto (n : Z) : length (upto n) = Z.to_nat n.
Proof. unfold upto. rewrite length_map, length_seq. reflexivity. Qed.

(** ** Doubles that are integers *)

Module F64Facts.

Lemma flz_small (z : Z) : Z.abs z <= 2 ^ 53 -> F64.flz z = z.
Proof.
  intros H. unfold F64.flz. cbv zeta.
  destruct (Z.leb_spec (Z.abs z) (2 ^ 53)); [reflexivity|lia].
Qed.

Lemma rne_lower (p q : Z) : 0 <= p -> 0 < q -> p / q <= F64.rne p q.
Proof.
  intros Hp Hq. unfold F64.rne. cbv zeta.
  destruct (2 * (p mod q) <? q); [lia|].
  destruct (q <? 2 * (p mod q)); [lia|].
  destruct (Z.even (p / q)); lia.
Qed.

(** Beyond [2^53] rounding stays beyond [2^53]. *)
Lemma flz_large (z : Z) : 2 ^ 53 < Z.abs z -> 2 ^ 53 <= Z.abs (F64.flz z).
Proof.
  intros H. unfold F64.flz. cbv zeta.
  destruct (Z.leb_spec (Z.abs z) (2 ^ 53)); [lia|].
  set (p := Z.abs z) in *.
  assert (Hp : 0 < p) by lia.
  pose proof (Z.log2_spec p Hp) as [Hlo _].
  assert (Hlog : 53 <= Z.log2 p).
  { apply Z.log2_le_pow2; lia. }
  set (e := Z.log2 p - 52).
  assert (He : 1 <= e) by (unfold e; lia).
  assert (Hpow : 2 ^ Z.log2 p = 2 ^ 52 * 2 ^ e).
  { unfold e. rewrite <- Z.pow_add_r by lia. f_equal. lia. }
  assert (H2e : 0 < 2 ^ e) by (apply Z.pow_pos_nonneg; lia).
  assert (Hdiv : 2 ^ 52 <= p / 2 ^ e).
  { apply Z.div_le_lower_bound; [assumption|]. rewrite Z.mul_comm. lia. }
  pose proof (rne_lower p (2 ^ e) ltac:(lia) H2e) as Hr.
  assert (Hprod : 2 ^ 53 <= F64.rne p (2 ^ e) * 2 ^ e).
  { change (2 ^ 53) with (2 ^ 52 * 2 ^ 1).
    apply Z.mul_le_mono_nonneg; try lia.
    apply Z.pow_le_mono_r; lia. }
  destruct (Z.sgn_spec z) as [[Hz ->]|[[Hz ->]|[Hz ->]]]; lia.
Qed.

(** A sum the double keeps below [2^53] in size is exact. *)
Lemma flz_safe (z : Z) : Z.abs (F64.flz z) < 2 ^ 53 -> F64.flz z = z.
Proof.
  intros H. apply flz_small.
  destruct (Z.le_gt_cases (Z.abs z) (2 ^ 53)) as [Hle|Hgt]; [assumption|].
  pose proof (flz_large z Hgt). lia.
Qed.

Lemma flz_nonneg (z : Z) : 0 <= z -> 0 <= F64.flz z.
Proof.
  intros Hz. unfold F64.flz. cbv zeta.
  destruct (Z.abs z <=? 2 ^ 53); [assumption|].
  assert (0 <= F64.rne (Z.abs z) (2 ^ (Z.log2 (Z.abs z) - 52))).
  { destruct (Z.le_gt_cases 0 (Z.log2 (Z.abs z) - 52)) as [He|He].
    - etransitivity; [|apply rne_lower; [lia|apply Z.pow_pos_nonneg; lia]].
      apply Z.div_pos; [lia|apply Z.pow_pos_nonneg; lia].
    - rewrite (Z.pow_neg_r 2 _ He). unfold F64.rne. cbv zeta.
      rewrite Z.div_0_r, Z.mod_0_r. 
      destruct (2 * Z.abs z <? 0) eqn:E1; [lia|].
      destruct (0 <? 2 * Z.abs z); [lia|]. reflexivity. }
  assert (0 <= 2 ^ (Z.log2 (Z.abs z) - 52)) by (apply Z.pow_nonneg; lia).
  destruct (Z.sgn_spec z) as [[? ->]|[[? ->]|[? ->]]]; nia.
Qed.

End F64Facts.

Example flz_1e20 : F64.flz (100000000000000000000 + 1000) = 100000000000000000000.
Proof. vm_compute. reflexivity. Qed.

(** ** The message pool *)

Module MessagePoolFacts.
Import MessagePool.

(** [forall i > 0, l[i].time > l[i-1].time] *)
Definition strictly_increasing (l : list message) : Prop :=
  forall (i : nat) (a b : message),
    l !! i = Some a -> l !! S i = Some b -> time a < time b.

(** [forall i > 0, l[i].time >= l[i-1].time] *)
Definition nondecreasing (l : list message) : Prop :=
  forall (i : nat) (a b : message),
    l !! i = Some a -> l !! S i = Some b -> time a <= time b.

(** A timestamp in the range where every integer is a double. *)
Definition safe (m : message) : Prop := time m < 2 ^ 53.

(** A message without its timestamp. *)
Definition untimed (m : message) : message := set_time m 0.

(** What the monotonic pass makes of the sorted array [s]: the same
    messages, the first with its time, each later one with its time if that
    is later than the time stored before it, else with that time plus 1000
    as a double. *)
Definition bumped (s arr : list message) : Prop :=
  length arr = length s /\
  (forall i a sa, arr !! i = Some a -> s !! i = Some sa ->
     untimed a = untimed sa) /\
  (forall a sa, arr !! 0%nat = Some a -> s !! 0%nat = Some sa ->
     time a = time sa) /\
  (forall i a b sb,
     arr !! i = Some a -> arr !! S i = Some b -> s !! S i = Some sb ->
     time b = if time sb <=? time a then F64.flz (time a + 1000) else time sb).

(** *** The sort *)

Definition le_time (a b : message) : Prop := time a <= time b.

Lemma insert_by_time_perm (m : message) (l : list message) :
  Permutation (insert_by_time m l) (m :: l).
Proof.
  induction l as [|h l IH]; cbn [insert_by_time]; [reflexivity|].
  destruct (time m <=? time h); [reflexivity|].
  rewrite IH. apply perm_swap.
Qed.

Lemma sort_by_time_perm (l : list message) : Permutation (sort_by_time l) l.
Proof.
  unfold sort_by_time. induction l as [|m l IH]; cbn [fold_right]; [reflexivity|].
  rewrite insert_by_time_perm, IH. reflexivity.
Qed.

Lemma insert_by_time_HdRel (m a : message) (l : list message) :
  le_time a m -> HdRel le_time a l -> HdRel le_time a (insert_by_time m l).
Proof.
  intros Ham Hal. destruct l as [|h l]; cbn [insert_by_time].
  - constructor. assumption.
  - destruct (time m <=? time h); constructor; [assumption|].
    inversion Hal; assumption.
Qed.

Lemma insert_by_time_Sorted (m : message) (l : list message) :
  Sorted le_time l -> Sorted le_time (insert_by_time m l).
Proof.
  induction 1 as [|h l Hs IH Hd]; cbn [insert_by_time].
  - repeat constructor.
  - destruct (Z.leb_spec (time m) (time h)).
    + constructor; [constructor; assumption|]. constructor. assumption.
    + constructor; [assumption|].
      apply insert_by_time_HdRel; [unfold le_time; lia|assumption].
Qed.

Lemma sort_by_time_Sorted (l : list message) : Sorted le_time (sort_by_time l).
Proof.
  unfold sort_by_time. induction l as [|m l IH]; cbn [fold_right].
  - constructor.
  - apply insert_by_time_Sorted. assumption.
Qed.

Lemma Sorted_nondecreasing (l : list message) :
  Sorted le_time l -> nondecreasing l.
Proof.
  induction 1 as [|m l Hs IH Hd]; intros i a b Ha Hb.
  - discriminate.
  - destruct i as [|i]; cbn [lookup list_lookup] in *.
    + inversion Ha; subst a.
      destruct l as [|m' l]; [discriminate|].
      cbn [lookup list_lookup] in Hb. inversion Hb; subst b.
      inversion Hd; assumption.
    + eapply IH; eassumption.
Qed.

(** *** The monotonic pass *)

Lemma untimed_set_time (m : message) (t : Z) : untimed (set_time m t) = untimed m.
Proof. reflexivity. Qed.

(** The time [bump_from] stores for [m] after [prev]. *)
Definition bump_time (prev : Z) (m : message) : Z :=
  if time m <=? prev then F64.flz (prev + 1000) else time m.

Lemma bump_from_cons (prev : Z) (m : message) (l : list message) :
  bump_from prev (m :: l)
  = set_time m (bump_time prev m) :: bump_from (bump_time prev m) l.
Proof.
  cbn [bump_from]. unfold bump_time.
  destruct (time m <=? prev); [reflexivity|].
  destruct m; reflexivity.
Qed.

Lemma bump_from_length (l : list message) :
  forall prev, length (bump_from prev l) = length l.
Proof.
  induction l as [|m l IH]; intros prev; [reflexivity|].
  rewrite bump_from_cons. cbn [length]. rewrite IH. reflexivity.
Qed.

Lemma bump_from_untimed (l : list message) :
  forall prev i a sa,
    bump_from prev l !! i = Some a -> l !! i = Some sa -> untimed a = untimed sa.
Proof.
  induction l as [|m l IH]; intros prev i a sa Ha Hsa; [discriminate|].
  rewrite bump_from_cons in Ha.
  destruct i as [|i]; cbn [lookup list_lookup] in *.
  - inversion Ha. inversion Hsa. subst. apply untimed_set_time.
  - eapply IH; eassumption.
Qed.

Lemma bump_from_head (l : list message) (prev : Z) (b sb : message) :
  bump_from prev l !! 0%nat = Some b -> l !! 0%nat = Some sb ->
  time b = bump_time prev sb.
Proof.
  destruct l as [|m l]; [discriminate|].
  rewrite bump_from_cons. cbn [lookup list_lookup].
  intros Hb Hsb. inversion Hb. inversion Hsb. subst. reflexivity.
Qed.

Lemma bump_from_step (l : list message) :
  forall prev i a b sb,
    bump_from prev l !! i = Some a -> bump_from prev l !! S i = Some b ->
    l !! S i = Some sb ->
    time b = bump_time (time a) sb.
Proof.
  induction l as [|m l IH]; intros prev i a b sb Ha Hb Hsb; [discriminate|].
  rewrite bump_from_cons in Ha, Hb.
  destruct i as [|i].
  - cbn [lookup list_lookup] in Ha, Hb, Hsb.
    inversion Ha; subst a. cbn [time set_time].
    eapply bump_from_head; eassumption.
  - cbn [lookup list_lookup] in Ha, Hb, Hsb.
    eapply IH; eassumption.
Qed.

Lemma bump_bumped (s : list message) : bumped s (bump s).
Proof.
  destruct s as [|m s].
  - repeat split; intros; discriminate.
  - cbn [bump]. repeat split.
    + cbn [length]. rewrite bump_from_length. reflexivity.
    + intros [|i] a sa Ha Hsa; cbn [lookup list_lookup] in *.
      * congruence.
      * eapply bump_from_untimed; eassumption.
    + intros a sa Ha Hsa. cbn [lookup list_lookup] in *. congruence.
    + intros [|i] a b sb Ha Hb Hsb.
      * cbn [lookup list_lookup] in Ha, Hb, Hsb. inversion Ha; subst a.
        eapply bump_from_head; eassumption.
      * cbn [lookup list_lookup] in Ha, Hb, Hsb.
        eapply bump_from_step; eassumption.
Qed.

(** In the range of exact integers a bump is a step forward. *)
Lemma bump_time_later (prev : Z) (m : message) :
  0 <= prev -> 0 <= time m -> bump_time prev m < 2 ^ 53 ->
  prev < bump_time prev m /\ 0 <= bump_time prev m.
Proof.
  intros Hp Hm Hs. unfold bump_time in *.
  destruct (Z.leb_spec (time m) prev); [|lia].
  pose proof (F64Facts.flz_nonneg (prev + 1000) ltac:(lia)) as Hn.
  rewrite F64Facts.flz_safe in * by lia. lia.
Qed.

Lemma bump_from_increasing (l : list message) :
  forall prev,
    0 <= prev -> Forall (fun m => 0 <= time m) l ->
    Forall safe (bump_from prev l) ->
    Forall (fun m => prev < time m) (firstn 1 (bump_from prev l)) /\
    strictly_increasing (bump_from prev l).
Proof.
  induction l as [|m l IH]; intros prev Hp Hl Hs.
  - split; [constructor|]. intros i a b Ha. discriminate.
  - rewrite bump_from_cons in *.
    inversion Hl as [|? ? Hm Hl']; subst.
    inversion Hs as [|? ? Hsm Hs']; subst.
    unfold safe in Hsm. cbn [time set_time] in Hsm.
    destruct (bump_time_later prev m Hp Hm Hsm) as [Hlt Hnn].
    destruct (IH (bump_time prev m) Hnn Hl' Hs') as [Hhd Hinc].
    split.
    + cbn [firstn]. constructor; [exact Hlt|constructor].
    + intros [|i] a b Ha Hb; cbn [lookup list_lookup] in Ha, Hb.
      * inversion Ha; subst a. cbn [time set_time].
        destruct (bump_from (bump_time prev m) l) as [|b' r]; [discriminate|].
        cbn [lookup list_lookup] in Hb. inversion Hb; subst b'.
        cbn [firstn] in Hhd. inversion Hhd; assumption.
      * eapply Hinc; eassumption.
Qed.

Lemma bump_increasing (s : list message) :
  Forall (fun m => 0 <= time m) s -> Forall safe (bump s) ->
  strictly_increasing (bump s).
Proof.
  destruct s as [|m s]; intros Hn Hs.
  - intros i a b Ha. discriminate.
  - cbn [bump] in *.
    inversion Hn as [|? ? Hm Hn']; subst.
    inversion Hs as [|? ? Hsm Hs']; subst.
    destruct (bump_from_increasing s (time m) Hm Hn' Hs') as [Hhd Hinc].
    intros [|i] a b Ha Hb; cbn [lookup list_lookup] in Ha, Hb.
    + inversion Ha; subst a.
      destruct (bump_from (time m) s) as [|b' r]; [discriminate|].
      cbn [lookup list_lookup] in Hb. inversion Hb; subst b'.
      cbn [firstn] in Hhd. inversion Hhd; assumption.
    + eapply Hinc; eassumption.
Qed.

(** *** What the generation loop produces *)

Lemma pool_size_bounds (this : pool) (o : opts) :
  10 <= pool_size this o <= 200000.
Proof. unfold pool_size, JS.clamp. lia. Qed.

Lemma prepare_size (this : pool) (o : opts) :
  size (meta (prepare this o)) = pool_size this o.
Proof.
  unfold prepare, preGenerateTemplates.
  destruct (o_templates o); [reflexivity|].
  destruct (_ <? 200); reflexivity.
Qed.

Section Pool.
Variable pickFrom : option (list Str.t -> Z -> Str.t * Z).
Variable members : list member.

Lemma _generateMessageForIndex_time this now i o m :
  _generateMessageForIndex pickFrom members this now i o = Ok m ->
  0 <= time m.
Proof.
  unfold _generateMessageForIndex.
  set (sx := match members with [] => _ | _ => _ end).
  destruct sx as [sender x].
  cbv beta iota zeta.
  set (r := message_text _ _ _). destruct r as [[t x']|e];
    cbv beta iota delta [rbind]; [|discriminate].
  set (b1 := Rng.below _ _).
  destruct b1; cbv beta iota zeta;
    set (b2 := _ && _); destruct b2; cbv beta iota zeta;
    intros H;
    apply (f_equal (fun r => match r with Ok m => time m | Throw _ => 0 end)) in H;
    cbv beta iota in H; rewrite <- H;
    cbv beta iota delta [time]; apply Z.le_max_l.
Qed.

Lemma dedupe_body_time this now o size seedBase i a a' :
  dedupe_body pickFrom members this now o size seedBase i a = Ok a' ->
  time (a_msg a') = time (a_msg a).
Proof.
  unfold dedupe_body.
  destruct (_generateMessageForIndex _ _ _ _ _ _) as [alt|e];
    cbv beta iota zeta delta [rbind]; [|discriminate].
  destruct (Z.even (a_attempts a)).
  - destruct (call_pickFrom pickFrom EMOJI _) as [[e x]|e];
      cbv beta iota zeta delta [rbind]; [|discriminate].
    intros H; inversion H. reflexivity.
  - intros H; inversion H. reflexivity.
Qed.

Lemma dedupe_loop_time this now o size seedBase i cache (fuel : nat) :
  forall a a',
    while (dedupe_cond cache)
      (dedupe_body pickFrom members this now o size seedBase i) fuel a = Ok a' ->
    time (a_msg a') = time (a_msg a).
Proof.
  induction fuel as [|fuel IH]; intros a a' H; cbn [while] in H.
  - inversion H; reflexivity.
  - destruct (dedupe_cond cache a).
    + destruct (dedupe_body _ _ _ _ _ _ _ _ a) as [a1|e] eqn:Hb; [|discriminate].
      rewrite (IH _ _ H). eapply dedupe_body_time; eassumption.
    + inversion H; reflexivity.
Qed.

Lemma generate_one_time this now o size seedBase i cache a :
  generate_one pickFrom members this now o size seedBase i cache = Ok a ->
  0 <= time (a_msg a).
Proof.
  unfold generate_one.
  destruct (_generateMessageForIndex _ _ _ _ _ _) as [m|e] eqn:Hg;
    cbv beta iota delta [rbind]; [|discriminate].
  intros H. apply dedupe_loop_time in H. rewrite H. cbn [a_msg].
  eapply _generateMessageForIndex_time; eassumption.
Qed.

Lemma generate_step_grows this clock o size seedBase i st st' :
  generate_step pickFrom members this clock o size seedBase i st = Ok st' ->
  length (snd st') = S (length (snd st)) /\
  (Forall (fun a => 0 <= time (a_msg a)) (snd st) ->
   Forall (fun a => 0 <= time (a_msg a)) (snd st')).
Proof.
  destruct st as [cache done]. unfold generate_step.
  destruct (generate_one _ _ _ _ _ _ _ _ _) as [a|e] eqn:Hone;
    cbv beta iota delta [rbind]; [|discriminate].
  intros H; inversion H; subst st'. cbn [snd length]. split; [reflexivity|].
  intros Hd. constructor; [|assumption].
  eapply generate_one_time; eassumption.
Qed.

(** The loop generates [size] entries, at times that are not negative. *)
Lemma generated_entries this clock o entries :
  generated pickFrom members this clock o = Ok entries ->
  Z.of_nat (length entries) = pool_size this o /\
  Forall (fun a => 0 <= time (a_msg a)) entries.
Proof.
  unfold generated.
  destruct (for_each _ _ _) as [[cache done]|e] eqn:Hloop;
    cbv beta iota delta [rbind]; [|discriminate].
  intros H; inversion H; subst entries; clear H.
  split.
  - rewrite length_rev.
    change (length done) with (length (snd (cache, done))).
    rewrite (for_each_count _ (fun st => length (snd st))
               (fun i s s' Hb => proj1 (generate_step_grows _ _ _ _ _ _ _ _ Hb))
               _ _ _ Hloop).
    cbn [snd length]. rewrite length_upto, prepare_size.
    pose proof (pool_size_bounds this o). rewrite Nat.add_0_l, Z2Nat.id; lia.
  - apply Forall_rev.
    change done with (snd (cache, done)).
    eapply (for_each_invariant _
              (fun st => Forall (fun a => 0 <= time (a_msg a)) (snd st)));
      [| |exact Hloop].
    + intros i s s' Hs Hb.
      exact (proj2 (generate_step_grows _ _ _ _ _ _ _ _ Hb) Hs).
    + constructor.
Qed.

Lemma generatePool_returns this clock o arr p :
  generatePool pickFrom members this clock o = (Ok arr, p) ->
  messages p = arr /\
  exists entries,
    generated pickFrom members this clock o = Ok entries /\
    arr = bump (sort_by_time (map a_msg entries)).
Proof.
  unfold generatePool.
  destruct (generated pickFrom members this clock o) as [entries|e];
    intros H; inversion H; subst; cbn [messages].
  split; [reflexivity|]. exists entries. split; reflexivity.
Qed.

(** C2, amended.  Whenever [generatePool] returns, the array it returns is
    the array it stored; it holds as many messages as the clamped size;
    they are the messages generated, sorted by time, each then given the
    time of the one before it plus 1000 where its own is not later; and if
    every time stored is below [2^53], every message is strictly later
    than the one before it. *)
Theorem generatePool_strictly_increasing this clock o arr p :
  generatePool pickFrom members this clock o = (Ok arr, p) ->
  messages p = arr /\
  Z.of_nat (length arr) = pool_size this o /\
  (exists entries s,
     generated pickFrom members this clock o = Ok entries /\
     Permutation s (map a_msg entries) /\ nondecreasing s /\ bumped s arr) /\
  (Forall safe arr -> strictly_increasing arr).
Proof.
  intros H. apply generatePool_returns in H as [Hm (entries & Hg & ->)].
  destruct (generated_entries _ _ _ _ Hg) as [Hlen Hnn].
  pose proof (bump_bumped (sort_by_time (map a_msg entries))) as Hb.
  split; [assumption|]. split; [|split].
  - destruct Hb as [-> _].
    rewrite (Permutation_length (sort_by_time_perm _)), length_map.
    assumption.
  - exists entries, (sort_by_time (map a_msg entries)).
    split; [assumption|]. split; [apply sort_by_time_perm|].
    split; [apply Sorted_nondecreasing, sort_by_time_Sorted|assumption].
  - apply bump_increasing.
    rewrite (sort_by_time_perm (map a_msg entries)).
    apply Forall_map. assumption.
Qed.
End Pool.


(** *** The cache of recent hashes *)










(** *** The dedupe loop *)



Section DedupeFacts.
Variable pickFrom : option (list Str.t -> Z -> Str.t * Z).
Variable members : list member.
Variables (this : pool) (now : Z) (o : opts) (size seedBase i : Z).
Variable cache : lru.



End DedupeFacts.


Section LoopFacts.
Variable pickFrom : option (list Str.t -> Z -> Str.t * Z).
Variable members : list member.


End LoopFacts.

(** The options [{size: 10, seedBase: 1, spanDays: 1}]. *)
Definition opts_seed1 : opts :=
    {| o_size := Some 10; o_seedBase := Some 1; o_startTimestamp := None;
       o_endTimestamp := None; o_spanDays := Some 1; o_jitterMs := None;
       o_replyFraction := None; o_attachmentFraction := None;
       o_templates := None; o_dedupeLRU := None; o_pageSize := None |}.

Definition noon : Z := 1700000000000.

(** The run of the scripts as shipped ([pickFrom] bound nowhere) on a
      fresh page without members, the clock standing at [noon]. *)
Definition run_seed1 : result (list message) * pool :=
    Eval vm_compute in generatePool None [] initial (fun _ => noon) opts_seed1.

Lemma safe_forallb (l : list message) :
  forallb (fun m => time m <? 2 ^ 53) l = true -> Forall safe l.
Proof.
  intros H. apply Forall_forall. intros m Hm.
  rewrite forallb_forall in H. apply Z.ltb_lt. apply H.
  apply list_elem_of_In. assumption.
Qed.

Definition arr_seed1 : list message :=
  match fst run_seed1 with
  | Ok arr => arr
  | Throw _ => []
  end.

Lemma generatePool_strictly_increasing_witness :
  generatePool None [] initial (fun _ => noon) opts_seed1
  = (Ok arr_seed1, snd run_seed1) /\
  Forall safe arr_seed1 /\
  messages (snd run_seed1) = arr_seed1 /\
  Z.of_nat (length arr_seed1) = 10 /\
  strictly_increasing arr_seed1.
Proof.
  assert (H : generatePool None [] initial (fun _ => noon) opts_seed1
              = (Ok arr_seed1, snd run_seed1)) by (vm_compute; reflexivity).
  assert (Hs : Forall safe arr_seed1)
    by (apply safe_forallb; vm_compute; reflexivity).
  pose proof (generatePool_strictly_increasing None [] initial
                (fun _ => noon) opts_seed1 _ _ H) as (Hm & Hl & _ & Hinc).
  split; [exact H|]. split; [exact Hs|]. split; [exact Hm|].
  split; [exact Hl|exact (Hinc Hs)].
Defined.

(** The options [{size: 10, seedBase: 1, startTimestamp: 1e20,
    endTimestamp: 1e20, jitterMs: 1}]. *)
Definition opts_far : opts :=
  {| o_size := Some 10; o_seedBase := Some 1;
     o_startTimestamp := Some 100000000000000000000;
     o_endTimestamp := Some 100000000000000000000;
     o_spanDays := None; o_jitterMs := Some 1;
     o_replyFraction := None; o_attachmentFraction := None;
     o_templates := None; o_dedupeLRU := None; o_pageSize := None |}.

(** C2 as stated fails: with the window at 1e20 ms every message is
    generated at 1e20, and 1e20 + 1000 is 1e20 again as a double, so the
    pass that bumps ties leaves the first two messages (all ten, in fact)
    at the same time. *)
Lemma generatePool_far_not_increasing :
  exists arr p,
    generatePool None [] initial (fun _ => noon) opts_far = (Ok arr, p) /\
    ~ strictly_increasing arr.
Proof.
  eexists. eexists. split; [vm_compute; reflexivity|].
  intros H.
  exact (Z.lt_irrefl 100000000000000000000 (H 0%nat _ _ eq_refl eq_refl)).
Qed.


(** *** The scripts as shipped *)

Section Shipped.
Variable members : list member.



End Shipped.






(** *** What a call reads of the pool object

    [_generateMessageForIndex] reads the stored array only to decide whether
    a reply is drawn and, through [replyTo], which id it names. *)

Definition rmap {A B} (f : A -> B) (r : result A) : result B :=
  match r with
  | Ok a => Ok (f a)
  | Throw e => Throw e
  end.

Lemma rmap_eq_cases {A B} (f : A -> B) (r1 r2 : result A) :
  rmap f r1 = rmap f r2 ->
  (exists e, r1 = Throw e /\ r2 = Throw e) \/
  (exists a b, r1 = Ok a /\ r2 = Ok b /\ f a = f b).
Proof.
  destruct r1 as [a|e1], r2 as [b|e2]; cbv [rmap]; intros H;
    try discriminate.
  - right. exists a, b. inversion H. auto.
  - left. exists e1. inversion H. auto.
Qed.

Lemma for_each_rel {I S T} (body1 body2 : I -> S -> result S) (f : S -> T) :
  (forall i s1 s2, f s1 = f s2 -> rmap f (body1 i s1) = rmap f (body2 i s2)) ->
  forall l s1 s2, f s1 = f s2 ->
    rmap f (for_each body1 l s1) = rmap f (for_each body2 l s2).
Proof.
  intros Hb. induction l as [|i l IH]; intros s1 s2 Hs; cbn [for_each].
  - cbv [rmap]. f_equal. assumption.
  - destruct (rmap_eq_cases _ _ _ (Hb i s1 s2 Hs))
      as [(e & -> & ->)|(a & b & -> & -> & Hab)].
    + reflexivity.
    + apply IH. assumption.
Qed.

Lemma while_rel {S T} (cond1 cond2 : S -> bool) (body1 body2 : S -> result S)
  (f : S -> T) :
  (forall s1 s2, f s1 = f s2 -> cond1 s1 = cond2 s2) ->
  (forall s1 s2, f s1 = f s2 -> rmap f (body1 s1) = rmap f (body2 s2)) ->
  forall fuel s1 s2, f s1 = f s2 ->
    rmap f (while cond1 body1 fuel s1) = rmap f (while cond2 body2 fuel s2).
Proof.
  intros Hc Hb. induction fuel as [|fuel IH]; intros s1 s2 Hs; cbn [while].
  - cbv [rmap]. f_equal. assumption.
  - rewrite (Hc s1 s2 Hs). destruct (cond2 s2).
    + destruct (rmap_eq_cases _ _ _ (Hb s1 s2 Hs))
        as [(e & -> & ->)|(a & b & -> & -> & Hab)].
      * reflexivity.
      * apply IH. assumption.
    + cbv [rmap]. f_equal. assumption.
Qed.

(** A message without its [replyTo]. *)
Definition erase (m : message) : message :=
  {| id := id m; name := name m; displayName := displayName m;
     role := role m; avatar := avatar m; text := text m; time := time m;
     replyTo := None; attachment := attachment m |}.

Definition erase_a (a : attempt) : attempt :=
  {| a_msg := erase (a_msg a); a_hash := a_hash a; a_attempts := a_attempts a |}.

(** What claim C1 compares of two messages. *)
Definition key (m : message) : msgid * Str.t * Z := (id m, text m, time m).

(** Two pool objects a call cannot tell apart but for the ids it replies
    to: the same meta, the same fragments, and as many stored messages as
    far as [Math.min(this.messages.length, 100)] sees. *)
Definition same_shape (p q : pool) : Prop :=
  meta p = meta q /\ templateFragments p = templateFragments q /\
  Z.min (Z.of_nat (length (messages p))) 100
  = Z.min (Z.of_nat (length (messages q))) 100.

Lemma key_erase (m : message) : key (erase m) = key m.
Proof. reflexivity. Qed.

Lemma erase_fields (m1 m2 : message) :
  erase m1 = erase m2 ->
  id m1 = id m2 /\ name m1 = name m2 /\ displayName m1 = displayName m2 /\
  role m1 = role m2 /\ avatar m1 = avatar m2 /\ text m1 = text m2 /\
  time m1 = time m2 /\ attachment m1 = attachment m2.
Proof.
  intros H.
  repeat split;
    [ exact (f_equal id H) | exact (f_equal name H)
    | exact (f_equal displayName H) | exact (f_equal role H)
    | exact (f_equal avatar H) | exact (f_equal text H)
    | exact (f_equal time H) | exact (f_equal attachment H) ].
Qed.

Lemma erase_a_fields (a1 a2 : attempt) :
  erase_a a1 = erase_a a2 ->
  erase (a_msg a1) = erase (a_msg a2) /\ a_hash a1 = a_hash a2 /\
  a_attempts a1 = a_attempts a2.
Proof.
  intros H.
  repeat split;
    [ exact (f_equal a_msg H) | exact (f_equal a_hash H)
    | exact (f_equal a_attempts H) ].
Qed.

Section SameShape.
Variable pickFrom : option (list Str.t -> Z -> Str.t * Z).
Variable members : list member.

Lemma _generateMessageForIndex_erase p q now i o :
  same_shape p q ->
  rmap erase (_generateMessageForIndex pickFrom members p now i o) =
  rmap erase (_generateMessageForIndex pickFrom members q now i o).
Proof.
  intros (Hm & Ht & Hl).
  assert (He : Nat.eqb (length (messages p)) 0 = Nat.eqb (length (messages q)) 0).
  { clear -Hl. destruct (messages p), (messages q);
      cbn [length Nat.eqb] in *; try reflexivity; lia. }
  unfold _generateMessageForIndex, base_time, window_of.
  rewrite <- Hm, <- Ht, <- He, <- Hl.
  set (sx := match members with [] => _ | _ => _ end).
  destruct sx as [sender x].
  cbv beta iota zeta.
  set (r := message_text _ _ _). destruct r as [[t x']|e]; [|reflexivity].
  unfold rbind.
  set (b1 := Rng.below _ _).
  destruct b1; cbv beta iota zeta;
    set (b2 := _ && _); destruct b2; cbv beta iota zeta;
    unfold rmap; apply (f_equal Ok);
    cbv beta iota delta [erase id name displayName role avatar text time
                           replyTo attachment];
    reflexivity.
Qed.

Lemma alt_opts_same p q o size seedBase attempts :
  templateFragments p = templateFragments q ->
  alt_opts p o size seedBase attempts = alt_opts q o size seedBase attempts.
Proof. intros H. unfold alt_opts. rewrite H. reflexivity. Qed.

Lemma gen_opts_same p q o size seedBase :
  templateFragments p = templateFragments q ->
  gen_opts p o size seedBase = gen_opts q o size seedBase.
Proof. intros H. unfold gen_opts. rewrite H. reflexivity. Qed.

Lemma dedupe_body_erase p q now o size seedBase i a1 a2 :
  same_shape p q -> erase_a a1 = erase_a a2 ->
  rmap erase_a (dedupe_body pickFrom members p now o size seedBase i a1) =
  rmap erase_a (dedupe_body pickFrom members q now o size seedBase i a2).
Proof.
  intros Hpq Ha.
  destruct (erase_a_fields _ _ Ha) as (Hmsg & _ & Hatt).
  apply erase_fields in Hmsg
    as (Hid & Hname & Hdn & Hrole & Hav & _ & Htime & Hatt').
  unfold dedupe_body.
  rewrite (alt_opts_same p q) by apply Hpq.
  rewrite <- Hatt.
  destruct (rmap_eq_cases _ _ _
              (_generateMessageForIndex_erase p q now (i + a_attempts a1 + 1)
                 (alt_opts q o size seedBase (a_attempts a1)) Hpq))
    as [(e & -> & ->)|(alt1 & alt2 & -> & -> & Halt)].
  - cbv beta iota delta [rbind rmap]. reflexivity.
  - apply erase_fields in Halt as (_ & _ & _ & _ & _ & Htext & _ & Hattach).
    cbv beta iota zeta delta [rbind].
    rewrite Hid, Hname, Hdn, Hrole, Hav, Htime, Hatt', Htext, Hattach.
    destruct (Z.even (a_attempts a1)).
    + destruct (call_pickFrom pickFrom EMOJI _) as [[e x]|e];
        cbv beta iota zeta delta [rbind]; [|reflexivity].
      cbv beta iota delta [rmap erase_a erase text_hash a_msg a_hash a_attempts
                             id name displayName role avatar text time
                             replyTo attachment].
      reflexivity.
    + cbv beta iota delta [rbind rmap erase_a erase text_hash a_msg a_hash
                             a_attempts id name displayName role avatar text
                             time replyTo attachment].
      reflexivity.
Qed.

Lemma dedupe_cond_erase cache a1 a2 :
  erase_a a1 = erase_a a2 -> dedupe_cond cache a1 = dedupe_cond cache a2.
Proof.
  intros H. destruct (erase_a_fields _ _ H) as (_ & Hh & Hatt).
  unfold dedupe_cond. rewrite Hh, Hatt. reflexivity.
Qed.

Lemma generate_one_erase p q now o size seedBase i cache :
  same_shape p q ->
  rmap erase_a (generate_one pickFrom members p now o size seedBase i cache) =
  rmap erase_a (generate_one pickFrom members q now o size seedBase i cache).
Proof.
  intros Hpq. unfold generate_one.
  rewrite (gen_opts_same p q) by apply Hpq.
  destruct (rmap_eq_cases _ _ _
              (_generateMessageForIndex_erase p q now i
                 (gen_opts q o size seedBase) Hpq))
    as [(e & -> & ->)|(m1 & m2 & -> & -> & Hm)].
  - cbv beta iota delta [rbind rmap]. reflexivity.
  - cbv beta iota delta [rbind].
    apply while_rel.
    + apply dedupe_cond_erase.
    + intros s1 s2. apply dedupe_body_erase. assumption.
    + pose proof (erase_fields _ _ Hm) as (_ & _ & _ & _ & _ & Htext & _ & _).
      cbv beta iota delta [erase_a text_hash a_msg a_hash a_attempts].
      rewrite Hm, Htext. reflexivity.
Qed.

(** The state of the generation loop, without the [replyTo]s. *)
Definition erase_st (st : lru * list attempt) : lru * list attempt :=
  (fst st, map erase_a (snd st)).

Lemma generate_step_erase p q clock o size seedBase i st1 st2 :
  same_shape p q -> erase_st st1 = erase_st st2 ->
  rmap erase_st (generate_step pickFrom members p clock o size seedBase i st1) =
  rmap erase_st (generate_step pickFrom members q clock o size seedBase i st2).
Proof.
  intros Hpq Hst. destruct st1 as [c1 d1], st2 as [c2 d2].
  cbv [erase_st fst snd] in Hst. inversion Hst as [[Hc Hd]]. subst c2.
  unfold generate_step.
  destruct (rmap_eq_cases _ _ _
              (generate_one_erase p q (clock i) o size seedBase i c1 Hpq))
    as [(e & -> & ->)|(a1 & a2 & -> & -> & Ha)].
  - cbv beta iota delta [rbind rmap]. reflexivity.
  - cbv beta iota delta [rbind rmap erase_st fst snd]. cbn [map].
    destruct (erase_a_fields _ _ Ha) as (_ & Hh & _).
    rewrite Ha, Hd, Hh. reflexivity.
Qed.
End SameShape.


Lemma prepare_same (p q : pool) (o : opts) :
  same_shape p q -> same_shape (prepare p o) (prepare q o).
Proof.
  intros (Hm & Ht & Hl).
  unfold same_shape, prepare, pool_size, pool_seed, preGenerateTemplates.
  rewrite Hm, Ht.
  cbv beta iota zeta delta [meta templateFragments messages].
  destruct (o_templates o) as [t|]; [|destruct (_ <? 200)];
    cbv beta iota; repeat split; try reflexivity; exact Hl.
Qed.

Lemma map_erase_a_msg (l : list attempt) :
  map erase (map a_msg l) = map a_msg (map erase_a l).
Proof. rewrite !map_map. reflexivity. Qed.

Lemma insert_by_time_erase (m : message) (l : list message) :
  map erase (insert_by_time m l) = insert_by_time (erase m) (map erase l).
Proof.
  induction l as [|h l IH]; cbn [insert_by_time map]; [reflexivity|].
  change (time (erase m)) with (time m).
  change (time (erase h)) with (time h).
  destruct (time m <=? time h); cbn [map]; [reflexivity|].
  rewrite IH. reflexivity.
Qed.

Lemma sort_by_time_erase (l : list message) :
  map erase (sort_by_time l) = sort_by_time (map erase l).
Proof.
  unfold sort_by_time.
  induction l as [|m l IH]; cbn [fold_right map]; [reflexivity|].
  rewrite insert_by_time_erase, IH. reflexivity.
Qed.

Lemma bump_from_erase (l : list message) :
  forall prev, map erase (bump_from prev l) = bump_from prev (map erase l).
Proof.
  induction l as [|m l IH]; intros prev; cbn [bump_from map]; [reflexivity|].
  change (time (erase m)) with (time m).
  destruct (time m <=? prev).
  - rewrite IH. reflexivity.
  - rewrite IH. reflexivity.
Qed.

Lemma bump_erase (l : list message) : map erase (bump l) = bump (map erase l).
Proof.
  destruct l as [|m l]; cbn [bump map]; [reflexivity|].
  rewrite bump_from_erase. reflexivity.
Qed.

Lemma map_key_erase (l : list message) : map key (map erase l) = map key l.
Proof. rewrite map_map. apply map_ext. intros m. apply key_erase. Qed.

Section Repeat.
Variable pickFrom : option (list Str.t -> Z -> Str.t * Z).
Variable members : list member.

Lemma generated_erase p q clock o :
  same_shape p q ->
  rmap (map erase_a) (generated pickFrom members p clock o) =
  rmap (map erase_a) (generated pickFrom members q clock o).
Proof.
  intros Hpq. apply (prepare_same p q o) in Hpq.
  unfold generated.
  destruct Hpq as (Hm & Ht & Hl).
  rewrite <- Hm.
  set (P := prepare p o) in *. set (Q := prepare q o) in *.
  assert (HPQ : same_shape P Q) by (repeat split; assumption).
  destruct (rmap_eq_cases _ _ _
              (for_each_rel
                 (generate_step pickFrom members P clock o
                    (size (meta P)) (seedBase (meta P)))
                 (generate_step pickFrom members Q clock o
                    (size (meta P)) (seedBase (meta P)))
                 erase_st
                 (fun i s1 s2 =>
                    generate_step_erase pickFrom members P Q clock o
                      (size (meta P)) (seedBase (meta P)) i s1 s2 HPQ)
                 (upto (size (meta P)))
                 (makeLRU (JS.or_num (o_dedupeLRU o) 4096), [])
                 (makeLRU (JS.or_num (o_dedupeLRU o) 4096), [])
                 eq_refl))
    as [(e & -> & ->)|([c1 d1] & [c2 d2] & -> & -> & Hst)].
  - cbv beta iota delta [rbind rmap]. reflexivity.
  - cbv beta iota delta [rbind rmap].
    cbv [erase_st fst snd] in Hst. inversion Hst as [[Hc Hd]].
    rewrite !map_rev, Hd. reflexivity.
Qed.

(** C1, amended.  Two calls of [generatePool] on the same page (the same
    members, the same binding of [pickFrom]) with the same options that
    read the same clock values, on pool objects with the same meta, the
    same template fragments and the same number of stored messages as far
    as 100, both throw the same exception or return arrays equal index by
    index in id, text and timestamp. *)
Theorem generatePool_same_keys p q clock o :
  same_shape p q ->
  rmap (map key) (fst (generatePool pickFrom members p clock o)) =
  rmap (map key) (fst (generatePool pickFrom members q clock o)).
Proof.
  intros Hpq. unfold generatePool.
  destruct (rmap_eq_cases _ _ _ (generated_erase p q clock o Hpq))
    as [(e & -> & ->)|(e1 & e2 & -> & -> & He)].
  - reflexivity.
  - cbv beta iota delta [fst rmap]. f_equal.
    rewrite <- (map_key_erase (bump (sort_by_time (map a_msg e1)))).
    rewrite <- (map_key_erase (bump (sort_by_time (map a_msg e2)))).
    rewrite !bump_erase, !sort_by_time_erase, !map_erase_a_msg, He.
    reflexivity.
Qed.
End Repeat.

(** The options [{size: 10, seedBase: 30, spanDays: 1}]. *)
Definition opts_seed30 : opts :=
  {| o_size := Some 10; o_seedBase := Some 30; o_startTimestamp := None;
     o_endTimestamp := None; o_spanDays := Some 1; o_jitterMs := None;
     o_replyFraction := None; o_attachmentFraction := None;
     o_templates := None; o_dedupeLRU := None; o_pageSize := None |}.

(** C1 as stated fails: on a fresh page, as shipped and without members,
    [generatePool({size:10, seedBase:30, spanDays:1})] called twice returns
    two arrays that differ in a timestamp, even when the clock reads the
    same value throughout.  The second call finds stored messages and
    draws a reply target the first call did not draw. *)
Lemma generatePool_twice_differs :
  let first := generatePool None [] initial (fun _ => noon) opts_seed30 in
  let second := generatePool None [] (snd first) (fun _ => noon) opts_seed30 in
  (exists a1 a2, fst first = Ok a1 /\ fst second = Ok a2) /\
  rmap (map key) (fst first) <> rmap (map key) (fst second).
Proof.
  cbv zeta. split.
  - eexists. eexists. split; vm_compute; reflexivity.
  - intros H.
    apply (f_equal (fun r => match r with
                             | Ok l => map snd l
                             | Throw _ => []
                             end)) in H.
    revert H. vm_compute. discriminate.
Qed.

(** A witness of [generatePool_same_keys]: the pool a first call leaves and
    the pool a second call leaves. *)
Definition pool_seed1_second : pool :=
  Eval vm_compute in
    snd (generatePool None [] (snd run_seed1) (fun _ => noon) opts_seed1).

Lemma generatePool_same_keys_witness :
  same_shape (snd run_seed1) pool_seed1_second /\
  rmap (map key)
    (fst (generatePool None [] (snd run_seed1) (fun _ => noon) opts_seed1)) =
  rmap (map key)
    (fst (generatePool None [] pool_seed1_second (fun _ => noon) opts_seed1)).
Proof.
  assert (H : same_shape (snd run_seed1) pool_seed1_second)
    by (vm_compute; repeat split; reflexivity).
  split; [exact H|].
  apply (generatePool_same_keys None [] _ _ (fun _ => noon) opts_seed1 H).
Defined.

(** *** The generator view on a fresh page *)

Section ViewThrows.
Variable pickFrom : option (list Str.t -> Z -> Str.t * Z).
Variable members : list member.

(** Whether [_generateMessageForIndex] throws does not depend on the clock:
    the text is complete before [Date.now()] is read. *)
Lemma _generateMessageForIndex_throw_now p now now' i o e :
  _generateMessageForIndex pickFrom members p now i o = Throw e ->
  _generateMessageForIndex pickFrom members p now' i o = Throw e.
Proof.
  unfold _generateMessageForIndex.
  set (sx := match members with [] => _ | _ => _ end).
  destruct sx as [sender x].
  cbv beta iota zeta.
  set (r := message_text _ _ _). destruct r as [[t x']|e0].
  - unfold rbind.
    set (b1 := Rng.below _ _).
    destruct b1; cbv beta iota zeta;
      set (b2 := _ && _); destruct b2; cbv beta iota zeta;
      intros H; discriminate H.
  - cbv beta iota delta [rbind]. intros H. exact H.
Qed.

Lemma _generateMessageForIndex_ok_now p now now' i o m :
  _generateMessageForIndex pickFrom members p now i o = Ok m ->
  exists m', _generateMessageForIndex pickFrom members p now' i o = Ok m'.
Proof.
  intros H.
  destruct (_generateMessageForIndex pickFrom members p now' i o)
    as [m'|e] eqn:H'.
  - exists m'. reflexivity.
  - apply (_generateMessageForIndex_throw_now p now' now) in H'.
    rewrite H' in H. discriminate H.
Qed.

Lemma page_loop_throw_clock this start o clock clock' e (l : list Z) :
  forall arr arr',
    for_each (page_body pickFrom members this clock start o) l arr = Throw e ->
    for_each (page_body pickFrom members this clock' start o) l arr' = Throw e.
Proof.
  induction l as [|j l IH]; intros arr arr'; cbn [for_each].
  - intros H. discriminate H.
  - unfold page_body at 1 3. cbv beta zeta.
    destruct (_generateMessageForIndex pickFrom members this (clock (start + j))
                (start + j) (view_opts this o)) as [m|e1] eqn:Hg.
    + destruct (_generateMessageForIndex_ok_now _ _ (clock' (start + j)) _ _ _ Hg)
        as [m' ->].
      cbv beta iota delta [rbind]. apply IH.
    + apply (_generateMessageForIndex_throw_now _ _ (clock' (start + j))) in Hg.
      rewrite Hg. cbv beta iota delta [rbind]. intros H. exact H.
Qed.

Lemma nextPage_throw_clock this v start clock clock' e :
  nextPage pickFrom members this clock v start = Throw e ->
  nextPage pickFrom members this clock' v start = Throw e.
Proof.
  destruct v as [pageSize total|pageSize o]; unfold nextPage; cbv beta iota zeta.
  - intros H. discriminate H.
  - destruct (for_each (page_body pickFrom members this clock (Z.max 0 start) o) (upto pageSize) [])
      as [arr|e1] eqn:Hl; cbv beta iota delta [rbind]; intros H;
      [discriminate H|].
    inversion H; subst e1.
    rewrite (page_loop_throw_clock _ _ _ clock clock' e _ [] [] Hl).
    reflexivity.
Qed.
End ViewThrows.

(** The options [{pageSize: 50}]. *)
Definition opts_page50 : opts :=
  {| o_size := None; o_seedBase := None; o_startTimestamp := None;
     o_endTimestamp := None; o_spanDays := None; o_jitterMs := None;
     o_replyFraction := None; o_attachmentFraction := None;
     o_templates := None; o_dedupeLRU := None; o_pageSize := Some 50 |}.

(** C8, on the scripts as shipped.  On a fresh page without members,
    [createGeneratorView({pageSize:50}).nextPage(0)] returns no page: the
    call throws the ReferenceError of [pickFrom], which the text of
    message 11 reaches, whatever the clock reads. *)
Theorem nextPage_fresh_throws (clock : Z -> Z) :
  nextPage None [] initial clock (createGeneratorView initial opts_page50) 0
  = Throw (ReferenceError "pickFrom").
Proof.
  apply (nextPage_throw_clock None [] initial _ 0 (fun _ => noon) clock).
  vm_compute. reflexivity.
Qed.

End MessagePoolFacts.

(** ** The population *)

Module SyntheticPeopleFacts.
Import SyntheticPeople.

Lemma num_or_truthy (a : option num) (b : num) :
  truthy b = true -> truthy (num_or a b) = true.
Proof.
  intros Hb. destruct a as [v|]; cbn [num_or]; [|assumption].
  destruct (truthy v) eqn:Hv; assumption.
Qed.

Lemma truthy_not_NaN (v : num) : truthy v = true -> v <> NaN.
Proof. intros H ->. discriminate H. Qed.

Lemma Qle_bool_false (x y : Q) : Qle_bool x y = false -> (y < x)%Q.
Proof.
  intros H. apply Qnot_le_lt. intros Hle.
  apply Qle_bool_iff in Hle. congruence.
Qed.

(** What [clamp(v, a, b)] is for the number asked: the lower bound below
    it, the upper bound above it, the number itself in between. *)
Definition clamped (v : num) (a b s : Q) : Prop :=
  match v with
  | NaN => False
  | Inf true => s = a
  | Inf false => s = b
  | Fin q =>
      ((q < a)%Q -> s = a) /\ ((b < q)%Q -> s = b) /\
      ((a <= q)%Q -> (q <= b)%Q -> (s == q)%Q)
  end.

Lemma clamp_spec (v : num) (a b : Q) :
  (a < b)%Q -> v <> NaN ->
  exists s, clamp v a b = Fin s /\ (a <= s)%Q /\ (s <= b)%Q /\ clamped v a b s.
Proof.
  intros Hab Hv. pose proof (Qlt_le_weak _ _ Hab) as Hab'.
  assert (Hba : Qle_bool b a = false).
  { destruct (Qle_bool b a) eqn:E; [|reflexivity].
    apply Qle_bool_iff in E. exfalso. eapply Qlt_not_le; eassumption. }
  unfold clamp.
  destruct v as [|[|]|q]; cbn [num_min num_max clamped].
  - contradiction.
  - exists a. repeat split; [apply Qle_refl|assumption].
  - rewrite Hba. exists b. repeat split; [assumption|apply Qle_refl].
  - destruct (Qle_bool b q) eqn:E1.
    + rewrite Hba. exists b.
      apply Qle_bool_iff in E1.
      split; [reflexivity|]. split; [assumption|]. split; [apply Qle_refl|].
      split; [|split].
      * intros Hq. exfalso.
        apply (Qlt_not_le _ _ Hab). eapply Qle_trans; [exact E1|].
        apply Qlt_le_weak. assumption.
      * reflexivity.
      * intros _ Hq. apply Qle_antisym; assumption.
    + apply Qle_bool_false in E1.
      destruct (Qle_bool q a) eqn:E2.
      * apply Qle_bool_iff in E2. exists a.
        split; [reflexivity|]. split; [apply Qle_refl|]. split; [assumption|].
        split; [|split].
        -- reflexivity.
        -- intros Hq. exfalso. apply (Qlt_irrefl q).
           eapply Qlt_trans; eassumption.
        -- intros Hq _. apply Qle_antisym; assumption.
      * apply Qle_bool_false in E2. exists q.
        split; [reflexivity|].
        split; [apply Qlt_le_weak; assumption|].
        split; [apply Qlt_le_weak; assumption|].
        split; [|split].
        -- intros Hq. exfalso. apply (Qlt_irrefl q).
           eapply Qlt_trans; eassumption.
        -- intros Hq. exfalso. apply (Qlt_irrefl q).
           eapply Qlt_trans; eassumption.
        -- intros _ _. reflexivity.
Qed.

(** The number [opts.size || this.meta.size || 1000] evaluates to: the
    option when it is neither absent, 0 nor [NaN], else the size stored when
    that is neither 0 nor [NaN], else 1000. *)
Definition asked (this : state) (o : opts) : num :=
  let stored := if truthy (size (meta this)) then size (meta this)
                else Fin 1000 in
  match o_size o with
  | Some v => if truthy v then v else stored
  | None => stored
  end.

Lemma asked_truthy (this : state) (o : opts) : truthy (asked this o) = true.
Proof.
  unfold asked. cbv zeta.
  assert (H : truthy (if truthy (size (meta this)) then size (meta this)
                      else Fin 1000) = true).
  { destruct (truthy (size (meta this))) eqn:E; [assumption|reflexivity]. }
  destruct (o_size o) as [v|]; [|assumption].
  destruct (truthy v) eqn:E; assumption.
Qed.

Lemma pool_size_asked (this : state) (o : opts) :
  pool_size this o = clamp (asked this o) 10 20000.
Proof. reflexivity. Qed.

Lemma pool_size_range (this : state) (o : opts) :
  exists s, pool_size this o = Fin s /\ (10 <= s)%Q /\ (s <= 20000)%Q /\
            clamped (asked this o) 10 20000 s.
Proof.
  rewrite pool_size_asked. apply clamp_spec.
  - reflexivity.
  - apply truthy_not_NaN, asked_truthy.
Qed.

Lemma iterations_range (q : Q) :
  (10 <= q)%Q -> (q <= 20000)%Q ->
  iterations (Fin q) = Qceiling q /\ 10 <= Qceiling q <= 20000.
Proof.
  intros Hlo Hhi. cbn [iterations].
  assert (H1 : 10 <= Qceiling q).
  { change 10 with (Qceiling 10). apply Qceiling_resp_le. assumption. }
  assert (H2 : Qceiling q <= 20000).
  { change 20000 with (Qceiling 20000). apply Qceiling_resp_le. assumption. }
  lia.
Qed.

(** The array [generatePool] returns, person by person. *)
Lemma generatePool_people this clock coin o :
  fst (generatePool this clock coin o) =
  let size := value (pool_size this o) in
  let admins := draw_indices (elevated_count size (4 # 1000)) size
                  (Rng.xorshift32 (pool_seed this o)) in
  let mods := draw_indices (elevated_count size (3 # 100)) size (snd admins) in
  map (fun i => make_person (pool_seed this o) (fst admins) (fst mods)
                  (clock i) (coin i) i)
    (upto (iterations (pool_size this o))).
Proof.
  unfold generatePool. cbv zeta.
  destruct (draw_indices _ _ (Rng.xorshift32 _)) as [A r].
  cbv beta iota delta [fst snd].
  destruct (draw_indices _ _ r) as [M r'].
  reflexivity.
Qed.

Lemma generatePool_stores this clock coin o :
  people (snd (generatePool this clock coin o))
  = fst (generatePool this clock coin o) /\
  size (meta (snd (generatePool this clock coin o))) = pool_size this o.
Proof.
  unfold generatePool. cbv zeta.
  destruct (draw_indices _ _ (Rng.xorshift32 _)) as [A r].
  destruct (draw_indices _ _ r) as [M r'].
  split; reflexivity.
Qed.

(** C9, amended.  [generatePool] rejects no size.  The number it works
    from is the size option unless that is absent, 0 or [NaN], when it is
    the size stored (or 1000); the size it records is that number clamped:
    10 below 10, 20000 above 20000 and at [Infinity], the number itself in
    between.  The array it returns is the array it stores and has as many
    persons as the least integer not below the recorded size, so between 10
    and 20000. *)
Theorem generatePool_size_clamped this clock coin o :
  let arr := fst (generatePool this clock coin o) in
  let st := snd (generatePool this clock coin o) in
  people st = arr /\
  exists s,
    size (meta st) = Fin s /\
    clamped (asked this o) 10 20000 s /\
    (10 <= s)%Q /\ (s <= 20000)%Q /\
    Z.of_nat (length arr) = Qceiling s /\
    10 <= Z.of_nat (length arr) <= 20000.
Proof.
  cbv zeta.
  destruct (generatePool_stores this clock coin o) as [Hp Hs].
  destruct (pool_size_range this o) as (s & Hq & Hlo & Hhi & Hc).
  split; [exact Hp|]. exists s.
  split; [rewrite Hs; exact Hq|]. split; [exact Hc|].
  split; [exact Hlo|]. split; [exact Hhi|].
  rewrite generatePool_people. cbv zeta.
  rewrite length_map, length_upto, Hq.
  destruct (iterations_range s Hlo Hhi) as [-> Hr].
  rewrite Z2Nat.id by lia. split; [reflexivity|exact Hr].
Qed.

(** The options [{size: 0}]. *)
Definition opts_zero : opts :=
  {| o_size := Some (Fin 0); o_seedBase := None;
     o_uniqueAvatars := None; o_preferPhotos := None |}.

(** C9 as stated fails: the size 0 is out of range and is not clamped to
    10.  It is falsy, so the size stored is taken in its place, and on a
    fresh object [generatePool({size: 0})] returns 1000 persons. *)
Lemma generatePool_zero_not_clamped :
  clamp (Fin 0) 10 20000 = Fin 10 /\
  Z.of_nat (length (fst (generatePool initial (fun _ => 0) (fun _ => true)
                           opts_zero))) = 1000.
Proof.
  split; [reflexivity|].
  rewrite generatePool_people. cbv zeta.
  rewrite length_map, length_upto.
  vm_compute. reflexivity.
Qed.

(** *** Roles *)

Lemma make_person_role seedBase A M now coin i :
  let r := role (make_person seedBase A M now coin i) in
  (i ∈ A -> r = ADMIN) /\
  (i ∉ A -> r = MOD \/ r = VERIFIED).
Proof.
  unfold make_person. cbv zeta.
  destruct (makeDisplayName coin _) as [dn x].
  destruct (bool_decide (i ∈ A)) eqn:HA.
  - apply bool_decide_eq_true in HA.
    destruct (pickFrom countryHints _) as [c x'].
    cbv beta iota delta [role]. split; [reflexivity|contradiction].
  - apply bool_decide_eq_false in HA.
    destruct (bool_decide (i ∈ M)).
    + destruct (pickFrom countryHints _) as [c x'].
      cbv beta iota delta [role]. split; [contradiction|left; reflexivity].
    + destruct (Rng.below _ _);
        destruct (pickFrom countryHints _) as [c x'];
        cbv beta iota delta [role];
        (split; [contradiction|]); [left|right]; reflexivity.
Qed.

Lemma MOD_not_ADMIN : MOD <> ADMIN.
Proof. vm_compute. discriminate. Qed.

Lemma VERIFIED_not_ADMIN : VERIFIED <> ADMIN.
Proof. vm_compute. discriminate. Qed.

Lemma make_person_is_admin seedBase A M now coin i :
  str_eqb (role (make_person seedBase A M now coin i)) ADMIN
  = bool_decide (i ∈ A).
Proof.
  destruct (make_person_role seedBase A M now coin i) as [H1 H2].
  unfold str_eqb.
  destruct (decide (i ∈ A)) as [Hin|Hout].
  - rewrite (H1 Hin). rewrite !bool_decide_eq_true_2; auto.
  - rewrite (bool_decide_eq_false_2 (i ∈ A)) by assumption.
    apply bool_decide_eq_false_2.
    destruct (H2 Hout) as [-> | ->];
      [apply MOD_not_ADMIN|apply VERIFIED_not_ADMIN].
Qed.

Lemma count_admins seedBase A M clock coin (l : list Z) :
  length (List.filter (fun p => str_eqb (role p) ADMIN)
            (map (fun i => make_person seedBase A M (clock i) (coin i) i) l))
  = length (List.filter (fun i => bool_decide (i ∈ A)) l).
Proof.
  induction l as [|i l IH]; [reflexivity|].
  cbn [map List.filter]. rewrite make_person_is_admin.
  destruct (bool_decide (i ∈ A)); cbn [length]; rewrite IH; reflexivity.
Qed.

(** Every role [generatePool] assigns is ADMIN, MOD or VERIFIED. *)
Lemma generatePool_roles this clock coin o (p : person) :
  In p (fst (generatePool this clock coin o)) ->
  role p = ADMIN \/ role p = MOD \/ role p = VERIFIED.
Proof.
  rewrite generatePool_people. cbv zeta.
  intros Hin. apply in_map_iff in Hin as (i & <- & _).
  match goal with
  | |- context [make_person ?s ?A ?M ?n ?c i] =>
      destruct (make_person_role s A M n c i) as [H1 H2];
      destruct (decide (i ∈ A)) as [Hin|Hout]
  end.
  - left. apply H1. assumption.
  - right. destruct (H2 Hout) as [H|H]; [left|right]; exact H.
Qed.

(** The options [{size: 1000, seedBase: 2026}]. *)
Definition opts_2026 : opts :=
  {| o_size := Some (Fin 1000); o_seedBase := Some 2026;
     o_uniqueAvatars := None; o_preferPhotos := None |}.

(** C6.  [generatePool({size:1000, seedBase:2026})] flags exactly
    [Math.max(1, Math.round(1000*0.004))], that is 4, persons ADMIN (the four
    indices drawn are distinct), and a person who is neither ADMIN nor MOD
    is VERIFIED; this on every state of the object, at every clock and
    for every outcome of [Math.random]. *)
Theorem generatePool_2026_roles this clock coin :
  let arr := fst (generatePool this clock coin opts_2026) in
  elevated_count 1000 (4 # 1000) = 4 /\
  Z.of_nat (length (List.filter (fun p => str_eqb (role p) ADMIN) arr))
  = elevated_count 1000 (4 # 1000) /\
  forall p, In p arr -> role p <> ADMIN -> role p <> MOD -> role p = VERIFIED.
Proof.
  cbv zeta. split; [vm_compute; reflexivity|]. split.
  - rewrite generatePool_people.
    change (pool_size this opts_2026) with (Fin 1000).
    change (pool_seed this opts_2026) with 2026.
    cbv zeta. rewrite count_admins.
    vm_compute. reflexivity.
  - intros p Hin Ha Hm.
    destruct (generatePool_roles _ _ _ _ p Hin) as [H|[H|H]];
      [contradiction|contradiction|exact H].
Qed.

End SyntheticPeopleFacts.

(** ** The presence manager *)

Module PresenceManagerFacts.
Import PresenceManager.

(** [Math.max(lo, Math.min(hi, v))] *)
Definition clamp_between (lo hi v : Z) : Z := Z.max lo (Z.min hi v).

Lemma clamp_between_range (lo hi v : Z) : lo <= hi -> lo <= clamp_between lo hi v <= hi.
Proof. unfold clamp_between. lia. Qed.

Section Random.
Variable random : nat -> Q.

Lemma draw_opts (w : world) : opts (snd (draw random w)) = opts w.
Proof. unfold draw. destruct (rnd w); reflexivity. Qed.

Lemma put_members_opts (w : world) (s : source) (l : list person) :
  opts (put_members w s l) = opts w.
Proof. destruct s; reflexivity. Qed.

Lemma size_add_le (X : gset Z) (i : Z) : (size (X ∪ {[ i ]}) <= S (size X))%nat.
Proof.
  rewrite size_union_alt.
  assert (size (({[ i ]} : gset Z) ∖ X) <= 1)%nat.
  { rewrite <- (size_singleton (C := gset Z) i).
    apply subseteq_size. apply subseteq_difference_l. reflexivity. }
  lia.
Qed.

(** A turn of the loop keeps the options and the length of the array, and
    chooses at most one more member. *)
Lemma nudge_body_keeps (now : Z) (s : nudging) :
  opts (n_world (nudge_body random now s)) = opts (n_world s) /\
  length (n_list (nudge_body random now s)) = length (n_list s) /\
  (size (n_chosen (nudge_body random now s)) <= S (size (n_chosen s)))%nat.
Proof.
  unfold nudge_body. cbv zeta.
  pose proof (draw_opts (n_world s)) as H1.
  destruct (draw random (n_world s)) as [q w]. cbn [snd] in H1.
  destruct (Arr.get (n_list s) _) as [p|] eqn:Hp; cbn [n_world n_list n_chosen].
  - destruct (is_online w now p); cbn [n_world n_list n_chosen].
    + repeat split; [assumption|lia].
    + pose proof (draw_opts w) as H2.
      destruct (draw random w) as [q' w']. cbn [snd] in H2.
      cbn [n_world n_list n_chosen].
      split; [congruence|]. split; [|apply size_add_le].
      unfold Arr.set. destruct (_ <? 0); [reflexivity|].
      apply length_insert.
  - repeat split; [assumption|lia].
Qed.

Lemma nudge_loop_keeps (toNudge now : Z) (fuel : nat) :
  forall s,
    Z.of_nat (size (n_chosen s)) <= toNudge ->
    let s' := nudge_loop random toNudge now fuel s in
    opts (n_world s') = opts (n_world s) /\
    length (n_list s') = length (n_list s) /\
    Z.of_nat (size (n_chosen s)) <= Z.of_nat (size (n_chosen s')) <= toNudge.
Proof.
  induction fuel as [|fuel IH]; intros s Hs; cbn [nudge_loop]; cbv zeta.
  - repeat split; lia.
  - destruct (nudge_cond toNudge s) eqn:Hc; [|repeat split; lia].
    unfold nudge_cond in Hc. apply andb_true_iff in Hc as [Hc _].
    apply Z.ltb_lt in Hc.
    destruct (nudge_body_keeps now s) as (Ho & Hl & Hn).
    assert (Hs' : Z.of_nat (size (n_chosen (nudge_body random now s))) <= toNudge)
      by lia.
    destruct (IH _ Hs') as (Ho' & Hl' & Hn').
    cbv zeta in Ho', Hl', Hn'.
    split; [congruence|]. split; [congruence|].
    split; [|lia].
    etransitivity; [|apply Hn'].
    apply inj_le. apply subseteq_size.
    unfold nudge_body. cbv zeta.
    destruct (draw random (n_world s)) as [q w].
    destruct (Arr.get (n_list s) _) as [p|]; cbn [n_chosen]; [|reflexivity].
    destruct (is_online w now p); cbn [n_chosen]; [reflexivity|].
    destruct (draw random w) as [q' w']. cbn [n_chosen].
    apply union_subseteq_l.
Qed.

(** [nudgeToBaseline] returns a number from 0 to [need] (0 when [need] is
    not positive), and keeps the options and the length of the array. *)
Lemma nudgeToBaseline_spec (w : world) (now : Z) (lst : list person) (need : Z) :
  let r := nudgeToBaseline random w now lst need in
  0 <= fst (fst r) <= Z.max 0 need /\
  length (snd (fst r)) = length lst /\
  opts (snd r) = opts w.
Proof.
  unfold nudgeToBaseline. cbv zeta.
  destruct lst as [|p lst]; [cbn [fst snd]; repeat split; lia|].
  destruct (Z.leb_spec need 0); [cbn [fst snd]; repeat split; lia|].
  set (toNudge := Z.min need _).
  set (s0 := {| n_list := p :: lst; n_chosen := ∅; n_attempts := 0;
                n_world := w |}).
  assert (H0 : Z.of_nat (size (n_chosen s0)) <= toNudge).
  { cbn [n_chosen s0]. rewrite size_empty. unfold toNudge. lia. }
  destruct (nudge_loop_keeps toNudge now (Z.to_nat (F64.flz (toNudge * 8))) s0 H0)
    as (Ho & Hl & Hn).
  cbv zeta in Ho, Hl, Hn. cbn [fst snd].
  split; [|split; assumption].
  unfold toNudge in Hn at 2. lia.
Qed.

Lemma with_opts_opts (w : world) (o : options) : opts (with_opts w o) = o.
Proof. reflexivity. Qed.

(** The visible count is the count of members online, raised by what was
    nudged when it is below the baseline, and clamped. *)
Lemma computeVisibleOnline_spec (w : world) (now : Z) :
  let real := computeRealOnline w now (snd (getMemberList w)) in
  let need := F64.flz (baselineOnline (opts w) - real) in
  exists nudged,
    0 <= nudged <= Z.max 0 need /\
    fst (computeVisibleOnline random w now)
    = clamp_between (minOnline (opts w)) (maxOnline (opts w))
        (if real <? baselineOnline (opts w) then F64.flz (real + nudged)
         else real) /\
    opts (snd (computeVisibleOnline random w now)) = opts w.
Proof.
  cbv zeta. unfold computeVisibleOnline.
  destruct (getMemberList w) as [src lst]. cbn [snd]. cbv zeta.
  destruct (computeRealOnline w now lst <? baselineOnline (opts w)).
  - pose proof (nudgeToBaseline_spec w now lst
                  (F64.flz (baselineOnline (opts w) - computeRealOnline w now lst)))
      as (Hn & _ & Ho).
    cbv zeta in Hn, Ho.
    destruct (nudgeToBaseline random w now lst _) as [[n l'] w'].
    cbn [fst snd] in *.
    exists n. split; [exact Hn|].
    rewrite put_members_opts, Ho. split; reflexivity.
  - exists 0. cbn [fst snd]. split; [lia|]. split; reflexivity.
Qed.

Lemma computeVisibleOnline_range (w : world) (now : Z) :
  minOnline (opts w) <= maxOnline (opts w) ->
  minOnline (opts w) <= fst (computeVisibleOnline random w now)
  <= maxOnline (opts w).
Proof.
  intros H. destruct (computeVisibleOnline_spec w now) as (n & _ & -> & _).
  apply clamp_between_range. assumption.
Qed.

(** What [updateUICounts] shows it computed from the visible count and the
    jitter, clamped again; it keeps the options. *)
Lemma updateUICounts_spec (w : world) (now : Z) :
  opts (updateUICounts random w now) = opts w /\
  (onlineCount w = None -> onlineCount (updateUICounts random w now) = None) /\
  (onlineCount w <> None ->
   exists v, onlineCount (updateUICounts random w now)
             = Some (clamp_between (minOnline (opts w)) (maxOnline (opts w)) v)).
Proof.
  unfold updateUICounts.
  destruct (getMemberList w) as [src lst]. cbv zeta.
  set (w1 := with_counts w (onlineCount w) _).
  change (onlineCount w1) with (onlineCount w).
  destruct (onlineCount w) as [old|] eqn:Hold.
  - destruct (computeVisibleOnline_spec w1 now) as (n & _ & _ & Ho).
    destruct (computeVisibleOnline random w1 now) as [v w2]. cbn [snd] in Ho.
    pose proof (draw_opts w2) as Hd.
    destruct (draw random w2) as [q w3]. cbn [snd] in Hd.
    cbn [opts with_counts onlineCount].
    change (opts w1) with (opts w) in Ho.
    rewrite Hd, Ho.
    split; [reflexivity|]. split; [discriminate|].
    intros _. eexists. reflexivity.
  - split; [reflexivity|]. split; [intros _; reflexivity|].
    intros H. contradiction.
Qed.

Lemma decay_body_opts (now excess : Z) (st : list person * Z * world)
  (p : person) :
  opts (snd (decay_body random now excess st p)) = opts (snd st).
Proof.
  destruct st as [[done decayed] w]. unfold decay_body. cbn [snd].
  destruct (decayed <? excess); [|reflexivity].
  destruct (is_online w now p); [|reflexivity].
  pose proof (draw_opts w) as H1.
  destruct (draw random w) as [q w1]. cbn [snd] in H1.
  destruct (below_half q); [|exact H1].
  pose proof (draw_opts w1) as H2.
  destruct (draw random w1) as [q' w2]. cbn [snd] in H2. cbn [snd].
  congruence.
Qed.

Lemma decay_fold_opts (now excess : Z) (l : list person) :
  forall st,
    opts (snd (fold_left (decay_body random now excess) l st)) = opts (snd st).
Proof.
  induction l as [|p l IH]; intros st; cbn [fold_left]; [reflexivity|].
  rewrite IH. apply decay_body_opts.
Qed.

Lemma decaySomeToIdle_opts (w : world) (now : Z) (lst : list person) (excess : Z) :
  opts (snd (decaySomeToIdle random w now lst excess)) = opts w.
Proof.
  unfold decaySomeToIdle.
  destruct lst as [|p lst]; [reflexivity|].
  destruct (excess <=? 0); [reflexivity|].
  pose proof (decay_fold_opts now excess (p :: lst) ([], 0, w)) as H.
  destruct (fold_left _ _ _) as [[done decayed] w']. exact H.
Qed.

(** The page [tick] hands to [updateUICounts] has the options of the
    page it started from. *)
Lemma tick_spec (w : world) (now : Z) :
  exists w', tick random w now = updateUICounts random w' now /\
             opts w' = opts w.
Proof.
  unfold tick.
  destruct (SyntheticPeople.simulatePresenceStep _ _ _ _ _) as [p pos].
  cbv zeta.
  set (w1 := with_people w p pos).
  destruct (getMemberList w1) as [src lst].
  destruct (computeRealOnline w1 now lst <? baselineOnline (opts w1)).
  - pose proof (nudgeToBaseline_spec w1 now lst
                  (F64.flz (baselineOnline (opts w1) - computeRealOnline w1 now lst)))
      as (_ & _ & Ho).
    cbv zeta in Ho.
    destruct (nudgeToBaseline random w1 now lst _) as [[n l'] w2].
    cbn [snd] in Ho.
    eexists. split; [reflexivity|].
    rewrite put_members_opts. exact Ho.
  - destruct (maxOnline (opts w1) <? computeRealOnline w1 now lst).
    + pose proof (decaySomeToIdle_opts w1 now lst
                    (F64.flz (computeRealOnline w1 now lst - maxOnline (opts w1))))
        as Ho.
      destruct (decaySomeToIdle random w1 now lst _) as [[n l'] w2].
      cbn [snd] in Ho.
      eexists. split; [reflexivity|].
      rewrite put_members_opts. exact Ho.
    + eexists. split; reflexivity.
Qed.

(** C3, amended.  On a page configured with [minOnline <= maxOnline], at
    every state of the members and of the generator and at every clock:
    the count [computeVisibleOnline] returns lies in
    [[minOnline, maxOnline]]; it is the clamp of the members online, raised
    when they are fewer than the baseline by what was nudged, which is at
    most the number missing; the count [updateUICounts] writes into an
    existing [#onlineCount] lies in the interval, jitter included; and so
    does every count [tick] leaves there. *)
Theorem visible_online_in_range (w : world) (now : Z) :
  minOnline (opts w) <= maxOnline (opts w) ->
  let lo := minOnline (opts w) in
  let hi := maxOnline (opts w) in
  let real := computeRealOnline w now (snd (getMemberList w)) in
  lo <= fst (computeVisibleOnline random w now) <= hi /\
  (exists nudged,
     0 <= nudged <= Z.max 0 (F64.flz (baselineOnline (opts w) - real)) /\
     fst (computeVisibleOnline random w now)
     = clamp_between lo hi (if real <? baselineOnline (opts w)
                      then F64.flz (real + nudged) else real)) /\
  (onlineCount w <> None ->
   exists d, onlineCount (updateUICounts random w now) = Some d /\
             lo <= d <= hi) /\
  (forall d, onlineCount (tick random w now) = Some d -> lo <= d <= hi).
Proof.
  intros H. cbv zeta.
  split; [apply computeVisibleOnline_range; assumption|].
  split.
  - destruct (computeVisibleOnline_spec w now) as (n & Hn & Hv & _).
    exists n. split; assumption.
  - split.
    + intros He.
      destruct (updateUICounts_spec w now) as (_ & _ & Hs).
      destruct (Hs He) as [v Hv].
      eexists. split; [exact Hv|]. apply clamp_between_range. assumption.
    + intros d Hd.
      destruct (tick_spec w now) as (w' & Ht & Ho).
      rewrite Ht in Hd.
      destruct (updateUICounts_spec w' now) as (_ & Hnone & Hsome).
      destruct (onlineCount w') as [old|] eqn:Hold.
      * destruct (Hsome ltac:(discriminate)) as [v Hv].
        rewrite Hv in Hd. injection Hd as <-.
        rewrite Ho. apply clamp_between_range. assumption.
      * rewrite (Hnone eq_refl) in Hd. discriminate Hd.
Qed.

End Random.

(** A page with the default options and no members, its counter showing
    0. *)
Definition quiet : world := initial (Some 0) None.

(** [configure({minOnline: 300})] *)
Definition min_300 : config :=
  {| c_baselineOnline := None; c_minOnline := Some 300; c_maxOnline := None;
     c_tickMs := None; c_nudgePercent := None; c_simulateStepPercent := None;
     c_jitterMs := None; c_seedBase := None |}.

(** C3 as stated fails: [configure] stores what it is given, and after
    [configure({minOnline: 300})] the count computed is 300, above the
    [maxOnline] of 250. *)
Lemma visible_online_above_max :
  maxOnline (opts (configure quiet min_300)) = 250 /\
  fst (computeVisibleOnline (fun _ => 0%Q) (configure quiet min_300) 1700000000000)
  = 300 /\
  onlineCount (updateUICounts (fun _ => 0%Q) (configure quiet min_300) 1700000000000)
  = Some 300.
Proof. vm_compute. repeat split; reflexivity. Qed.

Lemma visible_online_in_range_witness :
  minOnline (opts quiet) <= maxOnline (opts quiet) /\
  60 <= fst (computeVisibleOnline (fun _ => 0%Q) quiet 1700000000000) <= 250.
Proof.
  assert (H : minOnline (opts quiet) <= maxOnline (opts quiet))
    by (vm_compute; discriminate).
  split; [exact H|].
  exact (proj1 (visible_online_in_range (fun _ => 0%Q) quiet 1700000000000 H)).
Defined.

End PresenceManagerFacts.

(** ** The typing engine *)

Module TypingEngineFacts.
Import TypingEngine.

(** What can happen to the engine: a call of its API, a timeout firing, or
    another script replacing the member arrays. *)
Inductive event : Type :=
| Configure (o : options)
| TriggerTyping (now : Z) (names : list Str.t) (durationMs : option Z)
| Clear
| SimulateOnce (now count : Z)
| Fire (id : Z)
| SetMembers (sample people : list member).

(** The session as the engine holds it: no timeout remembered, none
    pending and the row inactive; or one remembered, it alone pending, and
    the row active. *)
Definition one_session (p : page) : Prop :=
  match clearTimer p with
  | Some id =>
      active p = true /\ id < next_id p /\
      exists due, timers p = [{| t_id := id; t_due := due |}]
  | None => active p = false /\ timers p = []
  end.

(** The fields of a session. *)
Definition session (p : page) : bool * option Z * list timeout * Z :=
  (active p, clearTimer p, timers p, next_id p).

Section Random.
Variable random : nat -> Q.

Definition step (p : page) (e : event) : page :=
  match e with
  | Configure o => configure p o
  | TriggerTyping now names durationMs =>
      triggerTyping random p now names durationMs
  | Clear => clear p
  | SimulateOnce now count => simulateOnce random p now count
  | Fire id => fire p id
  | SetMembers sample people => with_members p sample people
  end.

Definition run (p : page) (es : list event) : page := fold_left step es p.

Lemma draw_session (p : page) : session (snd (draw random p)) = session p.
Proof. unfold draw. destruct (rnd p); reflexivity. Qed.

Lemma draw_index_session (p : page) (n : Z) :
  session (snd (draw_index random p n)) = session p.
Proof.
  unfold draw_index. pose proof (draw_session p) as H.
  destruct (draw random p) as [q p']. exact H.
Qed.

Lemma draw_maxPick_session (p : page) (n : Z) :
  session (snd (draw_maxPick random p n)) = session p.
Proof.
  unfold draw_maxPick. pose proof (draw_index_session p (Z.min 4 n)) as H.
  destruct (draw_index random p _) as [k p']. exact H.
Qed.

Lemma pick_sample_session (st : list Str.t * page) :
  session (snd (pick_sample random st)) = session (snd st).
Proof.
  destruct st as [pick p]. unfold pick_sample.
  pose proof (draw_index_session p (Z.of_nat (length (sampleMembers p)))) as H.
  destruct (draw_index random p _) as [i p']. cbn [snd] in *.
  destruct (Arr.get _ i) as [choice|]; [|exact H].
  destruct (MessagePool.m_displayName choice) as [[|c s]|]; exact H.
Qed.

Lemma pick_person_session (st : list Str.t * page) :
  session (snd (pick_person random st)) = session (snd st).
Proof.
  destruct st as [pick p]. unfold pick_person.
  pose proof (draw_index_session p (Z.of_nat (length (people p)))) as H.
  destruct (draw_index random p _) as [i p']. cbn [snd] in *.
  destruct (Arr.get _ i) as [person|]; exact H.
Qed.

Lemma member_label_session (st : list Str.t * page) :
  session (snd (member_label random st)) = session (snd st).
Proof.
  destruct st as [names p]. unfold member_label.
  pose proof (draw_index_session p 999) as H.
  destruct (draw_index random p _) as [k p']. exact H.
Qed.

Lemma iter_session (f : list Str.t * page -> list Str.t * page) :
  (forall st, session (snd (f st)) = session (snd st)) ->
  forall (n : nat) st, session (snd (Nat.iter n f st)) = session (snd st).
Proof.
  intros Hf. induction n as [|n IH]; intros st; cbn [Nat.iter nat_rect];
    [reflexivity|].
  rewrite Hf. apply IH.
Qed.

Lemma sample_names_session (p : page) :
  session (snd (sample_names random p)) = session p.
Proof.
  unfold sample_names.
  assert (H1 : session
                 (snd match sampleMembers p with
                      | _ :: _ =>
                          let '(maxPick, p0) :=
                            draw_maxPick random p
                              (Z.of_nat (length (sampleMembers p))) in
                          Nat.iter (Z.to_nat maxPick) (pick_sample random) ([], p0)
                      | [] => ([], p)
                      end) = session p).
  { destruct (sampleMembers p); [reflexivity|].
    pose proof (draw_maxPick_session p (Z.of_nat (length (m :: l)))) as H.
    destruct (draw_maxPick random p _) as [k p'].
    rewrite (iter_session _ pick_sample_session). exact H. }
  destruct (match sampleMembers p with [] => _ | _ => _ end) as [provided p1].
  cbn [snd] in H1.
  destruct provided; [|exact H1].
  destruct (people p1) eqn:Hp; [exact H1|].
  pose proof (draw_maxPick_session p1 (Z.of_nat (length (m :: l)))) as H.
  destruct (draw_maxPick random p1 _) as [k p'].
  rewrite (iter_session _ pick_person_session). cbn [snd] in *. congruence.
Qed.

Lemma clearTimeout_one (id due : Z) :
  clearTimeout [{| t_id := id; t_due := due |}] id = [].
Proof. unfold clearTimeout. cbn [List.filter t_id]. rewrite Z.eqb_refl. reflexivity. Qed.

Lemma one_session_session (p q : page) :
  session q = session p -> one_session p -> one_session q.
Proof.
  unfold session, one_session. intros H. injection H as -> -> -> ->.
  intros Hp. exact Hp.
Qed.

(** The timeouts left once the remembered one is cleared: none. *)
Lemma cleared (p : page) :
  one_session p ->
  match clearTimer p with
  | Some id => clearTimeout (timers p) id
  | None => timers p
  end = [].
Proof.
  unfold one_session. destruct (clearTimer p) as [id|].
  - intros (_ & _ & due & ->). apply clearTimeout_one.
  - intros [_ ->]. reflexivity.
Qed.

(** [triggerTyping] ends the session there was and begins one: the
    timeout pending before is gone, the new one is the only one. *)
Lemma triggerTyping_session (p : page) (now : Z) (names : list Str.t)
  (durationMs : option Z) :
  one_session p ->
  let p' := triggerTyping random p now names durationMs in
  active p' = true /\ clearTimer p' = Some (next_id p) /\
  next_id p' = next_id p + 1 /\
  exists due, timers p' = [{| t_id := next_id p; t_due := due |}].
Proof.
  intros Hp. unfold triggerTyping. cbv zeta.
  set (sp := match provided_of names with [] => sample_names random p | _ => _ end).
  assert (Hs : session (snd sp) = session p).
  { unfold sp. destruct (provided_of names); [apply sample_names_session|reflexivity]. }
  destruct sp as [provided p1]. cbn [snd] in Hs.
  unfold session in Hs. injection Hs as Ha Hc Ht Hn.
  cbn [active clearTimer next_id timers with_session].
  assert (Hcl : match clearTimer p1 with
                | Some id => clearTimeout (timers p1) id
                | None => timers p1
                end = []).
  { rewrite Hc, Ht. apply cleared. assumption. }
  rewrite Hcl, Hn. cbn [app].
  repeat split. eexists. reflexivity.
Qed.

Lemma triggerTyping_one_session (p : page) now names durationMs :
  one_session p -> one_session (triggerTyping random p now names durationMs).
Proof.
  intros Hp.
  destruct (triggerTyping_session p now names durationMs Hp)
    as (Ha & Hc & Hn & due & Ht).
  unfold one_session. rewrite Hc. split; [exact Ha|]. split; [lia|].
  exists due. exact Ht.
Qed.

Lemma clear_one_session (p : page) : one_session p -> one_session (clear p).
Proof.
  intros Hp. unfold one_session, clear, clearTypingUI.
  cbn [clearTimer active timers with_session].
  split; [reflexivity|]. apply cleared. assumption.
Qed.

Lemma fire_one_session (p : page) (id : Z) :
  one_session p -> one_session (fire p id).
Proof.
  intros Hp. unfold fire.
  destruct (existsb _ (timers p)) eqn:He; [|assumption].
  unfold one_session, clearTypingUI.
  cbn [clearTimer active timers with_session].
  split; [reflexivity|].
  unfold one_session in Hp. destruct (clearTimer p) as [id'|].
  - destruct Hp as (_ & _ & due & Ht). rewrite Ht in *.
    cbn [existsb t_id] in He. rewrite orb_false_r in He.
    apply Z.eqb_eq in He. subst id'. apply clearTimeout_one.
  - destruct Hp as [_ Ht]. rewrite Ht in He. discriminate He.
Qed.

Lemma simulateOnce_one_session (p : page) (now count : Z) :
  one_session p -> one_session (simulateOnce random p now count).
Proof.
  intros Hp. unfold simulateOnce.
  set (np := if count <=? 0 then _ else _).
  assert (Hn : session (snd np) = session p).
  { unfold np. destruct (count <=? 0); [|reflexivity].
    pose proof (draw_index_session p 3) as H.
    destruct (draw_index random p 3) as [k p']. exact H. }
  destruct np as [n p1]. cbn [snd] in Hn.
  set (sn := match sampleMembers p1 with [] => _ | _ => _ end).
  assert (Hs : session (snd sn) = session p1).
  { unfold sn. destruct (sampleMembers p1).
    - destruct (people p1).
      + apply (iter_session _ member_label_session).
      + apply (iter_session _ pick_person_session).
    - apply (iter_session _ pick_sample_session). }
  destruct sn as [names p2]. cbn [snd] in Hs.
  apply triggerTyping_one_session.
  apply (one_session_session p); [congruence|exact Hp].
Qed.

Lemma configure_session (p : page) (o : options) :
  session (configure p o) = session p.
Proof. unfold configure. destruct (o_seedBase o) as [[sb|]|]; reflexivity. Qed.

Lemma step_one_session (p : page) (e : event) :
  one_session p -> one_session (step p e).
Proof.
  intros Hp. destruct e; cbn [step].
  - exact (one_session_session _ _ (configure_session p o) Hp).
  - apply triggerTyping_one_session. assumption.
  - apply clear_one_session. assumption.
  - apply simulateOnce_one_session. assumption.
  - apply fire_one_session. assumption.
  - exact Hp.
Qed.

Lemma run_one_session (es : list event) :
  forall p, one_session p -> one_session (run p es).
Proof.
  unfold run. induction es as [|e es IH]; intros p Hp; cbn [fold_left].
  - assumption.
  - apply IH, step_one_session. assumption.
Qed.

(** The names shown are the names given, when some are. *)
Lemma triggerTyping_shown (p : page) now (names : list Str.t) durationMs :
  provided_of names <> [] ->
  shown (triggerTyping random p now names durationMs)
  = slice (maxNames (cfg p)) (provided_of names).
Proof.
  intros Hn. unfold triggerTyping. cbv zeta.
  destruct (provided_of names) as [|n ns]; [contradiction|].
  reflexivity.
Qed.

(** C4.  Whatever has happened to the engine (calls of its API in any
    order, timeouts firing, other scripts replacing the members), it holds
    at most one pending timeout, and it is active exactly when one is
    pending, which is the one it remembers.  A [triggerTyping] then leaves
    the engine active with exactly one pending timeout, a new one; every
    timeout pending before the call is cancelled, so that its firing is no
    event any more; and the row shows the names of this call alone. *)
Theorem one_typing_session (sample people : list member) (es : list event) :
  let p := run (initial sample people) es in
  (length (timers p) <= 1)%nat /\
  (active p = true <->
   exists t, timers p = [t] /\ clearTimer p = Some (t_id t)) /\
  (active p = false <-> timers p = []) /\
  forall now names durationMs,
    let p' := triggerTyping random p now names durationMs in
    active p' = true /\
    (exists t, timers p' = [t] /\ clearTimer p' = Some (t_id t) /\
               t_id t = next_id p) /\
    (forall t, t ∈ timers p -> (t ∉ timers p') /\ fire p' (t_id t) = p') /\
    (provided_of names <> [] ->
     shown p' = slice (maxNames (cfg p)) (provided_of names)).
Proof.
  cbv zeta.
  assert (Hp : one_session (run (initial sample people) es)).
  { apply run_one_session. split; reflexivity. }
  set (p := run (initial sample people) es) in *.
  split; [|split; [|split]].
  - unfold one_session in Hp. destruct (clearTimer p).
    + destruct Hp as (_ & _ & due & ->). cbn [length]. lia.
    + destruct Hp as [_ ->]. cbn [length]. lia.
  - unfold one_session in Hp. destruct (clearTimer p) as [id|].
    + destruct Hp as (Ha & _ & due & Ht). split; [|intros _; exact Ha].
      intros _. eexists. split; [exact Ht|reflexivity].
    + destruct Hp as [Ha Ht]. split; [congruence|].
      intros (t & Ht' & _). congruence.
  - unfold one_session in Hp. destruct (clearTimer p) as [id|].
    + destruct Hp as (Ha & _ & due & Ht). split; [congruence|].
      rewrite Ht. discriminate.
    + destruct Hp as [Ha Ht]. split; [intros _; exact Ht|intros _; exact Ha].
  - intros now names durationMs.
    destruct (triggerTyping_session p now names durationMs Hp)
      as (Ha & Hc & Hn & due & Ht).
    split; [exact Ha|]. split; [|split].
    + eexists. split; [exact Ht|]. split; [exact Hc|reflexivity].
    + intros t Hin.
      assert (Hid : t_id t < next_id p).
      { unfold one_session in Hp. destruct (clearTimer p) as [id|].
        - destruct Hp as (_ & Hlt & due' & Ht'). rewrite Ht' in Hin.
          apply list_elem_of_singleton in Hin. subst t. exact Hlt.
        - destruct Hp as [_ Ht']. rewrite Ht' in Hin.
          apply elem_of_nil in Hin. contradiction. }
      split.
      * rewrite Ht. intros Hin'. apply list_elem_of_singleton in Hin'.
        subst t. cbn [t_id] in Hid. lia.
      * unfold fire. rewrite Ht. cbn [existsb t_id].
        destruct (Z.eqb_spec (next_id p) (t_id t)); [lia|reflexivity].
    + apply triggerTyping_shown.
Qed.

End Random.

(** [trigger(['Ava'], 500)] at time 0, then [trigger(['Kofi'], 500)] at
    time 100, on a fresh page: Kofi alone is shown, the one timeout pending
    is due at 600, and firing the first timeout, due at 500, does
    nothing. *)
Example ava_then_kofi :
  let random := fun _ : nat => 0%Q in
  let p1 := triggerTyping random (initial [] []) 0 [Str.lit "Ava"] (Some 500) in
  let p2 := triggerTyping random p1 100 [Str.lit "Kofi"] (Some 500) in
  timers p1 = [{| t_id := 1; t_due := 500 |}] /\
  shown p2 = [Str.lit "Kofi"] /\ active p2 = true /\
  timers p2 = [{| t_id := 2; t_due := 600 |}] /\
  fire p2 1 = p2 /\
  active (fire p2 2) = false /\ shown (fire p2 2) = [].
Proof. vm_compute. repeat split; reflexivity. Qed.

End TypingEngineFacts.

(** ** The simulation engine *)

Module SimulationEngineFacts.

Import SimulationEngine.

























(** What happens on the page: a call of the engine's interface, a timeout
    of the engine that fires, a call of [MessagePool.generatePool] by
    another script, a timeout of the typing engine that fires. *)
Inductive event : Type :=
  | Configure (o : options)
  | Start (now : Z)
  | Stop
  | TriggerOnce (now : Z)
  | SetRate (r : Z)
  | SetUseStreamAPI (b : bool)
  | SetSimulateTypingBeforeSend (b : bool)
  | SetStartIndex (n : Z)
  | Fire (now id : Z)
  | Generate (clock : Z -> Z) (o : MessagePool.opts)
  | TypingFire (id : Z).

Section Page.

Variable pickFrom : option (list Str.t -> Z -> Str.t * Z).
Variable members : list MessagePool.member.
Variable random : nat -> Q.

Definition step (p : page) (e : event) : page :=
  match e with
  | Configure o => configure p o
  | Start now => start pickFrom members p now
  | Stop => stop p
  | TriggerOnce now => triggerOnce pickFrom members random p now
  | SetRate r => setRate p r
  | SetUseStreamAPI b => setUseStreamAPI p b
  | SetSimulateTypingBeforeSend b => setSimulateTypingBeforeSend p b
  | SetStartIndex n => setStartIndex p n
  | Fire now id => fire pickFrom members random p now id
  | Generate clock o =>
      with_pool p
        (snd (MessagePool.generatePool pickFrom members (pool p) clock o))
  | TypingFire id => with_typing p (TypingEngine.fire (typing p) id)
  end.

Definition run (p : page) (es : list event) : page := fold_left step es p.



















End Page.


(** [configure({ simulateTypingBeforeSend: false })] *)
Definition streaming : options :=
  {| o_seedBase := None; o_useStreamAPI := None;
     o_simulateTypingBeforeSend := Some false; o_ratePerMin := None;
     o_pageSize := None; o_jitterFraction := None; o_typingMinMs := None;
     o_typingMaxMs := None; o_typingPerCharMs := None;
     o_simulateTypingFraction := None |}.

(** The page as the scripts leave it, with no members. *)
Definition fresh : page := initial (TypingEngine.initial [] []).



(** [configure({ simulateTypingBeforeSend: false }); start()] at
    1700000000000 and the first emission, [Math.random] returning 0.5. *)
Definition streamed : page :=
  run None [] (fun _ => (1 # 2)%Q) fresh
    [Configure streaming; Start 1700000000000; Fire 1700000000000 1].

(** [stop()] does cancel the streamer: once the stream has emitted its
    first message the next emission is pending, and [stop()] empties the
    table and marks the streamer stopped; its timeout does not fire. *)
Example stop_cancels_streamer :
  thrown streamed = [] /\ length (rendered streamed) = 1%nat /\
  pageIdx streamed = 1 /\
  t_run <$> timers streamed = [EmitOne 0] /\
  t_due <$> timers streamed = [1700000001333] /\
  currentStreamer streamed = Some 0%nat /\
  timers (stop streamed) = [] /\ currentStreamer (stop streamed) = None /\
  s_stopped <$> streamers (stop streamed) = [true] /\
  fire None [] (fun _ => (1 # 2)%Q) (stop streamed) 1700000001333 2
  = stop streamed.
Proof. vm_compute. repeat split; reflexivity. Qed.

End SimulationEngineFacts.
